(** * lulofoto: the incremental photo organizer

    A shallow embedding of [src/lulofoto.py] (the organizer with the
    [--start-date] option) and of [src/bak-foto.py] (the earlier organizer
    without it), and the properties of the incremental-sync engine they
    share.

    Layout:
    - [Py]        the fragment of the Python runtime the scripts rely on:
                  exceptions, dynamically typed values, naive datetimes,
                  [os.path] string functions;
    - [World]     what the scripts observe of the file system and clock;
    - [Engine]    the state-and-exception monad in which the walk runs;
    - [Shared]    the functions the two scripts define alike;
    - [Lulofoto], [BakFoto]   the loop body, [organize_photos] and [main]
                  of each script;
    - [Settings]  the configuration file of [lulofoto.py] and its [main]
                  with [load_config] and [save_config];
    - [Sample], [Scenes]   a runtime, a few source trees and processes to
                  run the scripts on;
    - the vocabulary of the properties, the lemmas, and the properties of
      the specification, numbered as there (C1 to C10);
    - further properties of the scripts (X1 to X18): what a run does to
      the destination and to the state file, which names are images, and
      what [main] does with the saved configuration.

    What the embedding takes for granted: the source tree does not change
    while a run looks at it (what [os.walk], [os.path.getmtime] and PIL
    report is a function of the path); [print] does not fail; file names
    are those [os.walk] gives; the state file is identified with the JSON
    value it holds; [Path.suffix] is the one of Python up to 3.13. *)

From Stdlib Require Import ZArith Ascii String List Bool Lia.
From Stdlib Require Import DecimalString DecimalNat.
From stdpp Require Import base gmap strings list fin_maps.

Local Open Scope string_scope.
Local Open Scope Z_scope.

#[local] Set Warnings "-register-all".
#[local] Arguments String.append : simpl nomatch.

(* ===================================================================== *)
(** * The Python fragment                                                  *)
(* ===================================================================== *)

Module Py.

(** Exceptions derived from [Exception]; every one of them is caught by
    [except Exception] and by a bare [except].  [OutOfFuel] is not a
    Python exception: it marks the bound of the embedding's [while] loop,
    which [while_exists_terminates] shows is never reached. *)
Inductive exn : Type :=
| OSError
| FileExistsError
| ValueError
| TypeError
| KeyError
| AttributeError
| JSONDecodeError
| OutOfFuel.

(** The outcome of evaluating an expression that may raise. *)
Inductive result (A : Type) : Type :=
| Ok (a : A)
| Raise (e : exn).
Arguments Ok {A} a.
Arguments Raise {A} e.

Definition result_bind {A B} (r : result A) (f : A -> result B) : result B :=
  match r with
  | Ok a => f a
  | Raise e => Raise e
  end.

(** ** Naive datetimes *)

Record datetime : Type := mkdt {
  year : Z; month : Z; day : Z;
  hour : Z; minute : Z; second : Z; microsecond : Z
}.

Definition lex (c : comparison) (k : comparison) : comparison :=
  match c with
  | Eq => k
  | Lt => Lt
  | Gt => Gt
  end.

(** Naive datetimes are ordered field by field. *)
Definition dt_compare (a b : datetime) : comparison :=
  lex (Z.compare (year a) (year b))
 (lex (Z.compare (month a) (month b))
 (lex (Z.compare (day a) (day b))
 (lex (Z.compare (hour a) (hour b))
 (lex (Z.compare (minute a) (minute b))
 (lex (Z.compare (second a) (second b))
      (Z.compare (microsecond a) (microsecond b))))))).

Definition dt_ltb (a b : datetime) : bool :=
  match dt_compare a b with Lt => true | _ => false end.

Definition dt_leb (a b : datetime) : bool :=
  match dt_compare a b with Gt => false | _ => true end.

(** [d.replace(hour=0, minute=0, second=0, microsecond=0)] *)
Definition start_of_day (d : datetime) : datetime :=
  mkdt (year d) (month d) (day d) 0 0 0 0.

(** ** Strings *)

(** [str(n)] for a non-negative integer. *)
Definition str (n : nat) : string :=
  NilEmpty.string_of_uint (Nat.to_uint n).

(** ["%02d" % n] for a non-negative integer. *)
Definition pad2 (n : Z) : string :=
  let s := str (Z.to_nat n) in
  if (String.length s <? 2)%nat then "0" +:+ s else s.

(** [d.strftime("%y%m%d")] *)
Definition strftime_yymmdd (d : datetime) : string :=
  pad2 (year d mod 100) +:+ pad2 (month d) +:+ pad2 (day d).

Definition lower_ascii (c : ascii) : ascii :=
  let n := nat_of_ascii c in
  if ((65 <=? n) && (n <=? 90))%nat then ascii_of_nat (n + 32) else c.

(** [s.lower()] *)
Fixpoint lower (s : string) : string :=
  match s with
  | EmptyString => EmptyString
  | String c s' => String (lower_ascii c) (lower s')
  end.

(** [s.rfind(c)], counting from position [i]; [-1] when [c] is absent. *)
Fixpoint rfind_from (c : ascii) (s : string) (i : Z) : Z :=
  match s with
  | EmptyString => -1
  | String a s' =>
      let r := rfind_from c s' (i + 1) in
      if 0 <=? r then r else if Ascii.eqb a c then i else -1
  end.

Definition rfind (c : ascii) (s : string) : Z := rfind_from c s 0.

(** [s[:i]] and [s[i:]] for [0 <= i]. *)
Fixpoint take (i : nat) (s : string) : string :=
  match i, s with
  | S i', String c s' => String c (take i' s')
  | _, _ => EmptyString
  end.

Fixpoint drop (i : nat) (s : string) : string :=
  match i, s with
  | S i', String _ s' => drop i' s'
  | _, _ => s
  end.

Definition startswith (c : ascii) (s : string) : bool :=
  match s with
  | String a _ => Ascii.eqb a c
  | EmptyString => false
  end.

Fixpoint endswith (c : ascii) (s : string) : bool :=
  match s with
  | EmptyString => false
  | String a EmptyString => Ascii.eqb a c
  | String _ s' => endswith c s'
  end.

(** [sub in s] on strings. *)
Fixpoint contains_substring (sub s : string) : bool :=
  String.prefix sub s
  || match s with
     | EmptyString => false
     | String _ s' => contains_substring sub s'
     end.

(** ** [os.path] and [pathlib] on POSIX *)

(** [os.path.join(a, b)] *)
Definition join (a b : string) : string :=
  if startswith "/" b then b
  else if (String.length a =? 0)%nat || endswith "/" a then a +:+ b
  else a +:+ "/" +:+ b.

(** [Path(name).suffix] for a bare file name (one without separator). *)
Definition suffix (name : string) : string :=
  let i := rfind "." name in
  if (0 <? i) && (i <? Z.of_nat (String.length name) - 1)
  then drop (Z.to_nat i) name
  else "".

(** The loop of [genericpath._splitext] that skips leading dots: is there
    a character other than the dot in [p[from : from + n]]? *)
Fixpoint has_non_dot (p : string) (from : nat) (n : nat) : bool :=
  match n with
  | O => false
  | S n' =>
      match String.get from p with
      | Some c => if Ascii.eqb c "." then has_non_dot p (S from) n' else true
      | None => true
      end
  end.

(** [os.path.splitext(p)] *)
Definition splitext (p : string) : string * string :=
  let sepIndex := rfind "/" p in
  let dotIndex := rfind "." p in
  if (sepIndex <? dotIndex)
     && has_non_dot p (Z.to_nat (sepIndex + 1)) (Z.to_nat (dotIndex - (sepIndex + 1)))
  then (take (Z.to_nat dotIndex) p, drop (Z.to_nat dotIndex) p)
  else (p, "").

(** ** Dynamically typed values

    What [json.load] produces, extended with [datetime] objects, which
    [load_state] stores under ['last_sync'].  A [dict] keeps its keys in
    insertion order. *)
Inductive pyval : Type :=
| VNone
| VBool (b : bool)
| VInt (z : Z)
| VStr (s : string)
| VList (l : list pyval)
| VDict (d : list (string * pyval))
| VDatetime (t : datetime).

Fixpoint dict_get (k : string) (d : list (string * pyval)) : option pyval :=
  match d with
  | [] => None
  | (k', v) :: d' => if String.eqb k' k then Some v else dict_get k d'
  end.

(** [d[k] = v]: an existing key keeps its position. *)
Fixpoint dict_set (k : string) (v : pyval) (d : list (string * pyval))
  : list (string * pyval) :=
  match d with
  | [] => [(k, v)]
  | (k', v') :: d' =>
      if String.eqb k' k then (k', v) :: d' else (k', v') :: dict_set k v d'
  end.

Definition is_str (k : string) (v : pyval) : bool :=
  match v with
  | VStr s => String.eqb s k
  | _ => false
  end.

(** [k in v] for a string [k]. *)
Definition py_contains (k : string) (v : pyval) : result bool :=
  match v with
  | VDict d => Ok (match dict_get k d with Some _ => true | None => false end)
  | VList l => Ok (existsb (is_str k) l)
  | VStr s => Ok (contains_substring k s)
  | _ => Raise TypeError
  end.

(** [v[k]] for a string [k]. *)
Definition py_getitem (v : pyval) (k : string) : result pyval :=
  match v with
  | VDict d => match dict_get k d with Some x => Ok x | None => Raise KeyError end
  | _ => Raise TypeError
  end.

(** [v[k] = x] for a string [k]. *)
Definition py_setitem (v : pyval) (k : string) (x : pyval) : result pyval :=
  match v with
  | VDict d => Ok (VDict (dict_set k x d))
  | _ => Raise TypeError
  end.

(** Truth value of an object, as tested by [if], [and] and [not]. *)
Definition truthy (v : pyval) : bool :=
  match v with
  | VNone => false
  | VBool b => b
  | VInt z => negb (z =? 0)
  | VStr s => negb (String.length s =? 0)%nat
  | VList l => negb (length l =? 0)%nat
  | VDict d => negb (length d =? 0)%nat
  | VDatetime _ => true
  end.

(** [t <= v] for a datetime [t]. *)
Definition py_datetime_le (t : datetime) (v : pyval) : result bool :=
  match v with
  | VDatetime u => Ok (dt_leb t u)
  | _ => Raise TypeError
  end.

(** Can [json.dump] serialize the value?  Datetimes cannot. *)
Fixpoint serializable (v : pyval) : bool :=
  match v with
  | VDatetime _ => false
  | VList l => forallb serializable l
  | VDict d => forallb (fun kv => serializable (snd kv)) d
  | _ => true
  end.

End Py.

(* ===================================================================== *)
(** * The world the scripts run in                                         *)
(* ===================================================================== *)

Module World.
Import Py.

(** Library functions the scripts call by name.  Their definitions are not
    part of the repository; the development is parametric in them. *)
Class Runtime : Type := {
  (** [os.path.abspath] *)
  abspath : string -> string;
  (** [os.path.relpath(path, start)] *)
  relpath : string -> string -> string;
  (** [PIL.ExifTags.TAGS], from tag number to tag name *)
  TAGS : Z -> option string;
  (** [datetime.strptime(s, "%Y:%m:%d %H:%M:%S")] *)
  strptime_exif : string -> result datetime;
  (** [datetime.strptime(s, "%y%m%d")] *)
  strptime_yymmdd : string -> result datetime;
  (** [datetime.fromtimestamp] *)
  fromtimestamp : Z -> result datetime;
  (** [d.isoformat()] *)
  isoformat : datetime -> string;
  (** [datetime.fromisoformat(s)] on a string *)
  fromisoformat : string -> result datetime
}.

(** A value of an EXIF field: text, or anything else (bytes, numbers,
    tuples), which [strptime] rejects with [TypeError]. *)
Inductive exif_value : Type :=
| ExifStr (s : string)
| ExifOther.

(** What [shutil.copy2(src, dst)] does for a given source: it writes the
    whole file, or raises, possibly leaving a partly written [dst]. *)
Inductive copy_outcome : Type :=
| CopyDone (data : list Byte.byte)
| CopyFailed (e : exn) (left_behind : option (list Byte.byte)).

(** Faults of [open(state_path, 'w')] followed by [json.dump]. *)
Inductive write_fault : Type :=
| WriteOk
| OpenFails (e : exn)
| DumpFails (e : exn).

(** What a run observes and does not change: the source tree, the image
    library, the clock and the faults of the destination device. *)
Record world : Type := {
  (** the module-level flag set by the guarded import of PIL *)
  HAS_PIL : bool;
  (** [os.path.exists] on the source side *)
  source_exists : string -> bool;
  (** [os.walk(top)]: the [(root, files)] of every directory visited *)
  walk : string -> list (string * list string);
  (** [Image.open(p)._getexif()]: raises, yields [None], or the fields in
      the order [items()] gives them *)
  getexif : string -> result (option (list (Z * exif_value)));
  (** [os.path.getmtime] *)
  getmtime : string -> result Z;
  (** the outcome of [shutil.copy2] reading the given source *)
  copy2_from : string -> copy_outcome;
  (** does creating the directory fail? *)
  mkdir_fault : string -> option exn;
  (** how writing the state file goes *)
  state_write : write_fault;
  (** [datetime.now()] when the walk has ended *)
  now : datetime
}.

(** The destination tree. *)
Inductive node : Type :=
| Dir
| File (data : list Byte.byte).

(** The state file of a destination directory, as [load_state] finds it:
    absent; present but [open] raises; present but [json.load] raises; or
    holding a JSON document, identified with the value it parses to. *)
Inductive sidecar : Type :=
| SidecarMissing
| SidecarUnreadable (e : exn)
| SidecarMalformed (e : exn)
| SidecarJson (v : pyval).

(** What the scripts print. *)
Record stats : Type := mkstats {
  total_found : nat;
  copied : nat;
  skipped : nat;
  errors : nat
}.

Inductive output : Type :=
| WarnLoadState (e : exn)
| WarnSaveState (e : exn)
| ErrSourceMissing (source_dir : string)
| StartingFrom (d : datetime)
| LastSync (d : datetime)
| CopyingAll
| Copied (filename date_folder : string)
| ErrProcessing (filename : string) (e : exn)
| Summary (s : stats).

End World.

(* ===================================================================== *)
(** * The monad of a run                                                   *)
(* ===================================================================== *)

Module Engine.
Import Py World.

(** Everything a run changes: the counters, the [copied_files] dictionary
    (one object, shared between the loaded state and the walk), the
    destination tree, the state file and the console. *)
Record state : Type := mkstate {
  st_stats : stats;
  st_copied_files : pyval;
  st_files : gmap string node;
  st_sidecar : sidecar;
  st_out : list output
}.

(** A computation changes the state and returns or raises; the changes
    made before an exception is raised stay, as in Python. *)
Definition M (A : Type) : Type := state -> result A * state.

Definition ret {A} (a : A) : M A := fun s => (Ok a, s).

Definition bind {A B} (m : M A) (f : A -> M B) : M B :=
  fun s =>
    match m s with
    | (Ok a, s') => f a s'
    | (Raise e, s') => (Raise e, s')
    end.

Definition raise {A} (e : exn) : M A := fun s => (Raise e, s).

Definition lift {A} (r : result A) : M A := fun s => (r, s).

(** [try: m  except Exception as e: h e] *)
Definition try_except {A} (m : M A) (h : exn -> M A) : M A :=
  fun s =>
    match m s with
    | (Ok a, s') => (Ok a, s')
    | (Raise e, s') => h e s'
    end.

Definition gets {A} (f : state -> A) : M A := fun s => (Ok (f s), s).

Definition modify (f : state -> state) : M unit := fun s => (Ok tt, f s).

Declare Scope engine_scope.
Delimit Scope engine_scope with engine.
Bind Scope engine_scope with M.

Notation "x <- m ;; k" := (bind m (fun x => k))
  (at level 100, m at next level, right associativity) : engine_scope.
Notation "m ;; k" := (bind m (fun _ => k))
  (at level 100, right associativity) : engine_scope.

Local Open Scope engine_scope.

Definition set_stats (f : stats -> stats) : M unit :=
  modify (fun s =>
    mkstate (f (st_stats s)) (st_copied_files s) (st_files s) (st_sidecar s) (st_out s)).

Definition set_copied_files (v : pyval) : M unit :=
  modify (fun s =>
    mkstate (st_stats s) v (st_files s) (st_sidecar s) (st_out s)).

Definition set_files (fs : gmap string node) : M unit :=
  modify (fun s =>
    mkstate (st_stats s) (st_copied_files s) fs (st_sidecar s) (st_out s)).

Definition set_sidecar (sc : sidecar) : M unit :=
  modify (fun s =>
    mkstate (st_stats s) (st_copied_files s) (st_files s) sc (st_out s)).

(** [print(...)] *)
Definition print (o : output) : M unit :=
  modify (fun s =>
    mkstate (st_stats s) (st_copied_files s) (st_files s) (st_sidecar s) (st_out s ++ [o])).

(** [stats[...] += 1] *)
Definition incr_total_found : M unit :=
  set_stats (fun t => mkstats (S (total_found t)) (copied t) (skipped t) (errors t)).
Definition incr_copied : M unit :=
  set_stats (fun t => mkstats (total_found t) (S (copied t)) (skipped t) (errors t)).
Definition incr_skipped : M unit :=
  set_stats (fun t => mkstats (total_found t) (copied t) (S (skipped t)) (errors t)).
Definition incr_errors : M unit :=
  set_stats (fun t => mkstats (total_found t) (copied t) (skipped t) (S (errors t))).

(** [for x in l: body x] *)
Fixpoint for_each {A} (l : list A) (body : A -> M unit) : M unit :=
  match l with
  | [] => ret tt
  | x :: l' => body x ;; for_each l' body
  end.

(** ** The destination tree *)

(** [os.path.exists(p)] *)
Definition path_exists (fs : gmap string node) (p : string) : bool :=
  match fs !! p with
  | Some _ => true
  | None => false
  end.

(** [os.makedirs(p, exist_ok=True)], the parents of [p] being there. *)
Definition makedirs (w : world) (p : string) : M unit :=
  fs <- gets st_files ;;
  match fs !! p with
  | Some Dir => ret tt
  | Some (File _) => raise FileExistsError
  | None =>
      match mkdir_fault w p with
      | Some e => raise e
      | None => set_files (<[p := Dir]> fs)
      end
  end.

(** [shutil.copy2(src, dst)] *)
Definition copy2 (w : world) (src dst : string) : M unit :=
  fs <- gets st_files ;;
  match copy2_from w src with
  | CopyDone data => set_files (<[dst := File data]> fs)
  | CopyFailed e None => raise e
  | CopyFailed e (Some data) => set_files (<[dst := File data]> fs) ;; raise e
  end.

End Engine.

(* ===================================================================== *)
(** * The functions both scripts define, word for word alike               *)
(* ===================================================================== *)

Module Shared.
Import Py World Engine.
Local Open Scope engine_scope.

Definition STATE_FILE : string := ".photo_organizer_state.json".

Definition IMAGE_EXTENSIONS : list string :=
  [".jpg"; ".jpeg"; ".png"; ".gif"; ".bmp"; ".tiff"; ".tif";
   ".heic"; ".heif"; ".raw"; ".cr2"; ".nef"; ".arw"; ".dng"].

(** [is_image_file(filename)] *)
Definition is_image_file (filename : string) : bool :=
  existsb (String.eqb (lower (suffix filename))) IMAGE_EXTENSIONS.

Section WithRuntime.
Context `{RT : Runtime}.
Variable w : world.

(** [tag in ['DateTimeOriginal', 'DateTime', 'DateTimeDigitized']] for
    [tag = TAGS.get(tag_id, tag_id)]; a number is none of the names. *)
Definition is_date_tag (tag_id : Z) : bool :=
  match TAGS tag_id with
  | Some tag =>
      existsb (String.eqb tag) ["DateTimeOriginal"; "DateTime"; "DateTimeDigitized"]
  | None => false
  end.

(** [datetime.strptime(value, "%Y:%m:%d %H:%M:%S")] *)
Definition parse_exif (value : exif_value) : result datetime :=
  match value with
  | ExifStr s => strptime_exif s
  | ExifOther => Raise TypeError
  end.

(** The loop over [exif_data.items()]: the first date field that parses
    is returned, a field that does not parse is passed over. *)
Fixpoint scan_exif (items : list (Z * exif_value)) : option datetime :=
  match items with
  | [] => None
  | (tag_id, value) :: rest =>
      if is_date_tag tag_id then
        match parse_exif value with
        | Ok d => Some d
        | Raise _ => scan_exif rest
        end
      else scan_exif rest
  end.

(** The guarded EXIF attempt of [get_photo_date]: [Some d] when it
    returns [d], [None] when control reaches the fallback. *)
Definition exif_date (file_path : string) : option datetime :=
  if HAS_PIL w then
    match getexif w file_path with
    | Ok (Some items) =>
        if negb (length items =? 0)%nat then scan_exif items else None
    | Ok None => None
    | Raise _ => None
    end
  else None.

(** [datetime.fromtimestamp(os.path.getmtime(p))] *)
Definition file_mtime_of (p : string) : result datetime :=
  result_bind (getmtime w p) fromtimestamp.

(** [get_photo_date(file_path)] *)
Definition get_photo_date (file_path : string) : result datetime :=
  match exif_date file_path with
  | Some d => Ok d
  | None => file_mtime_of file_path
  end.

Definition default_state : pyval :=
  VDict [("last_sync", VNone); ("copied_files", VDict [])].

(** The [try] block of [load_state]. *)
Definition load_state_try (sc : sidecar) : result pyval :=
  match sc with
  | SidecarMissing => Raise OSError
  | SidecarUnreadable e => Raise e
  | SidecarMalformed e => Raise e
  | SidecarJson st =>
      result_bind (py_contains "last_sync" st) (fun has =>
      if has then
        result_bind (py_getitem st "last_sync") (fun v =>
        result_bind (match v with
                     | VStr s => fromisoformat s
                     | _ => Raise TypeError
                     end) (fun d =>
        py_setitem st "last_sync" (VDatetime d)))
      else Ok st)
  end.

(** [load_state(dest_dir)]; the state file of [dest_dir] is [st_sidecar]. *)
Definition load_state (dest_dir : string) : M pyval :=
  sc <- gets st_sidecar ;;
  match sc with
  | SidecarMissing => ret default_state
  | _ =>
      try_except (lift (load_state_try sc))
                 (fun e => print (WarnLoadState e) ;; ret default_state)
  end.

(** The [try] block of [save_state]. *)
Definition save_state_try (state_copy : pyval) : M unit :=
  match state_write w with
  | OpenFails e => raise e
  | DumpFails e => set_sidecar (SidecarMalformed JSONDecodeError) ;; raise e
  | WriteOk =>
      if serializable state_copy
      then set_sidecar (SidecarJson state_copy)
      else set_sidecar (SidecarMalformed JSONDecodeError) ;; raise TypeError
  end.

(** [save_state(dest_dir, state)] *)
Definition save_state (dest_dir : string) (state : pyval) : M unit :=
  last_sync <- lift (py_getitem state "last_sync") ;;
  state_copy <-
    (if truthy last_sync then
       match last_sync with
       | VDatetime d => lift (py_setitem state "last_sync" (VStr (isoformat d)))
       | _ => raise AttributeError
       end
     else ret state) ;;
  try_except (save_state_try state_copy)
             (fun e => print (WarnSaveState e)).

(** The [while os.path.exists(dest_path)] loop. *)
Fixpoint while_exists (fs : gmap string node) (dest_folder base ext : string)
    (fuel : nat) (dest_path : string) (counter : nat) : option string :=
  match fuel with
  | O => None
  | S fuel' =>
      if path_exists fs dest_path then
        let new_filename := base +:+ "_" +:+ str counter +:+ ext in
        while_exists fs dest_folder base ext fuel'
                     (join dest_folder new_filename) (S counter)
      else Some dest_path
  end.

(** "Handle duplicate filenames": the path the copy is written to. *)
Definition plan_dest_path (dest_folder filename : string) : M string :=
  fs <- gets st_files ;;
  let dest_path := join dest_folder filename in
  if path_exists fs dest_path then
    let '(base, ext) := splitext filename in
    match while_exists fs dest_folder base ext (size fs + 2) dest_path 1 with
    | Some p => ret p
    | None => raise OutOfFuel
    end
  else ret dest_path.

(** The way an iteration of the walk ends. *)
Inductive action : Type :=
| SkippedFloor
| SkippedSynced
| CopiedTo (dest_path : string).

(** Lines 199-221 of [lulofoto.py], 159-181 of [bak-foto.py]: from the
    date folder to the [Copied:] line. *)
Definition copy_photo (dest_dir source_path filename file_key : string)
    (photo_date : datetime) : M action :=
  let date_folder := strftime_yymmdd photo_date in
  let dest_folder := join dest_dir date_folder in
  makedirs w dest_folder ;;
  dest_path <- plan_dest_path dest_folder filename ;;
  copy2 w source_path dest_path ;;
  copied_files <- gets st_copied_files ;;
  copied_files' <- lift (py_setitem copied_files file_key (VStr (isoformat photo_date))) ;;
  set_copied_files copied_files' ;;
  incr_copied ;;
  print (Copied filename date_folder) ;;
  ret (CopiedTo dest_path).

(** [not force_all and (not start_date and) last_sync and
    file_mtime <= last_sync], then [file_key in copied_files]. *)
Definition already_synced (guard : bool) (last_sync : pyval)
    (file_mtime : datetime) (file_key : string) : M bool :=
  if guard && truthy last_sync then
    le <- lift (py_datetime_le file_mtime last_sync) ;;
    if (le : bool) then
      copied_files <- gets st_copied_files ;;
      lift (py_contains file_key copied_files)
    else ret false
  else ret false.

End WithRuntime.
End Shared.

(* ===================================================================== *)
(** * [lulofoto.py]                                                        *)
(* ===================================================================== *)

Module Lulofoto.
Import Py World Engine Shared.
Local Open Scope engine_scope.

Section WithRuntime.
Context `{RT : Runtime}.
Variable w : world.

Definition before_start (start_date : option datetime) (photo_date : datetime) : bool :=
  match start_date with
  | Some sd => dt_ltb photo_date sd
  | None => false
  end.

Definition unset (start_date : option datetime) : bool :=
  match start_date with
  | Some _ => false
  | None => true
  end.

(** The [try] block of the loop body (lines 179-221). *)
Definition file_body (source_dir dest_dir : string) (force_all : bool)
    (start_date : option datetime) (last_sync : pyval)
    (root filename : string) : M action :=
  let source_path := join root filename in
  photo_date <- lift (get_photo_date w source_path) ;;
  if before_start start_date photo_date then
    incr_skipped ;; ret SkippedFloor
  else
    file_mtime <- lift (file_mtime_of w source_path) ;;
    let file_key := relpath source_path source_dir in
    synced <- already_synced (negb force_all && unset start_date)
                             last_sync file_mtime file_key ;;
    if (synced : bool) then
      incr_skipped ;; ret SkippedSynced
    else
      copy_photo w dest_dir source_path filename file_key photo_date.

(** One iteration of [for filename in files] (lines 172-225). *)
Definition process_file (source_dir dest_dir : string) (force_all : bool)
    (start_date : option datetime) (last_sync : pyval)
    (root filename : string) : M unit :=
  if negb (is_image_file filename) then ret tt
  else
    incr_total_found ;;
    try_except
      (file_body source_dir dest_dir force_all start_date last_sync root filename ;;
       ret tt)
      (fun e => incr_errors ;; print (ErrProcessing filename e)).

(** The banner printed before the walk (lines 152-159). *)
Definition announce (force_all : bool) (start_date : option datetime)
    (last_sync : pyval) : M unit :=
  match start_date with
  | Some sd => print (StartingFrom sd)
  | None =>
      if truthy last_sync && negb force_all then
        match last_sync with
        | VDatetime d => print (LastSync d)
        | _ => raise AttributeError
        end
      else print CopyingAll
  end.

(** [organize_photos(source_dir, dest_dir, force_all, start_date)] *)
Definition organize_photos (source_dir dest_dir : string) (force_all : bool)
    (start_date : option datetime) : M bool :=
  let source_dir := abspath source_dir in
  let dest_dir := abspath dest_dir in
  if negb (source_exists w source_dir) then
    print (ErrSourceMissing source_dir) ;; ret false
  else
    makedirs w dest_dir ;;
    state <- load_state dest_dir ;;
    last_sync <- lift (py_getitem state "last_sync") ;;
    copied_files <- lift (py_getitem state "copied_files") ;;
    set_copied_files copied_files ;;
    announce force_all start_date last_sync ;;
    set_stats (fun _ => mkstats 0 0 0 0) ;;
    for_each (walk w source_dir) (fun '(root, files) =>
      for_each files
        (process_file source_dir dest_dir force_all start_date last_sync root)) ;;
    state <- lift (py_setitem state "last_sync" (VDatetime (now w))) ;;
    copied_files <- gets st_copied_files ;;
    state <- lift (py_setitem state "copied_files" copied_files) ;;
    save_state w dest_dir state ;;
    s <- gets st_stats ;;
    print (Summary s) ;;
    ret true.

(** The command line after [argparse], and the configuration
    [load_config] returns. *)
Record args : Type := {
  arg_source : option string;
  arg_destination : option string;
  arg_force_all : bool;
  arg_start_date : option string
}.

Record config : Type := {
  cfg_source : option string;
  cfg_destination : option string;
  cfg_start_date : option datetime
}.

(** [a or b] on optional strings: [None] and [''] are false. *)
Definition str_or (a b : option string) : option string :=
  match a with
  | Some s => if (String.length s =? 0)%nat then b else Some s
  | None => b
  end.

Definition given (a : option string) : bool :=
  match a with
  | Some s => negb (String.length s =? 0)%nat
  | None => false
  end.

(** [main()]: the exit status of the process and the state it leaves.
    An exception that escapes [organize_photos] ends the interpreter with
    status 1.  [save_config] touches only the configuration file in the
    home directory and catches its own exceptions. *)
Definition main (a : args) (c : config) (s : state) : Z * state :=
  let source := str_or (arg_source a) (cfg_source c) in
  let destination := str_or (arg_destination a) (cfg_destination c) in
  match source, destination with
  | Some source, Some destination =>
      if given (Some source) && given (Some destination) then
        let start_date :=
          if given (arg_start_date a) then
            match arg_start_date a with
            | Some text =>
                match strptime_yymmdd text with
                | Ok d => Ok (Some (start_of_day d))
                | Raise e => Raise e
                end
            | None => Ok None
            end
          else
            match cfg_start_date c with
            | Some d => Ok (Some (start_of_day d))
            | None => Ok None
            end in
        match start_date with
        | Raise _ => (1, s)
        | Ok start_date =>
            match organize_photos source destination (arg_force_all a) start_date s with
            | (Ok success, s') => (if (success : bool) then 0 else 1, s')
            | (Raise _, s') => (1, s')
            end
        end
      else (1, s)
  | _, _ => (1, s)
  end.

End WithRuntime.
End Lulofoto.

(* ===================================================================== *)
(** * [bak-foto.py]                                                        *)
(* ===================================================================== *)

Module BakFoto.
Import Py World Engine Shared.
Local Open Scope engine_scope.

Section WithRuntime.
Context `{RT : Runtime}.
Variable w : world.

(** The [try] block of the loop body (lines 144-181): the modification
    time and the state are looked at before the photo date is resolved. *)
Definition file_body (source_dir dest_dir : string) (force_all : bool)
    (last_sync : pyval) (root filename : string) : M action :=
  let source_path := join root filename in
  file_mtime <- lift (file_mtime_of w source_path) ;;
  let file_key := relpath source_path source_dir in
  synced <- already_synced (negb force_all) last_sync file_mtime file_key ;;
  if (synced : bool) then
    incr_skipped ;; ret SkippedSynced
  else
    photo_date <- lift (get_photo_date w source_path) ;;
    copy_photo w dest_dir source_path filename file_key photo_date.

(** One iteration of [for filename in files] (lines 137-185). *)
Definition process_file (source_dir dest_dir : string) (force_all : bool)
    (last_sync : pyval) (root filename : string) : M unit :=
  if negb (is_image_file filename) then ret tt
  else
    incr_total_found ;;
    try_except
      (file_body source_dir dest_dir force_all last_sync root filename ;; ret tt)
      (fun e => incr_errors ;; print (ErrProcessing filename e)).

(** The banner printed before the walk (lines 120-124). *)
Definition announce (force_all : bool) (last_sync : pyval) : M unit :=
  if truthy last_sync && negb force_all then
    match last_sync with
    | VDatetime d => print (LastSync d)
    | _ => raise AttributeError
    end
  else print CopyingAll.

(** [organize_photos(source_dir, dest_dir, force_all)] *)
Definition organize_photos (source_dir dest_dir : string) (force_all : bool)
    : M bool :=
  let source_dir := abspath source_dir in
  let dest_dir := abspath dest_dir in
  if negb (source_exists w source_dir) then
    print (ErrSourceMissing source_dir) ;; ret false
  else
    makedirs w dest_dir ;;
    state <- load_state dest_dir ;;
    last_sync <- lift (py_getitem state "last_sync") ;;
    copied_files <- lift (py_getitem state "copied_files") ;;
    set_copied_files copied_files ;;
    announce force_all last_sync ;;
    set_stats (fun _ => mkstats 0 0 0 0) ;;
    for_each (walk w source_dir) (fun '(root, files) =>
      for_each files
        (process_file source_dir dest_dir force_all last_sync root)) ;;
    state <- lift (py_setitem state "last_sync" (VDatetime (now w))) ;;
    copied_files <- gets st_copied_files ;;
    state <- lift (py_setitem state "copied_files" copied_files) ;;
    save_state w dest_dir state ;;
    s <- gets st_stats ;;
    print (Summary s) ;;
    ret true.

(** [main()]: the exit status of the process. *)
Definition main (source destination : string) (force_all : bool) (s : state)
    : Z * state :=
  match organize_photos source destination force_all s with
  | (Ok success, s') => (if (success : bool) then 0 else 1, s')
  | (Raise _, s') => (1, s')
  end.

End WithRuntime.
End BakFoto.

(* ===================================================================== *)
(** * The saved configuration and the whole of [main]                      *)
(* ===================================================================== *)

Module Settings.
Import Py World Engine Shared.

(** [d.get(k)] on a dictionary. *)
Definition get (d : list (string * pyval)) (k : string) : pyval :=
  match dict_get k d with
  | Some v => v
  | None => VNone
  end.

(** What [load_config], [save_config] and [main] print themselves. *)
Inductive notice : Type :=
| WarnLoadConfig (e : exn)
| WarnSaveConfig (e : exn)
| ConfigSaved
| ErrArgumentsRequired
| ErrInvalidDate (text : string)
| Banner (source destination : pyval)
| UsingSavedConfiguration
| BannerRule.

(** A process of [lulofoto.py]: what [organize_photos] works on; the
    configuration file of the home directory, which like the state file
    is absent, unreadable, malformed or a JSON document; and the lines
    printed outside [organize_photos], each with the number of lines
    [organize_photos] had printed before it. *)
Record process : Type := mkprocess {
  disk : state;
  config_file : sidecar;
  notices : list (nat * notice)
}.

Definition say (n : notice) (p : process) : process :=
  mkprocess (disk p) (config_file p)
            (notices p ++ [(length (st_out (disk p)), n)]).

Definition with_disk (p : process) (d : state) : process :=
  mkprocess d (config_file p) (notices p).

Definition with_config_file (p : process) (cf : sidecar) : process :=
  mkprocess (disk p) cf (notices p).

Section WithRuntime.
Context `{RT : Runtime}.
Variable w : world.

(** How writing the configuration file goes. *)
Variable config_write : write_fault.

(** The [try] block of [load_config] (lines 94-99).  A document that is
    no object has no [get]. *)
Definition load_config_try (cf : sidecar) : result (list (string * pyval)) :=
  match cf with
  | SidecarMissing => Raise OSError
  | SidecarUnreadable e => Raise e
  | SidecarMalformed e => Raise e
  | SidecarJson (VDict config) =>
      if truthy (get config "start_date") then
        result_bind (py_getitem (VDict config) "start_date") (fun v =>
        result_bind (match v with
                     | VStr text => strptime_yymmdd text
                     | _ => Raise TypeError
                     end) (fun d =>
        Ok (dict_set "start_date" (VDatetime d) config)))
      else Ok config
  | SidecarJson _ => Raise AttributeError
  end.

(** [load_config()] *)
Definition load_config (p : process) : list (string * pyval) * process :=
  match config_file p with
  | SidecarMissing => ([], p)
  | cf =>
      match load_config_try cf with
      | Ok config => (config, p)
      | Raise e => ([], say (WarnLoadConfig e) p)
      end
  end.

(** The dictionary [save_config] builds (lines 107-111). *)
Definition config_doc (source_dir dest_dir : string)
    (start_date : option datetime) : pyval :=
  VDict [("source", VStr source_dir);
         ("destination", VStr dest_dir);
         ("start_date", match start_date with
                        | Some d => VStr (strftime_yymmdd d)
                        | None => VNone
                        end)].

(** [save_config(source_dir, dest_dir, start_date)]; the dictionary holds
    strings and [None], which [json.dump] writes. *)
Definition save_config (source_dir dest_dir : string)
    (start_date : option datetime) (p : process) : process :=
  let config := config_doc source_dir dest_dir start_date in
  match config_write with
  | WriteOk => say ConfigSaved (with_config_file p (SidecarJson config))
  | OpenFails e => say (WarnSaveConfig e) p
  | DumpFails e =>
      say (WarnSaveConfig e)
          (with_config_file p (SidecarMalformed JSONDecodeError))
  end.

(** [a or b] for an optional argument [a]. *)
Definition or_else (a : option string) (b : pyval) : pyval :=
  match a with
  | Some s => if truthy (VStr s) then VStr s else b
  | None => b
  end.

(** Where lines 283-307 of [main] lead: to the call of [organize_photos]
    with a source, a destination and a start date; to [sys.exit(1)] after
    a message; or to an exception nothing catches. *)
Inductive settled : Type :=
| Call (source destination : pyval) (start_date : option datetime)
| Refused (n : notice)
| Uncaught (e : exn).

(** [except ValueError] also catches the subclass [JSONDecodeError]. *)
Definition is_value_error (e : exn) : bool :=
  match e with
  | ValueError | JSONDecodeError => true
  | _ => false
  end.

(** The start date taken from the configuration (lines 304-307). *)
Definition saved_start_date (source destination : pyval)
    (config : list (string * pyval)) : settled :=
  if truthy (get config "start_date") then
    match py_getitem (VDict config) "start_date" with
    | Ok (VDatetime d) => Call source destination (Some (start_of_day d))
    | Ok (VStr _) => Uncaught TypeError
    | Ok _ => Uncaught AttributeError
    | Raise e => Uncaught e
    end
  else Call source destination None.

(** Lines 283-307 of [main]. *)
Definition settle (a : Lulofoto.args) (config : list (string * pyval))
  : settled :=
  let source := or_else (Lulofoto.arg_source a) (get config "source") in
  let destination :=
    or_else (Lulofoto.arg_destination a) (get config "destination") in
  if negb (truthy source) || negb (truthy destination) then
    Refused ErrArgumentsRequired
  else
    match Lulofoto.arg_start_date a with
    | Some text =>
        if truthy (VStr text) then
          match strptime_yymmdd text with
          | Ok d => Call source destination (Some (start_of_day d))
          | Raise e =>
              if is_value_error e then Refused (ErrInvalidDate text)
              else Uncaught e
          end
        else saved_start_date source destination config
    | None => saved_start_date source destination config
    end.

(** Lines 309-314 of [main]. *)
Definition banner (a : Lulofoto.args) (config : list (string * pyval))
    (source destination : pyval) (p : process) : process :=
  let p := say (Banner source destination) p in
  let p :=
    if truthy (VDict config)
       && negb (Lulofoto.given (Lulofoto.arg_source a)
                && Lulofoto.given (Lulofoto.arg_destination a))
    then say UsingSavedConfiguration p
    else p in
  say BannerRule p.

(** [main()]: the exit status of the process and what it leaves.  An
    exception nothing catches ends the interpreter with status 1;
    [os.path.abspath] raises [TypeError] on what is no string, before
    [organize_photos] has done anything. *)
Definition main (a : Lulofoto.args) (p : process) : Z * process :=
  let '(config, p) := load_config p in
  match settle a config with
  | Refused n => (1, say n p)
  | Uncaught _ => (1, p)
  | Call source destination start_date =>
      let p := banner a config source destination p in
      match source, destination with
      | VStr source, VStr destination =>
          match Lulofoto.organize_photos w source destination
                  (Lulofoto.arg_force_all a) start_date (disk p) with
          | (Ok success, d) =>
              let p := with_disk p d in
              let p :=
                if Lulofoto.given (Lulofoto.arg_source a)
                   || Lulofoto.given (Lulofoto.arg_destination a)
                   || Lulofoto.given (Lulofoto.arg_start_date a)
                then save_config source destination start_date p
                else p in
              (if (success : bool) then 0 else 1, p)
          | (Raise _, d) => (1, with_disk p d)
          end
      | _, _ => (1, p)
      end
  end.

End WithRuntime.
End Settings.


(* ===================================================================== *)
(** * A runtime and worlds to run the embedding on                         *)
(* ===================================================================== *)

Module Sample.
Import Py World Engine Shared.

Definition digit_value (c : ascii) : option Z :=
  let n := nat_of_ascii c in
  if ((48 <=? n) && (n <=? 57))%nat then Some (Z.of_nat n - 48) else None.

(** The number written by a string of decimal digits. *)
Fixpoint number_from (acc : Z) (s : string) : option Z :=
  match s with
  | EmptyString => Some acc
  | String c s' =>
      match digit_value c with
      | Some v => number_from (10 * acc + v) s'
      | None => None
      end
  end.

Definition number (s : string) : option Z :=
  match s with
  | EmptyString => None
  | _ => number_from 0 s
  end.

Definition field (s : string) (pos len : nat) : option Z :=
  number (String.substring pos len s).

Definition sep_at (s : string) (pos : nat) (c : ascii) : bool :=
  match String.get pos s with
  | Some a => Ascii.eqb a c
  | None => false
  end.

Definition in_range (lo hi v : Z) : bool := (lo <=? v) && (v <=? hi).

Definition checked (y mo d h mi s : Z) : result datetime :=
  if in_range 1 9999 y && in_range 1 12 mo && in_range 1 31 d
     && in_range 0 23 h && in_range 0 59 mi && in_range 0 59 s
  then Ok (mkdt y mo d h mi s 0)
  else Raise ValueError.

(** Six fields of fixed width, separated as in [YYYY?MM?DD?HH?MM?SS]. *)
Definition parse_stamp (s1 s2 s3 : ascii) (s : string) : result datetime :=
  if (String.length s =? 19)%nat
     && sep_at s 4 s1 && sep_at s 7 s1 && sep_at s 10 s2
     && sep_at s 13 s3 && sep_at s 16 s3
  then
    match field s 0 4, field s 5 2, field s 8 2,
          field s 11 2, field s 14 2, field s 17 2 with
    | Some y, Some mo, Some d, Some h, Some mi, Some se => checked y mo d h mi se
    | _, _, _, _, _, _ => Raise ValueError
    end
  else Raise ValueError.

Definition parse_yymmdd (s : string) : result datetime :=
  if (String.length s =? 6)%nat then
    match field s 0 2, field s 2 2, field s 4 2 with
    | Some y, Some mo, Some d =>
        checked (if y <? 69 then 2000 + y else 1900 + y) mo d 0 0 0
    | _, _, _ => Raise ValueError
    end
  else Raise ValueError.

(** Seconds since the epoch to a civil date and time, in UTC. *)
Definition utc_of_timestamp (t : Z) : result datetime :=
  let days := t / 86400 in
  let secs := t mod 86400 in
  let z := days + 719468 in
  let era := z / 146097 in
  let doe := z - era * 146097 in
  let yoe := (doe - doe / 1460 + doe / 36524 - doe / 146096) / 365 in
  let doy := doe - (365 * yoe + yoe / 4 - yoe / 100) in
  let mp := (5 * doy + 2) / 153 in
  let d := doy - (153 * mp + 2) / 5 + 1 in
  let m := if mp <? 10 then mp + 3 else mp - 9 in
  let y := yoe + era * 400 + (if m <=? 2 then 1 else 0) in
  if in_range 1 9999 y
  then Ok (mkdt y m d (secs / 3600) (secs mod 3600 / 60) (secs mod 60) 0)
  else Raise ValueError.

Definition pad4 (n : Z) : string :=
  pad2 (n / 100) +:+ pad2 (n mod 100).

Definition iso_text (d : datetime) : string :=
  pad4 (year d) +:+ "-" +:+ pad2 (month d) +:+ "-" +:+ pad2 (day d) +:+ "T"
  +:+ pad2 (hour d) +:+ ":" +:+ pad2 (minute d) +:+ ":" +:+ pad2 (second d).

(** The path below [start], for a [path] inside it. *)
Definition below (path start : string) : string :=
  if String.prefix (start +:+ "/") path
  then Py.drop (String.length start + 1) path
  else path.

Definition exif_tags (tag_id : Z) : option string :=
  if tag_id =? 36867 then Some "DateTimeOriginal"
  else if tag_id =? 36868 then Some "DateTimeDigitized"
  else if tag_id =? 306 then Some "DateTime"
  else if tag_id =? 271 then Some "Make"
  else if tag_id =? 272 then Some "Model"
  else None.

#[local] Instance runtime : Runtime := {|
  abspath := fun p => p;
  relpath := below;
  TAGS := exif_tags;
  strptime_exif := parse_stamp ":" " " ":";
  strptime_yymmdd := parse_yymmdd;
  fromtimestamp := utc_of_timestamp;
  isoformat := iso_text;
  fromisoformat := parse_stamp "-" "T" ":"
|}.

(** A memory card mounted at [/src] holding the given files, looked at
    when the clock shows [clock].  [a.jpg] carries an EXIF capture time;
    [b.jpg] has none and was last modified on 2025-01-19 09:00:00;
    [late.jpg] bears a modification time of 2025-01-21 00:00:00;
    [locked.jpg] cannot be read; [link.jpg] is a link whose target is
    gone, so that nothing about it can be read. *)
Definition card (files : list string) (clock : datetime) : world := {|
  HAS_PIL := true;
  source_exists := fun p => String.eqb p "/src";
  walk := fun top => if String.eqb top "/src" then [("/src", files)] else [];
  getexif := fun p =>
    if String.eqb p "/src/a.jpg"
    then Ok (Some [(271, ExifStr "Lulo"); (36867, ExifStr "2025:01:18 14:30:00")])
    else if String.eqb p "/src/b.jpg" then Ok None
    else Raise OSError;
  getmtime := fun p =>
    if String.eqb p "/src/a.jpg" then Ok 1737300000
    else if String.eqb p "/src/b.jpg" then Ok 1737277200
    else if String.eqb p "/src/notes.txt" then Ok 1737277200
    else if String.eqb p "/src/late.jpg" then Ok 1737417600
    else if String.eqb p "/src/locked.jpg" then Ok 1737277200
    else Raise OSError;
  copy2_from := fun p =>
    if String.eqb p "/src/a.jpg" then CopyDone [Byte.x01]
    else if String.eqb p "/src/b.jpg" then CopyDone [Byte.x02]
    else if String.eqb p "/src/late.jpg" then CopyDone [Byte.x03]
    else CopyFailed OSError None;
  mkdir_fault := fun _ => None;
  state_write := WriteOk;
  now := clock
|}.

Definition noon_jan_20 : datetime := mkdt 2025 1 20 12 0 0 0.

(** The source tree of the scenario of the specification. *)
Definition photos : world := card ["a.jpg"; "notes.txt"; "b.jpg"] noon_jan_20.

(** A tree with a dangling link among the photos. *)
Definition dangling : world := card ["a.jpg"; "link.jpg"] noon_jan_20.

(** A tree with a photo dated after the run and a photo that cannot be
    read. *)
Definition skewed : world := card ["late.jpg"; "locked.jpg"] noon_jan_20.

(** A start date between the two photos of the scenario. *)
Definition jan_19 : datetime := mkdt 2025 1 19 0 0 0 0.

(** Before the first run: an empty destination, nothing printed yet. *)
Definition fresh : state := {|
  st_stats := mkstats 0 0 0 0;
  st_copied_files := VNone;
  st_files := ∅;
  st_sidecar := SidecarMissing;
  st_out := []
|}.

(** As the walk of a first run starts: the destination directory made,
    an empty [copied_files], the counters at zero. *)
Definition ready : state := {|
  st_stats := mkstats 0 0 0 0;
  st_copied_files := VDict [];
  st_files := {["/dst" := Dir]};
  st_sidecar := SidecarMissing;
  st_out := [CopyingAll]
|}.

(** The scenario: a first run, then a second one; or a second one from
    a start date on. *)
Definition first_run : result bool * state :=
  Lulofoto.organize_photos photos "/src" "/dst" false None fresh.
Definition second_run : result bool * state :=
  Lulofoto.organize_photos photos "/src" "/dst" false None (snd first_run).
Definition second_run_from_jan_19 : result bool * state :=
  Lulofoto.organize_photos photos "/src" "/dst" false (Some jan_19) (snd first_run).

(** Two runs over the tree with the late and the locked photo. *)
Definition skewed_first_run : result bool * state :=
  Lulofoto.organize_photos skewed "/src" "/dst" false None fresh.
Definition skewed_second_run : result bool * state :=
  Lulofoto.organize_photos skewed "/src" "/dst" false None (snd skewed_first_run).

(** A first run from 2025-01-19 on, then a second one without start
    date. *)
Definition from_jan_19_first_run : result bool * state :=
  Lulofoto.organize_photos photos "/src" "/dst" false (Some jan_19) fresh.
Definition from_jan_19_second_run : result bool * state :=
  Lulofoto.organize_photos photos "/src" "/dst" false None
                           (snd from_jan_19_first_run).

(** [lulofoto.py /src /dst], with no saved configuration. *)
Definition command_line : Lulofoto.args := {|
  Lulofoto.arg_source := Some "/src";
  Lulofoto.arg_destination := Some "/dst";
  Lulofoto.arg_force_all := false;
  Lulofoto.arg_start_date := None
|}.

End Sample.

(* ===================================================================== *)
(** * More worlds and processes                                            *)
(* ===================================================================== *)

Module Scenes.
Import Py World Engine Shared Sample.
#[local] Existing Instance Sample.runtime.


(** A destination whose state file is the JSON object of another
    program. *)
Definition foreign : state := {|
  st_stats := mkstats 0 0 0 0;
  st_copied_files := VNone;
  st_files := ∅;
  st_sidecar := SidecarJson (VDict [("version", VInt 1)]);
  st_out := []
|}.

(** A state as [organize_photos] saves it, and one that was never
    stamped. *)
Definition stamped : list (string * pyval) :=
  [("last_sync", VDatetime noon_jan_20);
   ("copied_files", VDict [("a.jpg", VStr "2025-01-18T14:30:00")])].
Definition unstamped : list (string * pyval) :=
  [("last_sync", VNone);
   ("copied_files", VDict [("a.jpg", VStr "2025-01-18T14:30:00")])].

(** Before the first run: no configuration file. *)
Definition first_process : Settings.process := {|
  Settings.disk := fresh;
  Settings.config_file := SidecarMissing;
  Settings.notices := []
|}.

(** A configuration written by hand, with the start date as a calendar
    date. *)
Definition dashed : list (string * pyval) :=
  [("source", VStr "/src");
   ("destination", VStr "/dst");
   ("start_date", VStr "2025-01-19")].
Definition dashed_process : Settings.process := {|
  Settings.disk := fresh;
  Settings.config_file := SidecarJson (VDict dashed);
  Settings.notices := []
|}.

(** The configuration [lulofoto.py /src /dst --start-date 250119]
    saves. *)
Definition from_jan_19 : list (string * pyval) :=
  [("source", VStr "/src");
   ("destination", VStr "/dst");
   ("start_date", VStr "250119")].
Definition from_jan_19_process : Settings.process := {|
  Settings.disk := fresh;
  Settings.config_file := SidecarJson (VDict from_jan_19);
  Settings.notices := []
|}.

(** [lulofoto.py /nowhere /dst] *)
Definition wrong_source : Lulofoto.args := {|
  Lulofoto.arg_source := Some "/nowhere";
  Lulofoto.arg_destination := Some "/dst";
  Lulofoto.arg_force_all := false;
  Lulofoto.arg_start_date := None
|}.

(** The second run of the scenario with [--force-all]. *)
Definition forced_second_run : result bool * state :=
  Lulofoto.organize_photos photos "/src" "/dst" true None (snd first_run).

End Scenes.


(* ===================================================================== *)
(** * Properties                                                           *)
(* ===================================================================== *)

Import Py World Engine Shared.
Local Open Scope list_scope.

(** ** Vocabulary

    The words the properties are stated in. *)

Local Open Scope engine_scope.

(** The path tried with counter [k] for a name cut into [base] and [ext]. *)
Definition candidate (dest_folder base ext : string) (k : nat) : string :=
  join dest_folder (base +:+ "_" +:+ str k +:+ ext).

Definition with_files (s : state) (fs : gmap string node) : state :=
  mkstate (st_stats s) (st_copied_files s) fs (st_sidecar s) (st_out s).

Definition with_stats (s : state) (t : stats) : state :=
  mkstate t (st_copied_files s) (st_files s) (st_sidecar s) (st_out s).

Definition with_out (s : state) (o : list output) : state :=
  mkstate (st_stats s) (st_copied_files s) (st_files s) (st_sidecar s) o.

(** [p] is what the planner picks for [filename] in [dest_folder] when
    the tree is [fs]. *)
Definition planned (fs : gmap string node) (dest_folder filename p : string) : Prop :=
  fs !! p = None
  /\ ((p = join dest_folder filename)
      \/ (path_exists fs (join dest_folder filename) = true
          /\ exists k, (1 <= k)%nat
             /\ p = candidate dest_folder (fst (splitext filename))
                              (snd (splitext filename)) k
             /\ forall j, (1 <= j < k)%nat ->
                  path_exists fs
                    (candidate dest_folder (fst (splitext filename))
                               (snd (splitext filename)) j) = true)).

Definition bump_copied (t : stats) : stats :=
  mkstats (total_found t) (S (copied t)) (skipped t) (errors t).
Definition bump_skipped (t : stats) : stats :=
  mkstats (total_found t) (copied t) (S (skipped t)) (errors t).
Definition bump_errors (t : stats) : stats :=
  mkstats (total_found t) (copied t) (skipped t) (S (errors t)).
Definition bump_total_found (t : stats) : stats :=
  mkstats (S (total_found t)) (copied t) (skipped t) (errors t).

(** The test of [already_synced] as a function of the dictionary. *)
Definition synced_check (guard : bool) (last_sync : pyval)
    (file_mtime : datetime) (file_key : string) (copied_files : pyval)
  : result bool :=
  if guard && truthy last_sync then
    result_bind (py_datetime_le file_mtime last_sync) (fun le =>
      if (le : bool) then py_contains file_key copied_files else Ok false)
  else Ok false.

(** The files of a walk, each with the directory it is in, in the order
    the two nested loops visit them. *)
Definition walk_files (dirs : list (string * list string)) : list (string * string) :=
  flat_map (fun '(root, files) => map (pair root) files) dirs.

(** One iteration, given what the [try] block does: the [except] clause
    turns an exception into a count and a line. *)
Definition guarded (filename : string) (body : M action) (s : state) : state :=
  if negb (is_image_file filename) then s
  else
    match body (with_stats s (bump_total_found (st_stats s))) with
    | (Ok _, s1) => s1
    | (Raise e, s1) =>
        with_out (with_stats s1 (bump_errors (st_stats s1)))
                 (st_out s1 ++ [ErrProcessing filename e])
    end.

Definition is_image (f : string * string) : bool := is_image_file (snd f).

(** Every file found went to exactly one of the three outcomes. *)
Definition balanced (t : stats) : Prop :=
  total_found t = (copied t + skipped t + errors t)%nat.

(** The [try] block counts its file once when it ends normally, and not
    at all when it raises. *)
Definition counts_once (body : M action) : Prop :=
  forall s r s1, body s = (r, s1) ->
    st_stats s1 = match r with
                  | Ok (CopiedTo _) => bump_copied (st_stats s)
                  | Ok _ => bump_skipped (st_stats s)
                  | Raise _ => st_stats s
                  end.


Definition only_prints (m : M unit) : Prop :=
  forall s r s', m s = (r, s') -> exists o, s' = with_out s o.




Section Vocabulary.
Context `{RT : Runtime}.
Variable w : world.

(** Before the walk: the destination, the state, the banner, the
    counters. *)
Definition prepare (announce : pyval -> M unit) (dest_dir : string)
  : M (pyval * pyval) :=
  makedirs w dest_dir ;;
  state <- load_state dest_dir ;;
  last_sync <- lift (py_getitem state "last_sync") ;;
  copied_files <- lift (py_getitem state "copied_files") ;;
  set_copied_files copied_files ;;
  announce last_sync ;;
  set_stats (fun _ => mkstats 0 0 0 0) ;;
  ret (state, last_sync).

(** After the walk: the state is stamped and saved, the summary printed. *)
Definition finish (dest_dir : string) (state : pyval) : M bool :=
  state <- lift (py_setitem state "last_sync" (VDatetime (now w))) ;;
  copied_files <- gets st_copied_files ;;
  state <- lift (py_setitem state "copied_files" copied_files) ;;
  save_state w dest_dir state ;;
  s <- gets st_stats ;;
  print (Summary s) ;;
  ret true.

(** The state the walk of [lulofoto.py] ends in. *)
Definition lulofoto_walk (source_dir dest_dir : string) (force_all : bool)
    (start_date : option datetime) (last_sync : pyval) (s : state) : state :=
  fold_left
    (fun s '(root, filename) =>
       guarded filename
         (Lulofoto.file_body w source_dir dest_dir force_all start_date
                             last_sync root filename) s)
    (walk_files (walk w source_dir)) s.

(** What [load_state] returns for a given state file. *)
Definition loaded (sc : sidecar) : pyval :=
  match sc with
  | SidecarMissing => default_state
  | _ =>
      match load_state_try sc with
      | Ok st => st
      | Raise _ => default_state
      end
  end.

(** The document [save_state] writes. *)
Definition saved_doc (d : list (string * pyval)) (copied_files : pyval) : pyval :=
  VDict (dict_set "last_sync" (VStr (isoformat (now w)))
           (dict_set "copied_files" copied_files
              (dict_set "last_sync" (VDatetime (now w)) d))).

(** The state file after [save_state]. *)
Definition saved_sidecar (d : list (string * pyval)) (copied_files : pyval)
    (before : sidecar) : sidecar :=
  match state_write w with
  | WriteOk =>
      if serializable (saved_doc d copied_files)
      then SidecarJson (saved_doc d copied_files)
      else SidecarMalformed JSONDecodeError
  | OpenFails _ => before
  | DumpFails _ => SidecarMalformed JSONDecodeError
  end.


(** A date field of the metadata whose text reads as a date. *)
Definition parses (item : Z * exif_value) : Prop :=
  is_date_tag (fst item) = true /\ exists d, parse_exif (snd item) = Ok d.

End Vocabulary.

(** Is the file an image whose date resolves before [floor]? *)
Definition dated_before `{RT : Runtime} (w : world) (floor : datetime)
    (f : string * string) : bool :=
  is_image f
  && match get_photo_date w (join (fst f) (snd f)) with
     | Ok d => dt_ltb d floor
     | Raise _ => false
     end.

(** [lulofoto.py] with no argument but, possibly, [--force-all]. *)
Definition bare (force_all : bool) : Lulofoto.args := {|
  Lulofoto.arg_source := None;
  Lulofoto.arg_destination := None;
  Lulofoto.arg_force_all := force_all;
  Lulofoto.arg_start_date := None
|}.

(** The configuration file holds an object with a start date. *)
Definition holds_start_date (cf : sidecar) : Prop :=
  exists config text,
    cf = SidecarJson (VDict config)
    /\ dict_get "start_date" config = Some (VStr text)
    /\ text <> "".


(** A value of the configuration read as an optional string, and as an
    optional date. *)
Definition as_text (v : pyval) : option (option string) :=
  match v with
  | VNone => Some None
  | VStr s => Some (Some s)
  | _ => None
  end.

Definition as_date (v : pyval) : option (option datetime) :=
  match v with
  | VNone => Some None
  | VDatetime d => Some (Some d)
  | _ => None
  end.

(** The configuration [load_config] returns, as the record [Lulofoto.main]
    is given, when its three values are strings, dates or [None]. *)
Definition config_record (config : list (string * pyval))
  : option Lulofoto.config :=
  match as_text (Settings.get config "source"),
        as_text (Settings.get config "destination"),
        as_date (Settings.get config "start_date") with
  | Some source, Some destination, Some start_date =>
      Some {| Lulofoto.cfg_source := source;
              Lulofoto.cfg_destination := destination;
              Lulofoto.cfg_start_date := start_date |}
  | _, _, _ => None
  end.






(** ** Strings and paths *)

Lemma append_length (a b : string) :
  String.length (a +:+ b) = (String.length a + String.length b)%nat.
Proof. induction a as [|c a IH]; simpl; [reflexivity | now rewrite IH]. Qed.

Lemma append_cancel_l (a x y : string) : a +:+ x = a +:+ y -> x = y.
Proof.
  induction a as [|c a IH]; simpl; intros H; [exact H|].
  injection H as H. now apply IH.
Qed.

Lemma append_cancel_r (c a b : string) : a +:+ c = b +:+ c -> a = b.
Proof.
  revert b. induction a as [|x a IH]; intros [|y b] H; simpl in *.
  - reflexivity.
  - apply (f_equal String.length) in H. simpl in H.
    pose proof (append_length b c). lia.
  - apply (f_equal String.length) in H. simpl in H.
    pose proof (append_length a c). lia.
  - injection H as -> H. f_equal. now apply IH.
Qed.

Lemma take_drop (i : nat) (s : string) : Py.take i s +:+ Py.drop i s = s.
Proof.
  revert s. induction i as [|i IH]; intros [|c s]; simpl; try reflexivity.
  now rewrite IH.
Qed.


Lemma str_inj (a b : nat) : str a = str b -> a = b.
Proof.
  unfold str. intros H.
  apply (f_equal NilEmpty.uint_of_string) in H.
  rewrite !NilEmpty.usu in H. injection H as H.
  apply (f_equal Nat.of_uint) in H. now rewrite !Unsigned.of_to in H.
Qed.

Lemma startswith_append (c : ascii) (a b : string) :
  a <> EmptyString -> startswith c (a +:+ b) = startswith c a.
Proof. destruct a; [congruence | reflexivity]. Qed.

(** The numbered names tried for one file are pairwise different paths. *)
Lemma candidate_inj (dest_folder base ext : string) (j k : nat) :
  join dest_folder (base +:+ "_" +:+ str j +:+ ext)
  = join dest_folder (base +:+ "_" +:+ str k +:+ ext) -> j = k.
Proof.
  intros H. apply str_inj, (append_cancel_r ext).
  apply (append_cancel_l "_"), (append_cancel_l base).
  revert H. unfold join.
  assert (Hs : startswith "/" (base +:+ "_" +:+ str j +:+ ext)
             = startswith "/" (base +:+ "_" +:+ str k +:+ ext)).
  { destruct base; reflexivity. }
  rewrite <- Hs. destruct (startswith _ _); [auto|].
  destruct (_ || _); intros H.
  - now apply append_cancel_l in H.
  - now apply append_cancel_l, (append_cancel_l "/") in H.
Qed.

(** ** The search for a free name *)

Section Planner.
Variable fs : gmap string node.
Variables dest_folder base ext : string.

#[local] Abbreviation cand := (candidate dest_folder base ext).

#[local] Instance candidate_Inj : Inj (=) (=) cand.
Proof. intros j k. apply candidate_inj. Qed.

Lemma path_exists_dom (p : string) : path_exists fs p = true <-> p ∈ dom fs.
Proof.
  unfold path_exists. rewrite elem_of_dom.
  destruct (fs !! p) as [n|]; split; intros H.
  - by exists n.
  - reflexivity.
  - discriminate.
  - by destruct H.
Qed.

Lemma path_exists_false (p : string) : path_exists fs p = false <-> fs !! p = None.
Proof. unfold path_exists. destruct (fs !! p); split; congruence. Qed.

(** Only so many of the numbered names can be taken. *)
Lemma taken_bound (c n : nat) :
  (forall j, (j < n)%nat -> path_exists fs (cand (c + j)) = true) ->
  (n <= size fs)%nat.
Proof.
  intros Htaken.
  set (l := cand <$> seq c n).
  assert (Hnd : NoDup l) by (apply (NoDup_fmap_2 _), NoDup_seq).
  assert (Hsub : (list_to_set l : gset string) ⊆ dom fs).
  { intros p Hp. apply elem_of_list_to_set, list_elem_of_fmap in Hp.
    destruct Hp as (k & -> & Hk). apply elem_of_seq in Hk.
    apply path_exists_dom. replace k with (c + (k - c))%nat by lia.
    apply Htaken. lia. }
  apply subseteq_size in Hsub.
  rewrite size_list_to_set, size_dom in Hsub by done.
  unfold l in Hsub. now rewrite length_fmap, length_seq in Hsub.
Qed.

Lemma while_exists_none_head (fuel : nat) (p : string) (c : nat) :
  while_exists fs dest_folder base ext fuel p c = None ->
  (1 <= fuel)%nat -> path_exists fs p = true.
Proof.
  destruct fuel as [|fuel]; [lia|]. simpl.
  destruct (path_exists fs p); [reflexivity | discriminate].
Qed.

Lemma while_exists_none (fuel : nat) (p : string) (c : nat) :
  while_exists fs dest_folder base ext fuel p c = None ->
  forall j, (j + 1 < fuel)%nat -> path_exists fs (cand (c + j)) = true.
Proof.
  revert p c. induction fuel as [|fuel IH]; intros p c H j Hj; [lia|].
  simpl in H. destruct (path_exists fs p); [|discriminate].
  destruct j as [|j].
  - rewrite Nat.add_0_r. eapply while_exists_none_head; [exact H | lia].
  - replace (c + S j)%nat with (S c + j)%nat by lia.
    eapply IH; [exact H | lia].
Qed.

(** The loop ends before its bound. *)
Lemma while_exists_terminates (p : string) (c : nat) :
  exists q, while_exists fs dest_folder base ext (size fs + 2) p c = Some q.
Proof.
  destruct (while_exists fs dest_folder base ext (size fs + 2) p c) as [q|] eqn:E;
    [by eexists|].
  pose proof (taken_bound c (size fs + 1)) as Hb.
  assert (size fs + 1 <= size fs)%nat; [|lia].
  apply Hb. intros j Hj. eapply while_exists_none; [exact E | lia].
Qed.

(** What the loop returns is free, and every name tried before it is
    taken. *)
Lemma while_exists_some (fuel : nat) (p : string) (c : nat) (q : string) :
  while_exists fs dest_folder base ext fuel p c = Some q ->
  fs !! q = None
  /\ (q = p
      \/ (path_exists fs p = true
          /\ exists k, (c <= k)%nat /\ q = cand k
             /\ forall j, (c <= j < k)%nat -> path_exists fs (cand j) = true)).
Proof.
  revert p c. induction fuel as [|fuel IH]; intros p c H; [discriminate|].
  simpl in H. destruct (path_exists fs p) eqn:Ep.
  - apply IH in H as [Hfree Hshape]. split; [exact Hfree|]. right.
    split; [reflexivity|].
    destruct Hshape as [-> | (Hc & k & Hk & -> & Hlow)].
    + exists c. split; [lia|]. split; [reflexivity|]. intros j Hj. lia.
    + exists k. split; [lia|]. split; [reflexivity|]. intros j Hj.
      destruct (decide (j = c)) as [-> | Hne]; [exact Hc|]. apply Hlow. lia.
  - injection H as <-. split; [now apply path_exists_false | now left].
Qed.

End Planner.

(** ** What each step does to the state *)

Lemma with_files_same (s : state) : with_files s (st_files s) = s.
Proof. now destruct s. Qed.

Ltac unfold_engine :=
  unfold bind, ret, raise, lift, try_except, gets, modify, set_stats,
    set_copied_files, set_files, set_sidecar, print, incr_total_found,
    incr_copied, incr_skipped, incr_errors in *.

Section Steps.
Context `{RT : Runtime}.
Variable w : world.

Lemma makedirs_inv (p : string) (s : state) (r : result unit) (s' : state) :
  makedirs w p s = (r, s') ->
  exists fs', s' = with_files s fs' /\ st_files s ⊆ fs'.
Proof.
  unfold makedirs. unfold_engine. simpl.
  destruct (st_files s !! p) as [[|data]|] eqn:E.
  - intros [= <- <-]. exists (st_files s). now rewrite with_files_same.
  - intros [= <- <-]. exists (st_files s). now rewrite with_files_same.
  - destruct (mkdir_fault w p); intros [= <- <-].
    + exists (st_files s). now rewrite with_files_same.
    + exists (<[p := Dir]> (st_files s)). split; [reflexivity|].
      now apply insert_subseteq.
Qed.

Lemma copy2_inv (src dst : string) (s : state) (r : result unit) (s' : state) :
  copy2 w src dst s = (r, s') ->
  st_files s !! dst = None ->
  exists fs', s' = with_files s fs' /\ st_files s ⊆ fs'
    /\ match r with
       | Ok _ => exists data, copy2_from w src = CopyDone data
                              /\ fs' = <[dst := File data]> (st_files s)
       | Raise _ => True
       end.
Proof.
  unfold copy2. unfold_engine. simpl. intros H Hfree.
  destruct (copy2_from w src) as [data | e [data|]]; injection H as <- <-.
  - exists (<[dst := File data]> (st_files s)). split; [reflexivity|].
    split; [now apply insert_subseteq | by exists data].
  - exists (<[dst := File data]> (st_files s)). split; [reflexivity|].
    split; [now apply insert_subseteq | exact I].
  - exists (st_files s). now rewrite with_files_same.
Qed.

(** The planner always comes back with a path; the path is free; and it
    is the plain one, or a numbered one whose predecessors are all taken. *)
Lemma plan_dest_path_spec (dest_folder filename : string) (s : state) :
  exists p, plan_dest_path dest_folder filename s = (Ok p, s)
    /\ st_files s !! p = None
    /\ (p = join dest_folder filename
        \/ (path_exists (st_files s) (join dest_folder filename) = true
            /\ exists k, (1 <= k)%nat
               /\ p = candidate dest_folder (fst (splitext filename))
                                (snd (splitext filename)) k
               /\ forall j, (1 <= j < k)%nat ->
                    path_exists (st_files s)
                      (candidate dest_folder (fst (splitext filename))
                                 (snd (splitext filename)) j) = true)).
Proof.
  unfold plan_dest_path. unfold_engine. simpl.
  destruct (path_exists (st_files s) (join dest_folder filename)) eqn:Ex.
  - destruct (splitext filename) as [base ext]. simpl.
    destruct (while_exists_terminates (st_files s) dest_folder base ext
                (join dest_folder filename) 1) as [q Hq].
    rewrite Hq. exists q. split; [reflexivity|].
    apply while_exists_some in Hq as [Hfree Hshape].
    split; [exact Hfree|]. destruct Hshape as [-> | Hshape]; [now left | now right].
  - exists (join dest_folder filename). split; [reflexivity|].
    split; [now apply path_exists_false | now left].
Qed.

End Steps.

Section CopyPhoto.
Context `{RT : Runtime}.
Variable w : world.

(** Everything [copy_photo] can do. *)
Lemma copy_photo_inv (dest_dir source_path filename file_key : string)
    (photo_date : datetime) (s : state) (r : result action) (s' : state) :
  copy_photo w dest_dir source_path filename file_key photo_date s = (r, s') ->
  st_sidecar s' = st_sidecar s
  /\ st_files s ⊆ st_files s'
  /\ match r with
     | Ok a =>
         exists p data fs1,
           a = CopiedTo p
           /\ copy2_from w source_path = CopyDone data
           /\ st_files s ⊆ fs1
           /\ planned fs1 (join dest_dir (strftime_yymmdd photo_date)) filename p
           /\ st_files s' = <[p := File data]> fs1
           /\ st_stats s' = bump_copied (st_stats s)
           /\ py_setitem (st_copied_files s) file_key (VStr (isoformat photo_date))
              = Ok (st_copied_files s')
           /\ st_out s' = (st_out s ++ [Copied filename (strftime_yymmdd photo_date)])%list
     | Raise _ =>
         st_stats s' = st_stats s
         /\ st_copied_files s' = st_copied_files s
         /\ st_out s' = st_out s
     end.
Proof.
  unfold copy_photo. intros H.
  set (dest_folder := join dest_dir (strftime_yymmdd photo_date)) in *.
  unfold bind at 1 in H.
  destruct (makedirs w dest_folder s) as [[[]|e] s1] eqn:Emk;
    apply makedirs_inv in Emk as (fs1 & -> & Hsub1).
  2:{ injection H as <- <-. simpl. auto. }
  unfold bind at 1 in H.
  destruct (plan_dest_path_spec dest_folder filename (with_files s fs1))
    as (p & Hplan & Hfree & Hshape).
  rewrite Hplan in H.
  unfold bind at 1 in H.
  destruct (copy2 w source_path p (with_files s fs1)) as [[[]|e] s2] eqn:Ecp;
    apply copy2_inv in Ecp as (fs2 & -> & Hsub2 & Hcp); try exact Hfree.
  2:{ injection H as <- <-. simpl in *. split; [reflexivity|].
      split; [by etrans|]. auto. }
  destruct Hcp as (data & Hdata & ->). simpl in Hfree, Hsub2.
  unfold_engine. simpl in H.
  destruct (py_setitem (st_copied_files s) file_key (VStr (isoformat photo_date)))
    as [cf'|e] eqn:Eset; injection H as <- <-; simpl.
  - split; [reflexivity|]. split; [by etrans|].
    exists p, data, fs1. repeat split; auto.
  - split; [reflexivity|]. split; [by etrans|]. auto.
Qed.

End CopyPhoto.

(** ** One file *)

Lemma already_synced_eq (guard : bool) (last_sync : pyval)
    (file_mtime : datetime) (file_key : string) (s : state) :
  already_synced guard last_sync file_mtime file_key s
  = (synced_check guard last_sync file_mtime file_key (st_copied_files s), s).
Proof.
  unfold already_synced, synced_check. unfold_engine.
  destruct (guard && truthy last_sync); [|reflexivity].
  destruct (py_datetime_le file_mtime last_sync) as [[|]|e]; reflexivity.
Qed.

(** The check says yes exactly when every test of the source line does. *)
Lemma synced_check_true (guard : bool) (last_sync : pyval)
    (file_mtime : datetime) (file_key : string) (copied_files : pyval) :
  synced_check guard last_sync file_mtime file_key copied_files = Ok true
  <-> guard = true
      /\ (exists t, last_sync = VDatetime t /\ dt_leb file_mtime t = true)
      /\ py_contains file_key copied_files = Ok true.
Proof.
  unfold synced_check. split.
  - destruct guard; simpl; [|discriminate].
    destruct (truthy last_sync); [|discriminate].
    destruct last_sync; simpl; try discriminate.
    destruct (dt_leb file_mtime t) eqn:E; [|discriminate].
    intros H. split; [reflexivity|]. split; [by exists t | exact H].
  - intros (-> & (t & -> & Hle) & Hin). simpl. now rewrite Hle.
Qed.

Section OneFile.
Context `{RT : Runtime}.
Variable w : world.

(** [get_photo_date] fails only with the modification time. *)
Lemma get_photo_date_mtime (p : string) (t : datetime) :
  file_mtime_of w p = Ok t -> exists d, get_photo_date w p = Ok d.
Proof.
  intros H. unfold get_photo_date.
  destruct (exif_date w p) as [d|]; [by exists d | by exists t].
Qed.

Lemma get_photo_date_raise (p : string) (e : exn) :
  get_photo_date w p = Raise e -> file_mtime_of w p = Raise e.
Proof. unfold get_photo_date. now destruct (exif_date w p). Qed.

(** The loop body of [lulofoto.py], decision by decision. *)
Lemma lulofoto_file_body_eq (source_dir dest_dir : string) (force_all : bool)
    (start_date : option datetime) (last_sync : pyval)
    (root filename : string) (s : state) :
  Lulofoto.file_body w source_dir dest_dir force_all start_date last_sync
                     root filename s
  = match get_photo_date w (join root filename) with
    | Raise e => (Raise e, s)
    | Ok photo_date =>
        if Lulofoto.before_start start_date photo_date
        then (Ok SkippedFloor, with_stats s (bump_skipped (st_stats s)))
        else
          match file_mtime_of w (join root filename) with
          | Raise e => (Raise e, s)
          | Ok file_mtime =>
              match synced_check (negb force_all && Lulofoto.unset start_date)
                      last_sync file_mtime
                      (relpath (join root filename) source_dir)
                      (st_copied_files s) with
              | Raise e => (Raise e, s)
              | Ok true => (Ok SkippedSynced, with_stats s (bump_skipped (st_stats s)))
              | Ok false =>
                  copy_photo w dest_dir (join root filename) filename
                    (relpath (join root filename) source_dir) photo_date s
              end
          end
    end.
Proof.
  unfold Lulofoto.file_body. unfold bind at 1. unfold lift at 1.
  destruct (get_photo_date w (join root filename)) as [d|e]; [|reflexivity].
  destruct (Lulofoto.before_start start_date d); [reflexivity|].
  unfold bind at 1. unfold lift at 1.
  destruct (file_mtime_of w (join root filename)) as [mt|e]; [|reflexivity].
  unfold bind at 1. rewrite already_synced_eq.
  destruct (synced_check _ _ _ _ _) as [[|]|e]; reflexivity.
Qed.

(** The loop body of [bak-foto.py], decision by decision. *)
Lemma bakfoto_file_body_eq (source_dir dest_dir : string) (force_all : bool)
    (last_sync : pyval) (root filename : string) (s : state) :
  BakFoto.file_body w source_dir dest_dir force_all last_sync root filename s
  = match file_mtime_of w (join root filename) with
    | Raise e => (Raise e, s)
    | Ok file_mtime =>
        match synced_check (negb force_all) last_sync file_mtime
                (relpath (join root filename) source_dir)
                (st_copied_files s) with
        | Raise e => (Raise e, s)
        | Ok true => (Ok SkippedSynced, with_stats s (bump_skipped (st_stats s)))
        | Ok false =>
            match get_photo_date w (join root filename) with
            | Raise e => (Raise e, s)
            | Ok photo_date =>
                copy_photo w dest_dir (join root filename) filename
                  (relpath (join root filename) source_dir) photo_date s
            end
        end
    end.
Proof.
  unfold BakFoto.file_body. unfold bind at 1. unfold lift at 1.
  destruct (file_mtime_of w (join root filename)) as [mt|e]; [|reflexivity].
  unfold bind at 1. rewrite already_synced_eq.
  destruct (synced_check _ _ _ _ _) as [[|]|e]; reflexivity.
Qed.

(** Without a start date the two loop bodies agree. *)
Lemma file_body_agree (source_dir dest_dir : string) (force_all : bool)
    (last_sync : pyval) (root filename : string) (s : state) :
  BakFoto.file_body w source_dir dest_dir force_all last_sync root filename s
  = Lulofoto.file_body w source_dir dest_dir force_all None last_sync
                       root filename s.
Proof.
  rewrite bakfoto_file_body_eq, lulofoto_file_body_eq. simpl.
  rewrite andb_true_r.
  destruct (get_photo_date w (join root filename)) as [d|e] eqn:Ed.
  - destruct (file_mtime_of w (join root filename)) as [mt|e']; [|reflexivity].
    reflexivity.
  - apply get_photo_date_raise in Ed. now rewrite Ed.
Qed.

End OneFile.

(** ** Loops *)

Lemma bind_match {A B C} (m : M A) (f : A -> M B)
    (k : result B * state -> C) (s : state) :
  k (bind m f s)
  = match m s with
    | (Ok a, s') => k (f a s')
    | (Raise e, s') => k (Raise e, s')
    end.
Proof. unfold bind. now destruct (m s) as [[a|e] s']. Qed.

Lemma for_each_app {A} (l1 l2 : list A) (body : A -> M unit) (s : state) :
  for_each (l1 ++ l2) body s
  = match for_each l1 body s with
    | (Ok _, s1) => for_each l2 body s1
    | (Raise e, s1) => (Raise e, s1)
    end.
Proof.
  revert s. induction l1 as [|x l1 IH]; intros s; simpl; [reflexivity|].
  unfold bind. destruct (body x s) as [[[]|e] s1]; [apply IH | reflexivity].
Qed.

Lemma for_each_ext {A} (l : list A) (f g : A -> M unit) (s : state) :
  (forall x s, f x s = g x s) -> for_each l f s = for_each l g s.
Proof.
  intros H. revert s. induction l as [|x l IH]; intros s; simpl; [reflexivity|].
  unfold bind. rewrite H. destruct (g x s) as [[[]|e] s1]; [apply IH | reflexivity].
Qed.

Lemma nested_for_each (dirs : list (string * list string))
    (f : string -> string -> M unit) (s : state) :
  for_each dirs (fun '(root, files) => for_each files (f root)) s
  = for_each (walk_files dirs) (fun '(root, filename) => f root filename) s.
Proof.
  revert s. induction dirs as [|[root files] dirs IH]; intros s; simpl; [reflexivity|].
  rewrite for_each_app. unfold bind.
  assert (E : forall s, for_each files (f root) s
              = for_each (map (pair root) files)
                         (fun '(root, filename) => f root filename) s).
  { clear. induction files as [|x files IH]; intros s; simpl; [reflexivity|].
    unfold bind. destruct (f root x s) as [[[]|e] s1]; [apply IH | reflexivity]. }
  rewrite E.
  destruct (for_each (map (pair root) files) _ s) as [[[]|e] s1];
    [apply IH | reflexivity].
Qed.

(** A loop whose body never raises runs to its end: it is a fold. *)
Lemma for_each_fold {A} (l : list A) (body : A -> M unit) (s : state) :
  (forall x s, fst (body x s) = Ok tt) ->
  for_each l body s = (Ok tt, fold_left (fun s x => snd (body x s)) l s).
Proof.
  intros H. revert s. induction l as [|x l IH]; intros s; simpl; [reflexivity|].
  unfold bind. specialize (H x s).
  destruct (body x s) as [r s1]. simpl in *. subst r. apply IH.
Qed.

Section Walk.
Context `{RT : Runtime}.
Variable w : world.

Lemma lulofoto_process_file_eq (source_dir dest_dir : string) (force_all : bool)
    (start_date : option datetime) (last_sync : pyval)
    (root filename : string) (s : state) :
  Lulofoto.process_file w source_dir dest_dir force_all start_date last_sync
                        root filename s
  = (Ok tt,
     guarded filename
       (Lulofoto.file_body w source_dir dest_dir force_all start_date last_sync
                           root filename) s).
Proof.
  unfold Lulofoto.process_file, guarded.
  destruct (negb (is_image_file filename)); [reflexivity|].
  unfold_engine. simpl.
  change (mkstate (bump_total_found (st_stats s)) (st_copied_files s)
            (st_files s) (st_sidecar s) (st_out s))
    with (with_stats s (bump_total_found (st_stats s))).
  destruct (Lulofoto.file_body _ _ _ _ _ _ _ _ _) as [[a|e] s1]; reflexivity.
Qed.

Lemma bakfoto_process_file_eq (source_dir dest_dir : string) (force_all : bool)
    (last_sync : pyval) (root filename : string) (s : state) :
  BakFoto.process_file w source_dir dest_dir force_all last_sync root filename s
  = Lulofoto.process_file w source_dir dest_dir force_all None last_sync
                          root filename s.
Proof.
  rewrite lulofoto_process_file_eq.
  unfold BakFoto.process_file, guarded.
  destruct (negb (is_image_file filename)); [reflexivity|].
  unfold_engine. simpl.
  change (mkstate (bump_total_found (st_stats s)) (st_copied_files s)
            (st_files s) (st_sidecar s) (st_out s))
    with (with_stats s (bump_total_found (st_stats s))).
  rewrite file_body_agree.
  destruct (Lulofoto.file_body _ _ _ _ _ _ _ _ _) as [[a|e] s1]; reflexivity.
Qed.

End Walk.

(** ** A whole run, in three parts *)

Section Run.
Context `{RT : Runtime}.
Variable w : world.

Lemma lulofoto_walk_eq (source_dir dest_dir : string) (force_all : bool)
    (start_date : option datetime) (last_sync : pyval) (s : state) :
  for_each (walk w source_dir) (fun '(root, files) =>
    for_each files
      (Lulofoto.process_file w source_dir dest_dir force_all start_date
                             last_sync root)) s
  = (Ok tt, lulofoto_walk w source_dir dest_dir force_all start_date last_sync s).
Proof.
  rewrite nested_for_each, for_each_fold.
  - unfold lulofoto_walk. f_equal.
    generalize (walk_files (walk w source_dir)). intros l. revert s.
    induction l as [|[root filename] l IH]; intros s; simpl; [reflexivity|].
    now rewrite lulofoto_process_file_eq, IH.
  - intros [root filename] s0. now rewrite lulofoto_process_file_eq.
Qed.

Lemma lulofoto_organize_eq (source_dir dest_dir : string) (force_all : bool)
    (start_date : option datetime) (s : state) :
  Lulofoto.organize_photos w source_dir dest_dir force_all start_date s
  = if negb (source_exists w (abspath source_dir)) then
      (Ok false, with_out s (st_out s ++ [ErrSourceMissing (abspath source_dir)]))
    else
      match prepare w (Lulofoto.announce force_all start_date) (abspath dest_dir) s with
      | (Raise e, s1) => (Raise e, s1)
      | (Ok (state, last_sync), s1) =>
          finish w (abspath dest_dir) state
            (lulofoto_walk w (abspath source_dir) (abspath dest_dir) force_all
                           start_date last_sync s1)
      end.
Proof.
  unfold Lulofoto.organize_photos.
  destruct (negb (source_exists w (abspath source_dir))); [reflexivity|].
  unfold prepare.
  set (K := fun rs : result (pyval * pyval) * state =>
              match rs with
              | (Raise e, s1) => (Raise e, s1)
              | (Ok (state, last_sync), s1) =>
                  finish w (abspath dest_dir) state
                    (lulofoto_walk w (abspath source_dir) (abspath dest_dir)
                       force_all start_date last_sync s1)
              end).
  change (?lhs = _) with (lhs = K ((makedirs w (abspath dest_dir) ;;
     state <- load_state (abspath dest_dir) ;;
     last_sync <- lift (py_getitem state "last_sync") ;;
     copied_files <- lift (py_getitem state "copied_files") ;;
     set_copied_files copied_files ;;
     Lulofoto.announce force_all start_date last_sync ;;
     set_stats (fun _ => mkstats 0 0 0 0) ;;
     ret (state, last_sync)) s)).
  do 7 (unfold bind at 1;
        lazymatch goal with
        | |- match ?m ?s0 with _ => _ end = _ =>
            rewrite (bind_match m _ K s0);
            destruct (m s0) as [[?|?] ?]; [|reflexivity]
        end).
  unfold bind at 1. rewrite lulofoto_walk_eq. reflexivity.
Qed.

End Run.

(** ** Counting *)

Ltac one_of_three :=
  first [ left; repeat split; reflexivity
        | right; left; repeat split; reflexivity
        | right; right; repeat split; reflexivity ].

Lemma guarded_not_image (filename : string) (body : M action) (s : state) :
  is_image_file filename = false -> guarded filename body s = s.
Proof. unfold guarded. now intros ->. Qed.

Lemma guarded_counts (filename : string) (body : M action) (s : state) :
  counts_once body ->
  is_image_file filename = true ->
  let t := st_stats s in
  let t' := st_stats (guarded filename body s) in
  total_found t' = S (total_found t)
  /\ ((copied t' = S (copied t) /\ skipped t' = skipped t /\ errors t' = errors t)
      \/ (copied t' = copied t /\ skipped t' = S (skipped t) /\ errors t' = errors t)
      \/ (copied t' = copied t /\ skipped t' = skipped t /\ errors t' = S (errors t))).
Proof.
  intros Hc Himg. unfold guarded. rewrite Himg. simpl.
  destruct (body _) as [[a|e] s1] eqn:E; apply Hc in E; simpl in *.
  - destruct a; rewrite E; simpl; (split; [reflexivity|]); one_of_three.
  - rewrite E. simpl. (split; [reflexivity|]); one_of_three.
Qed.

Lemma fold_guarded_counts (body : string -> string -> M action)
    (l : list (string * string)) (s : state) :
  (forall root filename, counts_once (body root filename)) ->
  let s' := fold_left (fun s '(root, filename) =>
                         guarded filename (body root filename) s) l s in
  total_found (st_stats s')
  = (total_found (st_stats s) + length (List.filter is_image l))%nat
  /\ (balanced (st_stats s) -> balanced (st_stats s')).
Proof.
  intros Hc. revert s. induction l as [|[root filename] l IH]; intros s; simpl.
  - split; [lia | auto].
  - specialize (IH (guarded filename (body root filename) s)).
    simpl in IH. destruct IH as [IHn IHb].
    unfold is_image at 1. simpl.
    destruct (is_image_file filename) eqn:Himg.
    + pose proof (guarded_counts filename (body root filename) s (Hc _ _) Himg)
        as [Ht Hcase]. simpl in Ht, Hcase.
      simpl. split; [rewrite IHn, Ht; lia|].
      intros Hb. apply IHb. unfold balanced in *. lia.
    + rewrite guarded_not_image in * by exact Himg.
      split; [exact IHn | exact IHb].
Qed.

Section Counting.
Context `{RT : Runtime}.
Variable w : world.

Lemma copy_photo_counts (dest_dir source_path filename file_key : string)
    (photo_date : datetime) :
  counts_once (copy_photo w dest_dir source_path filename file_key photo_date).
Proof.
  intros s r s1 H. apply copy_photo_inv in H as (_ & _ & H).
  destruct r as [a|e].
  - destruct H as (p & data & fs1 & -> & _ & _ & _ & _ & Hst & _). exact Hst.
  - apply H.
Qed.

Lemma lulofoto_file_body_counts (source_dir dest_dir : string) (force_all : bool)
    (start_date : option datetime) (last_sync : pyval) (root filename : string) :
  counts_once (Lulofoto.file_body w source_dir dest_dir force_all start_date
                                  last_sync root filename).
Proof.
  intros s r s1. rewrite lulofoto_file_body_eq.
  destruct (get_photo_date w (join root filename)) as [d|e];
    [|now intros [= <- <-]].
  destruct (Lulofoto.before_start start_date d); [now intros [= <- <-]|].
  destruct (file_mtime_of w (join root filename)) as [mt|e];
    [|now intros [= <- <-]].
  destruct (synced_check _ _ _ _ _) as [[|]|e]; try now intros [= <- <-].
  apply copy_photo_counts.
Qed.

End Counting.

(** ** Dictionaries *)

Lemma dict_get_set_eq (k : string) (v : pyval) (d : list (string * pyval)) :
  dict_get k (dict_set k v d) = Some v.
Proof.
  induction d as [|[k' v'] d IH]; simpl.
  - now rewrite String.eqb_refl.
  - destruct (String.eqb k' k) eqn:E; simpl; rewrite E; [reflexivity | exact IH].
Qed.

Lemma dict_get_set_ne (k k' : string) (v : pyval) (d : list (string * pyval)) :
  k <> k' -> dict_get k (dict_set k' v d) = dict_get k d.
Proof.
  intros Hne. induction d as [|[k0 v0] d IH]; simpl.
  - destruct (String.eqb_spec k' k); [congruence | reflexivity].
  - destruct (String.eqb_spec k0 k') as [-> | Hk0]; simpl.
    + destruct (String.eqb_spec k' k); [congruence | reflexivity].
    + destruct (String.eqb_spec k0 k); [reflexivity | exact IH].
Qed.

(** [copied_files[key] = v] makes [key] a member and removes none. *)
Lemma py_setitem_contains (cf cf' : pyval) (key : string) (v : pyval) :
  py_setitem cf key v = Ok cf' ->
  py_contains key cf' = Ok true
  /\ forall k, py_contains k cf = Ok true -> py_contains k cf' = Ok true.
Proof.
  destruct cf; simpl; try discriminate. intros [= <-]. simpl. split.
  - now rewrite dict_get_set_eq.
  - intros k. destruct (String.eqb_spec k key) as [-> | Hne].
    + now rewrite dict_get_set_eq.
    + now rewrite dict_get_set_ne.
Qed.

(** [copied_files[key] = v] leaves the other entries as they are. *)
Lemma py_setitem_other (cf cf' : pyval) (key k : string) (v : pyval) :
  py_setitem cf key v = Ok cf' -> k <> key ->
  py_getitem cf' k = py_getitem cf k /\ py_contains k cf' = py_contains k cf.
Proof.
  destruct cf; simpl; try discriminate. intros [= <-] Hne. simpl.
  now rewrite dict_get_set_ne.
Qed.

(** ** Before and after the walk *)

Section Ends.
Context `{RT : Runtime}.
Variable w : world.

Lemma load_state_eq (dest_dir : string) (s : state) :
  load_state dest_dir s
  = match st_sidecar s with
    | SidecarMissing => (Ok default_state, s)
    | sc =>
        match load_state_try sc with
        | Ok st => (Ok st, s)
        | Raise e => (Ok default_state, with_out s (st_out s ++ [WarnLoadState e]))
        end
    end.
Proof.
  unfold load_state. unfold_engine. simpl.
  destruct (st_sidecar s) as [|e|e|v]; try reflexivity;
    destruct (load_state_try _); reflexivity.
Qed.

Lemma lulofoto_announce_prints (force_all : bool)
    (start_date : option datetime) (last_sync : pyval) :
  only_prints (Lulofoto.announce force_all start_date last_sync).
Proof.
  intros s r s'. unfold Lulofoto.announce. unfold_engine.
  destruct start_date; [intros [= <- <-]; by eexists|].
  destruct (truthy last_sync && negb force_all);
    [|intros [= <- <-]; by eexists].
  destruct last_sync; intros [= <- <-];
    try (exists (st_out s); now destruct s); by eexists.
Qed.

Lemma load_state_loaded (dest_dir : string) (s : state) :
  exists o, load_state dest_dir s = (Ok (loaded (st_sidecar s)), with_out s o).
Proof.
  rewrite load_state_eq. unfold loaded.
  destruct (st_sidecar s) as [|e|e|v];
    try (exists (st_out s); now destruct s);
    destruct (load_state_try _); try (exists (st_out s); now destruct s);
    by eexists.
Qed.

(** What [prepare] hands to the walk. *)
Lemma prepare_inv (announce : pyval -> M unit) (dest_dir : string)
    (s : state) (st last_sync : pyval) (s1 : state) :
  (forall ls, only_prints (announce ls)) ->
  prepare w announce dest_dir s = (Ok (st, last_sync), s1) ->
  st = loaded (st_sidecar s)
  /\ py_getitem st "last_sync" = Ok last_sync
  /\ py_getitem st "copied_files" = Ok (st_copied_files s1)
  /\ st_stats s1 = mkstats 0 0 0 0
  /\ st_files s ⊆ st_files s1
  /\ st_sidecar s1 = st_sidecar s.
Proof.
  intros Hann H. unfold prepare in H.
  unfold bind at 1 in H.
  destruct (makedirs w dest_dir s) as [[[]|e] s0] eqn:Emk; [|discriminate].
  apply makedirs_inv in Emk as (fs0 & -> & Hsub).
  unfold bind at 1 in H.
  destruct (load_state_loaded dest_dir (with_files s fs0)) as [o Hload].
  rewrite Hload in H. simpl in H.
  unfold bind at 1 in H. unfold lift at 1 in H.
  destruct (py_getitem (loaded (st_sidecar s)) "last_sync") as [ls|e] eqn:Els;
    [|discriminate].
  unfold bind at 1 in H. unfold lift at 1 in H.
  destruct (py_getitem (loaded (st_sidecar s)) "copied_files") as [cf|e] eqn:Ecf;
    [|discriminate].
  unfold bind at 1 in H. unfold set_copied_files at 1 in H.
  unfold modify at 1 in H. simpl in H.
  unfold bind at 1 in H.
  destruct (announce ls _) as [[[]|e] s2] eqn:Eann; [|discriminate].
  apply Hann in Eann as [o' ->].
  unfold_engine. simpl in H. injection H as <- <- <-. simpl.
  repeat split; auto.
Qed.

(** Once the state is a dictionary, the end of the run cannot fail. *)
Lemma finish_inv (dest_dir : string) (d : list (string * pyval)) (s : state) :
  exists s',
    finish w dest_dir (VDict d) s = (Ok true, s')
    /\ st_stats s' = st_stats s
    /\ st_copied_files s' = st_copied_files s
    /\ st_files s' = st_files s
    /\ (exists o, st_out s' = (st_out s ++ o ++ [Summary (st_stats s)])%list)
    /\ st_sidecar s' = saved_sidecar w d (st_copied_files s) (st_sidecar s).
Proof.
  unfold finish, save_state, saved_sidecar, saved_doc.
  unfold bind at 1. unfold lift at 1. cbn [py_setitem].
  unfold bind at 1. unfold gets at 1.
  unfold bind at 1. unfold lift at 1. cbn [py_setitem].
  unfold bind at 1. unfold bind at 1. unfold lift at 1. cbn [py_getitem].
  rewrite dict_get_set_ne by discriminate. rewrite dict_get_set_eq.
  unfold bind at 1. cbn [truthy]. unfold lift at 1. cbn [py_setitem].
  unfold save_state_try.
  destruct (state_write w) as [|e|e].
  - destruct (serializable _); unfold_engine; cbn;
      (eexists; split; [reflexivity|]); cbn;
      do 3 (split; [reflexivity|]); (split; [|reflexivity]).
    + by exists [].
    + exists [WarnSaveState TypeError]. now rewrite <- app_assoc.
  - unfold_engine; cbn. (eexists; split; [reflexivity|]); cbn.
    do 3 (split; [reflexivity|]); (split; [|reflexivity]).
    exists [WarnSaveState e]. now rewrite <- app_assoc.
  - unfold_engine; cbn. (eexists; split; [reflexivity|]); cbn.
    do 3 (split; [reflexivity|]); (split; [|reflexivity]).
    exists [WarnSaveState e]. now rewrite <- app_assoc.
Qed.

End Ends.

(** ** The two scripts side by side *)

Lemma bind_ext {A B} (m : M A) (f g : A -> M B) (s : state) :
  (forall a s, f a s = g a s) -> bind m f s = bind m g s.
Proof. intros H. unfold bind. destruct (m s) as [[a|e] s1]; [apply H | reflexivity]. Qed.

Section Agreement.
Context `{RT : Runtime}.
Variable w : world.

(** [bak-foto.py] does what [lulofoto.py] does without a start date. *)
Lemma organize_photos_agree (source_dir dest_dir : string) (force_all : bool)
    (s : state) :
  BakFoto.organize_photos w source_dir dest_dir force_all s
  = Lulofoto.organize_photos w source_dir dest_dir force_all None s.
Proof.
  unfold BakFoto.organize_photos, Lulofoto.organize_photos.
  destruct (negb (source_exists w (abspath source_dir))); [reflexivity|].
  apply bind_ext; intros _ ?.
  apply bind_ext; intros st ?.
  apply bind_ext; intros last_sync ?.
  do 4 (apply bind_ext; intros ? ?).
  unfold bind at 1 3.
  rewrite (for_each_ext _ _
             (fun '(root, files) =>
                for_each files
                  (Lulofoto.process_file w (abspath source_dir) (abspath dest_dir)
                     force_all None last_sync root))).
  - reflexivity.
  - intros [root files] s'. apply for_each_ext. intros filename s''.
    apply bakfoto_process_file_eq.
Qed.

Lemma main_agree (source destination : string) (force_all : bool) (s : state) :
  BakFoto.main w source destination force_all s
  = match Lulofoto.organize_photos w source destination force_all None s with
    | (Ok success, s') => (if (success : bool) then 0 else 1, s')
    | (Raise _, s') => (1, s')
    end.
Proof. unfold BakFoto.main. now rewrite organize_photos_agree. Qed.

(** A run that gets past its preparations ends well, whatever happened
    to the single files. *)
Lemma lulofoto_organize_runs (source_dir dest_dir : string) (force_all : bool)
    (start_date : option datetime) (s : state) (st last_sync : pyval)
    (s1 : state) :
  source_exists w (abspath source_dir) = true ->
  prepare w (Lulofoto.announce force_all start_date) (abspath dest_dir) s
    = (Ok (st, last_sync), s1) ->
  let s2 := lulofoto_walk w (abspath source_dir) (abspath dest_dir) force_all
                          start_date last_sync s1 in
  exists d s',
    st = VDict d
    /\ Lulofoto.organize_photos w source_dir dest_dir force_all start_date s
       = (Ok true, s')
    /\ st_stats s' = st_stats s2
    /\ st_copied_files s' = st_copied_files s2
    /\ st_files s' = st_files s2
    /\ (exists o, st_out s' = (st_out s2 ++ o ++ [Summary (st_stats s2)])%list)
    /\ st_sidecar s' = saved_sidecar w d (st_copied_files s2) (st_sidecar s2).
Proof.
  intros Hex Hprep s2.
  pose proof Hprep as Hinv.
  apply prepare_inv in Hinv as (_ & Hls & _);
    [|intros ls; apply lulofoto_announce_prints].
  destruct st as [| | | | |d|]; try discriminate.
  destruct (finish_inv w (abspath dest_dir) d s2)
    as (s' & Hfin & Hst & Hcf & Hfs & Hout & Hsc).
  exists d, s'. split; [reflexivity|].
  rewrite lulofoto_organize_eq, Hex, Hprep. simpl.
  fold s2. rewrite Hfin. auto 10.
Qed.

(** Every way a run can end. *)
Lemma lulofoto_organize_cases (source_dir dest_dir : string) (force_all : bool)
    (start_date : option datetime) (s : state) :
  (source_exists w (abspath source_dir) = false
   /\ Lulofoto.organize_photos w source_dir dest_dir force_all start_date s
      = (Ok false, with_out s (st_out s ++ [ErrSourceMissing (abspath source_dir)])))
  \/ (source_exists w (abspath source_dir) = true
      /\ exists e s1,
           prepare w (Lulofoto.announce force_all start_date) (abspath dest_dir) s
             = (Raise e, s1)
           /\ Lulofoto.organize_photos w source_dir dest_dir force_all start_date s
              = (Raise e, s1))
  \/ (source_exists w (abspath source_dir) = true
      /\ exists st last_sync s1,
           prepare w (Lulofoto.announce force_all start_date) (abspath dest_dir) s
             = (Ok (st, last_sync), s1)).
Proof.
  rewrite lulofoto_organize_eq.
  destruct (source_exists w (abspath source_dir)); simpl; [|now left].
  right.
  destruct (prepare w _ _ s) as [[[st ls]|e] s1] eqn:E.
  - right. split; [reflexivity|]. by exists st, ls, s1.
  - left. split; [reflexivity|]. by exists e, s1.
Qed.

End Agreement.

(* ===================================================================== *)
(** * The properties of the specification                                  *)
(* ===================================================================== *)

Section Claims.
Context `{RT : Runtime}.
Variable w : world.







(** C6 — Variant equivalence.  With no start date, [bak-foto.py], which
    resolves the photo date after the already-synced check, and
    [lulofoto.py], which resolves it first, do the same for every file —
    the same way out of the iteration (skipped, copied to the same path,
    or the same exception), the same counters, [copied_files], destination
    tree and console — and so the whole runs and the exit statuses are the
    same. *)
Theorem variant_equivalence (source_dir dest_dir : string) (force_all : bool)
    (last_sync : pyval) (root filename : string) (s : state) :
  BakFoto.file_body w source_dir dest_dir force_all last_sync root filename s
  = Lulofoto.file_body w source_dir dest_dir force_all None last_sync
                       root filename s
  /\ BakFoto.process_file w source_dir dest_dir force_all last_sync root filename s
     = Lulofoto.process_file w source_dir dest_dir force_all None last_sync
                             root filename s
  /\ BakFoto.organize_photos w source_dir dest_dir force_all s
     = Lulofoto.organize_photos w source_dir dest_dir force_all None s
  /\ BakFoto.main w source_dir dest_dir force_all s
     = match Lulofoto.organize_photos w source_dir dest_dir force_all None s with
       | (Ok success, s') => (if (success : bool) then 0 else 1, s')
       | (Raise _, s') => (1, s')
       end.
Proof.
  split; [apply file_body_agree|].
  split; [apply bakfoto_process_file_eq|].
  split; [apply organize_photos_agree | apply main_agree].
Qed.




Lemma scan_exif_first (before after : list (Z * exif_value))
    (tag_id : Z) (value : exif_value) (d : datetime) :
  Forall (fun item => ~ parses item) before ->
  is_date_tag tag_id = true ->
  parse_exif value = Ok d ->
  scan_exif (before ++ (tag_id, value) :: after) = Some d.
Proof.
  intros Hbefore Htag Hparse.
  induction Hbefore as [|[t v] before Hno _ IH]; simpl.
  - now rewrite Htag, Hparse.
  - destruct (is_date_tag t) eqn:Et; [|exact IH].
    destruct (parse_exif v) as [d'|e] eqn:Ev; [|exact IH].
    exfalso. apply Hno. split; [exact Et | by exists d'].
Qed.

Lemma scan_exif_none (items : list (Z * exif_value)) :
  Forall (fun item => ~ parses item) items -> scan_exif items = None.
Proof.
  induction 1 as [|[t v] items Hno _ IH]; simpl; [reflexivity|].
  destruct (is_date_tag t) eqn:Et; [|exact IH].
  destruct (parse_exif v) as [d'|e] eqn:Ev; [|exact IH].
  exfalso. apply Hno. split; [exact Et | by exists d'].
Qed.

Lemma scan_exif_some (items : list (Z * exif_value)) (d : datetime) :
  scan_exif items = Some d ->
  exists before tag_id value after,
    items = before ++ (tag_id, value) :: after
    /\ Forall (fun item => ~ parses item) before
    /\ is_date_tag tag_id = true
    /\ parse_exif value = Ok d.
Proof.
  induction items as [|[t v] items IH]; simpl; [discriminate|].
  destruct (is_date_tag t) eqn:Et.
  - destruct (parse_exif v) as [d'|e] eqn:Ev.
    + intros [= <-]. exists [], t, v, items. repeat split; auto.
    + intros H. destruct (IH H) as (before & t' & v' & after & -> & Hb & Ht & Hv).
      exists ((t, v) :: before), t', v', after. repeat split; auto.
      constructor; [|exact Hb]. intros [_ [d' Hd']]. simpl in Hd'. congruence.
  - intros H. destruct (IH H) as (before & t' & v' & after & -> & Hb & Ht & Hv).
    exists ((t, v) :: before), t', v', after. repeat split; auto.
    constructor; [|exact Hb]. intros [Ht' _]. simpl in Ht'. congruence.
Qed.

(** C5, as the code has it — The date resolver.  (1) When the metadata can
    be read and holds a date field whose text parses, the resolver returns
    the first such field in the order of the metadata.  (2) When the image
    library is missing, the metadata cannot be read or is absent, or no
    date field parses, the resolver gives what the modification time of
    the file gives.  (3) So it returns a date whenever the modification
    time can be read, and when it raises, it raises the exception of the
    modification-time lookup. *)
Theorem date_resolver_first_match_then_mtime (file_path : string) :
  (forall before after tag_id value d,
     HAS_PIL w = true ->
     getexif w file_path = Ok (Some (before ++ (tag_id, value) :: after)) ->
     Forall (fun item => ~ parses item) before ->
     is_date_tag tag_id = true ->
     parse_exif value = Ok d ->
     get_photo_date w file_path = Ok d)
  /\ ((HAS_PIL w = false
       \/ (exists e, getexif w file_path = Raise e)
       \/ getexif w file_path = Ok None
       \/ (exists items, getexif w file_path = Ok (Some items)
                         /\ Forall (fun item => ~ parses item) items)) ->
      get_photo_date w file_path = file_mtime_of w file_path)
  /\ (forall t, file_mtime_of w file_path = Ok t ->
        exists d, get_photo_date w file_path = Ok d)
  /\ (forall e, get_photo_date w file_path = Raise e ->
        file_mtime_of w file_path = Raise e).
Proof.
  split; [|split; [|split]].
  - intros before after tag_id value d Hpil Hexif Hb Ht Hv.
    unfold get_photo_date, exif_date. rewrite Hpil, Hexif.
    rewrite (scan_exif_first before after tag_id value d Hb Ht Hv).
    now destruct before.
  - intros H. unfold get_photo_date, exif_date.
    destruct (HAS_PIL w); [|reflexivity].
    destruct H as [H | [[e H] | [H | (items & H & Hno)]]];
      try discriminate; rewrite H; try reflexivity.
    rewrite (scan_exif_none items Hno). now destruct (negb _).
  - apply get_photo_date_mtime.
  - apply get_photo_date_raise.
Qed.


Lemma copy_photo_action (dest_dir source_path filename file_key : string)
    (photo_date : datetime) (s : state) (a : action) (s' : state) :
  copy_photo w dest_dir source_path filename file_key photo_date s = (Ok a, s') ->
  exists p, a = CopiedTo p.
Proof.
  intros H. apply copy_photo_inv in H as (_ & _ & p & data & fs1 & -> & _).
  by exists p.
Qed.

(** When [lulofoto.py] takes the already-synced way out. *)
Lemma lulofoto_skipped_synced (source_dir dest_dir : string) (force_all : bool)
    (start_date : option datetime) (last_sync : pyval)
    (root filename : string) (s : state) :
  (exists s',
     Lulofoto.file_body w source_dir dest_dir force_all start_date last_sync
                        root filename s = (Ok SkippedSynced, s'))
  <-> force_all = false
      /\ start_date = None
      /\ (exists t mt,
            last_sync = VDatetime t
            /\ file_mtime_of w (join root filename) = Ok mt
            /\ dt_leb mt t = true)
      /\ py_contains (relpath (join root filename) source_dir)
                     (st_copied_files s) = Ok true.
Proof.
  rewrite lulofoto_file_body_eq. split.
  - intros [s' H].
    destruct (get_photo_date w (join root filename)) as [d|e]; [|discriminate].
    destruct (Lulofoto.before_start start_date d); [discriminate|].
    destruct (file_mtime_of w (join root filename)) as [mt|e]; [|discriminate].
    destruct (synced_check _ _ _ _ _) as [[|]|e] eqn:Esync; try discriminate.
    + apply synced_check_true in Esync as (Hg & (t & -> & Hle) & Hin).
      apply andb_true_iff in Hg as [Hfa Hsd].
      destruct force_all; [discriminate|].
      destruct start_date; [discriminate|].
      repeat split; auto. by exists t, mt.
    + apply copy_photo_action in H as [p Hp]. discriminate.
  - intros (-> & -> & (t & mt & -> & Hmt & Hle) & Hin).
    destruct (get_photo_date_mtime w _ _ Hmt) as [d ->]. simpl.
    rewrite Hmt.
    assert (E : synced_check true (VDatetime t) mt
                  (relpath (join root filename) source_dir) (st_copied_files s)
                = Ok true).
    { apply synced_check_true. repeat split; auto. by exists t. }
    rewrite E. by eexists.
Qed.

(** When [lulofoto.py] takes the start-date way out. *)
Lemma lulofoto_skipped_floor (source_dir dest_dir : string) (force_all : bool)
    (start_date : option datetime) (last_sync : pyval)
    (root filename : string) (s : state) :
  (exists s',
     Lulofoto.file_body w source_dir dest_dir force_all start_date last_sync
                        root filename s = (Ok SkippedFloor, s'))
  <-> exists floor d,
        start_date = Some floor
        /\ get_photo_date w (join root filename) = Ok d
        /\ dt_ltb d floor = true.
Proof.
  rewrite lulofoto_file_body_eq. split.
  - intros [s' H].
    destruct (get_photo_date w (join root filename)) as [d|e]; [|discriminate].
    destruct (Lulofoto.before_start start_date d) eqn:Eb.
    + destruct start_date as [floor|]; [|discriminate]. by exists floor, d.
    + destruct (file_mtime_of w (join root filename)) as [mt|e]; [|discriminate].
      destruct (synced_check _ _ _ _ _) as [[|]|e]; try discriminate.
      apply copy_photo_action in H as [p Hp]. discriminate.
  - intros (floor & d & -> & -> & Hlt). simpl. rewrite Hlt. by eexists.
Qed.

(** C2 — The state-based skip rule.  An image file leaves the loop body of
    [lulofoto.py] by the already-synced skip exactly when [force_all] is
    false, no start date is set, [last_sync] is a datetime, the
    modification time of the file is at most [last_sync], and its key is in
    [copied_files]; the same holds of [bak-foto.py], which has no start
    date.  With a start date set that way out is never taken; the
    start-date skip is taken exactly when the resolved date is before the
    start date, and before the state is looked at: it is the same whatever
    [last_sync] and [copied_files] are. *)
Theorem state_based_skip_rule (source_dir dest_dir : string) (force_all : bool)
    (start_date : option datetime) (last_sync : pyval)
    (root filename : string) (s : state) :
  ((exists s',
      Lulofoto.file_body w source_dir dest_dir force_all start_date last_sync
                         root filename s = (Ok SkippedSynced, s'))
   <-> force_all = false
       /\ start_date = None
       /\ (exists t mt,
             last_sync = VDatetime t
             /\ file_mtime_of w (join root filename) = Ok mt
             /\ dt_leb mt t = true)
       /\ py_contains (relpath (join root filename) source_dir)
                      (st_copied_files s) = Ok true)
  /\ ((exists s',
         BakFoto.file_body w source_dir dest_dir force_all last_sync
                           root filename s = (Ok SkippedSynced, s'))
      <-> force_all = false
          /\ (exists t mt,
                last_sync = VDatetime t
                /\ file_mtime_of w (join root filename) = Ok mt
                /\ dt_leb mt t = true)
          /\ py_contains (relpath (join root filename) source_dir)
                         (st_copied_files s) = Ok true)
  /\ (forall floor s',
        start_date = Some floor ->
        Lulofoto.file_body w source_dir dest_dir force_all start_date last_sync
                           root filename s <> (Ok SkippedSynced, s'))
  /\ (forall floor d last_sync' copied_files',
        start_date = Some floor ->
        get_photo_date w (join root filename) = Ok d ->
        dt_ltb d floor = true ->
        fst (Lulofoto.file_body w source_dir dest_dir force_all start_date
               last_sync' root filename
               (mkstate (st_stats s) copied_files' (st_files s) (st_sidecar s)
                        (st_out s)))
        = Ok SkippedFloor).
Proof.
  split; [apply lulofoto_skipped_synced|]. split; [|split].
  - rewrite file_body_agree, lulofoto_skipped_synced. split.
    + intros (Hfa & _ & H). exact (conj Hfa H).
    + intros (Hfa & H). exact (conj Hfa (conj eq_refl H)).
  - intros floor s' -> H.
    assert (Hex : exists s', Lulofoto.file_body w source_dir dest_dir force_all
                    (Some floor) last_sync root filename s = (Ok SkippedSynced, s'))
      by (by exists s').
    apply lulofoto_skipped_synced in Hex as (_ & Hsd & _). discriminate.
  - intros floor d ls' cf' -> Hd Hlt.
    rewrite lulofoto_file_body_eq, Hd. simpl. now rewrite Hlt.
Qed.

(** What the loop body of [lulofoto.py] does to the state file, the
    destination tree and [copied_files]. *)
Lemma lulofoto_file_body_inv (source_dir dest_dir : string) (force_all : bool)
    (start_date : option datetime) (last_sync : pyval)
    (root filename : string) (s : state) (r : result action) (s' : state) :
  Lulofoto.file_body w source_dir dest_dir force_all start_date last_sync
                     root filename s = (r, s') ->
  st_sidecar s' = st_sidecar s
  /\ st_files s ⊆ st_files s'
  /\ (st_copied_files s' = st_copied_files s
      \/ exists d p,
           r = Ok (CopiedTo p)
           /\ get_photo_date w (join root filename) = Ok d
           /\ Lulofoto.before_start start_date d = false
           /\ py_setitem (st_copied_files s)
                (relpath (join root filename) source_dir) (VStr (isoformat d))
              = Ok (st_copied_files s')).
Proof.
  rewrite lulofoto_file_body_eq.
  destruct (get_photo_date w (join root filename)) as [d|e];
    [|intros [= <- <-]; auto].
  destruct (Lulofoto.before_start start_date d) eqn:Eb;
    [intros [= <- <-]; auto|].
  destruct (file_mtime_of w (join root filename)) as [mt|e];
    [|intros [= <- <-]; auto].
  destruct (synced_check _ _ _ _ _) as [[|]|e]; try (intros [= <- <-]; auto).
  intros H. apply copy_photo_inv in H as (Hsc & Hsub & H).
  split; [exact Hsc|]. split; [exact Hsub|].
  destruct r as [a|e].
  - destruct H as (p & data & fs1 & -> & _ & _ & _ & _ & _ & Hset & _).
    right. by exists d, p.
  - left. apply H.
Qed.

Lemma guarded_fields (filename : string) (body : M action) (s : state) :
  is_image_file filename = true ->
  exists r s1,
    body (with_stats s (bump_total_found (st_stats s))) = (r, s1)
    /\ st_copied_files (guarded filename body s) = st_copied_files s1
    /\ st_files (guarded filename body s) = st_files s1
    /\ st_sidecar (guarded filename body s) = st_sidecar s1.
Proof.
  intros Himg. unfold guarded. rewrite Himg. simpl.
  destruct (body _) as [[a|e] s1]; by eexists _, _.
Qed.

(** An entry of [copied_files] changes only when a file with that key is
    copied. *)
Lemma lulofoto_walk_entry (source_dir dest_dir : string) (force_all : bool)
    (start_date : option datetime) (last_sync : pyval) (key : string)
    (l : list (string * string)) (s : state) :
  (forall root filename d,
     In (root, filename) l ->
     is_image_file filename = true ->
     relpath (join root filename) source_dir = key ->
     get_photo_date w (join root filename) = Ok d ->
     Lulofoto.before_start start_date d = true) ->
  let s' := fold_left
              (fun s '(root, filename) =>
                 guarded filename
                   (Lulofoto.file_body w source_dir dest_dir force_all start_date
                                       last_sync root filename) s) l s in
  py_getitem (st_copied_files s') key = py_getitem (st_copied_files s) key
  /\ py_contains key (st_copied_files s') = py_contains key (st_copied_files s).
Proof.
  revert s. induction l as [|[root filename] l IH]; intros s Hkey; simpl.
  - auto.
  - assert (Hstep :
      py_getitem (st_copied_files
        (guarded filename
           (Lulofoto.file_body w source_dir dest_dir force_all start_date
              last_sync root filename) s)) key
      = py_getitem (st_copied_files s) key
      /\ py_contains key (st_copied_files
           (guarded filename
              (Lulofoto.file_body w source_dir dest_dir force_all start_date
                 last_sync root filename) s))
         = py_contains key (st_copied_files s)).
    { destruct (is_image_file filename) eqn:Himg;
        [|now rewrite guarded_not_image].
      destruct (guarded_fields filename
                  (Lulofoto.file_body w source_dir dest_dir force_all start_date
                     last_sync root filename) s Himg)
        as (r & s1 & Hbody & -> & _ & _).
      apply lulofoto_file_body_inv in Hbody
        as (_ & _ & [-> | (d & p & _ & Hd & Hb & Hset)]); [auto|].
      simpl in Hset.
      destruct (String.eqb_spec (relpath (join root filename) source_dir) key)
        as [Heq | Hne].
      - rewrite (Hkey root filename d) in Hb; auto; [discriminate | now left].
      - eapply py_setitem_other in Hset; [exact Hset | congruence]. }
    destruct Hstep as [Hg Hc].
    destruct (IH (guarded filename
                    (Lulofoto.file_body w source_dir dest_dir force_all
                       start_date last_sync root filename) s)) as [IHg IHc].
    { intros r f d Hin. apply Hkey. now right. }
    simpl in IHg, IHc. split; congruence.
Qed.

(** C3, as the code has it — The date-floor filter.  (1) A file whose
    resolved date is before the start date leaves the loop body by the
    start-date skip, whatever [force_all], [last_sync] and [copied_files]
    are; nothing but the skipped counter changes: nothing is copied and
    [copied_files] is not written.  (2) Over a whole walk, the entry of
    [copied_files] under a key all of whose files resolve before the start
    date is what it was before the walk: absent if it was absent, and the
    entry of an earlier run if there was one. *)
Theorem date_floor_filter (source_dir dest_dir : string) (force_all : bool)
    (floor : datetime) (last_sync : pyval) (s : state) :
  (forall root filename d,
     get_photo_date w (join root filename) = Ok d ->
     dt_ltb d floor = true ->
     Lulofoto.file_body w source_dir dest_dir force_all (Some floor) last_sync
                        root filename s
     = (Ok SkippedFloor, with_stats s (bump_skipped (st_stats s))))
  /\ (forall key,
        (forall root filename d,
           In (root, filename) (walk_files (walk w source_dir)) ->
           is_image_file filename = true ->
           relpath (join root filename) source_dir = key ->
           get_photo_date w (join root filename) = Ok d ->
           dt_ltb d floor = true) ->
        let s' := lulofoto_walk w source_dir dest_dir force_all (Some floor)
                                last_sync s in
        py_getitem (st_copied_files s') key = py_getitem (st_copied_files s) key
        /\ py_contains key (st_copied_files s')
           = py_contains key (st_copied_files s)).
Proof.
  split.
  - intros root filename d Hd Hlt.
    rewrite lulofoto_file_body_eq, Hd. simpl. now rewrite Hlt.
  - intros key Hkey. apply lulofoto_walk_entry. exact Hkey.
Qed.

(** The destination tree only grows during a walk. *)
Lemma guarded_files_grow (source_dir dest_dir : string) (force_all : bool)
    (start_date : option datetime) (last_sync : pyval)
    (root filename : string) (s : state) :
  st_files s
  ⊆ st_files (guarded filename
                (Lulofoto.file_body w source_dir dest_dir force_all start_date
                                    last_sync root filename) s).
Proof.
  destruct (is_image_file filename) eqn:Himg; [|now rewrite guarded_not_image].
  destruct (guarded_fields filename
              (Lulofoto.file_body w source_dir dest_dir force_all start_date
                 last_sync root filename) s Himg)
    as (r & s1 & Hbody & _ & -> & _).
  now apply lulofoto_file_body_inv in Hbody as (_ & Hsub & _).
Qed.

Lemma lulofoto_walk_files_grow (source_dir dest_dir : string) (force_all : bool)
    (start_date : option datetime) (last_sync : pyval) (s : state) :
  st_files s
  ⊆ st_files (lulofoto_walk w source_dir dest_dir force_all start_date last_sync s).
Proof.
  unfold lulofoto_walk. generalize (walk_files (walk w source_dir)). intros l.
  revert s. induction l as [|[root filename] l IH]; intros s; simpl; [done|].
  etrans; [apply guarded_files_grow | apply IH].
Qed.


End Claims.

(** ** Two runs in a row *)

Section WalkFacts.
Context `{RT : Runtime}.
Variable w : world.

Lemma makedirs_ok (p : string) (s s' : state) :
  makedirs w p s = (Ok tt, s') -> st_files s' !! p = Some Dir.
Proof.
  unfold makedirs. unfold_engine. simpl.
  destruct (st_files s !! p) as [[|data]|] eqn:E.
  - now intros [= <-].
  - discriminate.
  - destruct (mkdir_fault w p); [discriminate|].
    intros [= <-]. simpl. apply lookup_insert_eq.
Qed.

Lemma makedirs_there (p : string) (s : state) :
  st_files s !! p = Some Dir -> makedirs w p s = (Ok tt, s).
Proof. unfold makedirs. unfold_engine. simpl. now intros ->. Qed.

(** After its preparations a run has its destination directory. *)
Lemma prepare_dest_dir (announce : pyval -> M unit) (dest_dir : string)
    (s : state) (st last_sync : pyval) (s1 : state) :
  (forall ls, only_prints (announce ls)) ->
  prepare w announce dest_dir s = (Ok (st, last_sync), s1) ->
  st_files s1 !! dest_dir = Some Dir.
Proof.
  intros Hann H. unfold prepare in H.
  unfold bind at 1 in H.
  destruct (makedirs w dest_dir s) as [[[]|e] s0] eqn:Emk; [|discriminate].
  apply makedirs_ok in Emk.
  unfold bind at 1 in H.
  destruct (load_state_loaded dest_dir s0) as [o Hload].
  rewrite Hload in H.
  unfold bind at 1 in H. unfold lift at 1 in H.
  destruct (py_getitem _ "last_sync") as [ls|e]; [|discriminate].
  unfold bind at 1 in H. unfold lift at 1 in H.
  destruct (py_getitem _ "copied_files") as [cf|e]; [|discriminate].
  unfold bind at 1 in H. unfold set_copied_files at 1 in H.
  unfold modify at 1 in H. simpl in H.
  unfold bind at 1 in H.
  destruct (announce ls _) as [[[]|e] s2] eqn:Eann; [|discriminate].
  apply Hann in Eann as [o' ->].
  unfold_engine. simpl in H. injection H as <- <- <-. exact Emk.
Qed.

(** The keys a walk without start date and without errors leaves in
    [copied_files]: those it found there and those of all its images. *)
Lemma lulofoto_walk_keys (source_dir dest_dir : string) (force_all : bool)
    (last_sync : pyval) (l : list (string * string)) (s : state) :
  let s' := fold_left
              (fun s '(root, filename) =>
                 guarded filename
                   (Lulofoto.file_body w source_dir dest_dir force_all None
                                       last_sync root filename) s) l s in
  (errors (st_stats s) <= errors (st_stats s'))%nat
  /\ (errors (st_stats s') = errors (st_stats s) ->
      (forall k, py_contains k (st_copied_files s) = Ok true ->
                 py_contains k (st_copied_files s') = Ok true)
      /\ forall root filename,
           In (root, filename) l -> is_image_file filename = true ->
           py_contains (relpath (join root filename) source_dir)
                       (st_copied_files s') = Ok true).
Proof.
  revert s. induction l as [|[root filename] l IH]; intros s; simpl.
  - split; [lia|]. intros _. split; [auto | intros ? ? []].
  - set (s1 := guarded filename
                 (Lulofoto.file_body w source_dir dest_dir force_all None
                    last_sync root filename) s).
    specialize (IH s1). simpl in IH. destruct IH as [IHle IH].
    assert (Hstep :
      (errors (st_stats s) <= errors (st_stats s1))%nat
      /\ (errors (st_stats s1) = errors (st_stats s) ->
          (forall k, py_contains k (st_copied_files s) = Ok true ->
                     py_contains k (st_copied_files s1) = Ok true)
          /\ (is_image_file filename = true ->
              py_contains (relpath (join root filename) source_dir)
                          (st_copied_files s1) = Ok true))).
    { unfold s1, guarded.
      destruct (is_image_file filename) eqn:Himg; simpl;
        [|split; [lia | intros _; split; [auto | discriminate]]].
      rewrite lulofoto_file_body_eq. simpl.
      destruct (get_photo_date w (join root filename)) as [d|e];
        [|simpl; split; [lia | intros; lia]].
      destruct (file_mtime_of w (join root filename)) as [mt|e];
        [|simpl; split; [lia | intros; lia]].
      destruct (synced_check _ _ _ _ _) as [[|]|e] eqn:Esync;
        [| |simpl; split; [lia | intros; lia]].
      - simpl. split; [lia|]. intros _. split; [auto|]. intros _.
        now apply synced_check_true in Esync as (_ & _ & Hin).
      - destruct (copy_photo w dest_dir (join root filename) filename _ d _)
          as [[a|e] s2] eqn:Ecp;
          apply copy_photo_inv in Ecp as (_ & _ & Hcp).
        + destruct Hcp as (p & data & fs1 & -> & _ & _ & _ & _ & Hst & Hset & _).
          simpl in Hset. apply py_setitem_contains in Hset as [Hin Hmono].
          rewrite Hst. simpl. split; [lia|]. intros _. split; [exact Hmono | auto].
        + destruct Hcp as (Hst & _ & _). simpl. rewrite Hst. simpl.
          split; [lia | intros; lia]. }
    destruct Hstep as [Hle Hstep]. split; [lia|].
    intros Herr.
    assert (H1 : errors (st_stats s1) = errors (st_stats s)) by lia.
    destruct (Hstep H1) as [Hmono1 Hkey1].
    destruct IH as [Hmono Hkeys]; [lia|].
    split; [auto|].
    intros r f [[= -> ->] | Hin] Himg; [apply Hmono, Hkey1, Himg | now apply Hkeys].
Qed.

(** A walk over files that are all synced skips them all and changes
    nothing but the counters. *)
Lemma lulofoto_walk_all_synced (source_dir dest_dir : string) (t : datetime)
    (l : list (string * string)) (s : state) :
  (forall root filename,
     In (root, filename) l -> is_image_file filename = true ->
     (exists mt, file_mtime_of w (join root filename) = Ok mt
                 /\ dt_leb mt t = true)
     /\ py_contains (relpath (join root filename) source_dir)
                    (st_copied_files s) = Ok true) ->
  fold_left
    (fun s '(root, filename) =>
       guarded filename
         (Lulofoto.file_body w source_dir dest_dir false None (VDatetime t)
                             root filename) s) l s
  = with_stats s
      (mkstats (total_found (st_stats s) + length (List.filter is_image l))
               (copied (st_stats s))
               (skipped (st_stats s) + length (List.filter is_image l))
               (errors (st_stats s))).
Proof.
  revert s. induction l as [|[root filename] l IH]; intros s Hl; simpl.
  - rewrite !Nat.add_0_r. now destruct s as [[] ? ? ? ?].
  - change (is_image (root, filename)) with (is_image_file filename).
    destruct (is_image_file filename) eqn:Himg.
    + destruct (Hl root filename) as [(mt & Hmt & Hle) Hin]; [now left | exact Himg|].
      assert (Hg : guarded filename
                     (Lulofoto.file_body w source_dir dest_dir false None
                        (VDatetime t) root filename) s
                   = with_stats s
                       (bump_skipped (bump_total_found (st_stats s)))).
      { unfold guarded. rewrite Himg. simpl.
        rewrite lulofoto_file_body_eq.
        destruct (get_photo_date_mtime w _ _ Hmt) as [d ->]. simpl.
        rewrite Hmt. unfold synced_check. simpl. rewrite Hle, Hin. reflexivity. }
      rewrite Hg, IH.
      * unfold with_stats. simpl. do 2 f_equal; lia.
      * intros r f Hrf Hi. simpl. apply Hl; [now right | exact Hi].
    + rewrite guarded_not_image by exact Himg. apply IH.
      intros r f Hrf Hi. apply Hl; [now right | exact Hi].
Qed.

End WalkFacts.

Section TwoRuns.
Context `{RT : Runtime}.
Variables w w2 : world.

(** The preparations of a run that finds the state file the run before
    it has saved. *)
Lemma prepare_after_save (dest_dir : string) (d : list (string * pyval))
    (copied_files : pyval) (s : state) :
  st_files s !! dest_dir = Some Dir ->
  st_sidecar s = SidecarJson (saved_doc w d copied_files) ->
  fromisoformat (isoformat (now w)) = Ok (now w) ->
  exists st,
    prepare w2 (Lulofoto.announce false None) dest_dir s
    = (Ok (st, VDatetime (now w)),
       mkstate (mkstats 0 0 0 0) copied_files (st_files s) (st_sidecar s)
               (st_out s ++ [LastSync (now w)])).
Proof.
  intros Hdir Hsc Hiso. eexists. unfold prepare.
  unfold bind at 1. rewrite (makedirs_there w2 dest_dir s Hdir).
  unfold bind at 1. rewrite load_state_eq, Hsc.
  unfold load_state_try, saved_doc.
  cbn [py_contains result_bind]. rewrite dict_get_set_eq.
  cbn [py_getitem result_bind]. rewrite dict_get_set_eq.
  cbn [result_bind]. rewrite Hiso. cbn [result_bind py_setitem].
  unfold bind at 1. unfold lift at 1. cbn [py_getitem].
  rewrite dict_get_set_eq.
  unfold bind at 1. unfold lift at 1. cbn [py_getitem].
  rewrite !(dict_get_set_ne "copied_files" "last_sync") by discriminate.
  rewrite dict_get_set_eq.
  unfold Lulofoto.announce. unfold_engine. cbn. rewrite Hsc. reflexivity.
Qed.

(** C1, as the code has it — Idempotence.  Let a run without start date
    complete without a file counted as an error and with its state saved,
    let the saved stamp read back as written, and let no image file of the
    walk have a modification time after that stamp.  Then a second run over
    the same tree (the same walk, the same modification times), with
    [force_all] off and no start date, completes, copies nothing, skips
    every image file it finds, and leaves the destination tree and
    [copied_files] as they are. *)
Theorem second_run_copies_nothing (source_dir dest_dir : string)
    (force_all : bool) (s0 s1 : state) :
  Lulofoto.organize_photos w source_dir dest_dir force_all None s0 = (Ok true, s1) ->
  errors (st_stats s1) = 0%nat ->
  state_write w = WriteOk ->
  (exists v, st_sidecar s1 = SidecarJson v) ->
  fromisoformat (isoformat (now w)) = Ok (now w) ->
  (forall root filename,
     In (root, filename) (walk_files (walk w (abspath source_dir))) ->
     is_image_file filename = true ->
     exists mt, file_mtime_of w (join root filename) = Ok mt
                /\ dt_leb mt (now w) = true) ->
  source_exists w2 (abspath source_dir) = true ->
  walk w2 (abspath source_dir) = walk w (abspath source_dir) ->
  (forall p, getmtime w2 p = getmtime w p) ->
  exists s2,
    Lulofoto.organize_photos w2 source_dir dest_dir false None s1 = (Ok true, s2)
    /\ copied (st_stats s2) = 0%nat
    /\ skipped (st_stats s2) = total_found (st_stats s2)
    /\ total_found (st_stats s2)
       = length (List.filter is_image (walk_files (walk w (abspath source_dir))))
    /\ st_files s2 = st_files s1
    /\ st_copied_files s2 = st_copied_files s1.
Proof.
  intros Hrun1 Herr Hwrite [v Hv] Hiso Hmtime Hex2 Hwalk Hmt.
  destruct (lulofoto_organize_cases w source_dir dest_dir force_all None s0)
    as [[_ E] | [(_ & e & sE & _ & E) | (Hex1 & st & ls & sA & Hprep)]];
    try (rewrite E in Hrun1; discriminate).
  destruct (lulofoto_organize_runs w _ _ _ _ _ _ _ _ Hex1 Hprep)
    as (d & s1' & -> & Hrun & Hst & Hcf & Hfs & _ & Hsc).
  rewrite Hrun in Hrun1. injection Hrun1 as ->.
  set (sW := lulofoto_walk w (abspath source_dir) (abspath dest_dir) force_all
                           None ls sA) in *.
  pose proof (prepare_dest_dir w _ _ _ _ _ _
                (fun l => lulofoto_announce_prints force_all None l) Hprep) as Hdir.
  apply prepare_inv in Hprep as (_ & _ & _ & Hzero & _);
    [|intros ?; apply lulofoto_announce_prints].
  (* the keys the first run leaves *)
  pose proof (lulofoto_walk_keys w (abspath source_dir) (abspath dest_dir)
                force_all ls (walk_files (walk w (abspath source_dir))) sA)
    as [_ Hkeys].
  fold (lulofoto_walk w (abspath source_dir) (abspath dest_dir) force_all
          None ls sA) in Hkeys. fold sW in Hkeys.
  destruct Hkeys as [_ Hkeys]; [rewrite <- Hst, Herr, Hzero; reflexivity|].
  (* the state file the first run leaves *)
  unfold saved_sidecar in Hsc. rewrite Hwrite in Hsc.
  destruct (serializable (saved_doc w d (st_copied_files sW)));
    [|rewrite Hsc in Hv; discriminate].
  (* the second run *)
  assert (Hdir1 : st_files s1 !! abspath dest_dir = Some Dir).
  { rewrite Hfs. eapply lookup_weaken; [exact Hdir|].
    apply lulofoto_walk_files_grow. }
  destruct (prepare_after_save (abspath dest_dir) d (st_copied_files sW) s1
              Hdir1 Hsc Hiso) as [st2 Hprep2].
  destruct (lulofoto_organize_runs w2 _ _ _ _ _ _ _ _ Hex2 Hprep2)
    as (d2 & s2 & _ & Hrun2 & Hst2 & Hcf2 & Hfs2 & _ & _).
  exists s2. split; [exact Hrun2|].
  unfold lulofoto_walk in Hst2, Hcf2, Hfs2. rewrite Hwalk in Hst2, Hcf2, Hfs2.
  rewrite (lulofoto_walk_all_synced w2 (abspath source_dir) (abspath dest_dir)
             (now w)) in Hst2, Hcf2, Hfs2.
  all: cycle 1.
  all: try (intros root filename Hin Himg; simpl; split;
            [destruct (Hmtime root filename Hin Himg) as (mt & Hm & Hle);
             exists mt; split; [|exact Hle];
             unfold file_mtime_of in *; now rewrite Hmt
            |now apply Hkeys]).
  simpl in Hst2, Hcf2, Hfs2. rewrite Hst2, Hcf2, Hfs2. simpl.
  repeat split; auto.
Qed.

End TwoRuns.

(* ===================================================================== *)
(** * Further properties of the scripts                                    *)
(* ===================================================================== *)

(** ** Which names are images *)

Lemma lower_ascii_dot (c : ascii) :
  Ascii.eqb (lower_ascii c) "." = Ascii.eqb c ".".
Proof. destruct c as [[] [] [] [] [] [] [] []]; reflexivity. Qed.

Lemma lower_ascii_idem (c : ascii) : lower_ascii (lower_ascii c) = lower_ascii c.
Proof. destruct c as [[] [] [] [] [] [] [] []]; reflexivity. Qed.

Lemma lower_idem (s : string) : lower (lower s) = lower s.
Proof.
  induction s as [|c s IH]; simpl; [reflexivity|].
  now rewrite lower_ascii_idem, IH.
Qed.

Lemma lower_length (s : string) : String.length (lower s) = String.length s.
Proof. induction s as [|c s IH]; simpl; [reflexivity | now rewrite IH]. Qed.

Lemma lower_append (a b : string) : lower (a +:+ b) = lower a +:+ lower b.
Proof. induction a as [|c a IH]; simpl; [reflexivity | now rewrite IH]. Qed.

Lemma drop_lower (i : nat) (s : string) :
  Py.drop i (lower s) = lower (Py.drop i s).
Proof.
  revert s. induction i as [|i IH]; intros [|c s]; simpl; try reflexivity.
  apply IH.
Qed.

(** Lowering a name moves no dot. *)
Lemma rfind_from_lower (s : string) (i : Z) :
  rfind_from "." (lower s) i = rfind_from "." s i.
Proof.
  revert i. induction s as [|c s IH]; intros i; simpl; [reflexivity|].
  now rewrite IH, lower_ascii_dot.
Qed.

Lemma suffix_lower (name : string) : suffix (lower name) = lower (suffix name).
Proof.
  unfold suffix, rfind. rewrite rfind_from_lower, lower_length.
  destruct (_ && _); [apply drop_lower | reflexivity].
Qed.

Lemma rfind_from_bounds (c : ascii) (s : string) (i : Z) :
  0 <= i ->
  rfind_from c s i = -1
  \/ i <= rfind_from c s i < i + Z.of_nat (String.length s).
Proof.
  revert i. induction s as [|a s IH]; intros i Hi; simpl String.length;
    [now left|].
  cbn [rfind_from].
  destruct (IH (i + 1)) as [-> | H]; [lia| |].
  - simpl. destruct (Ascii.eqb a c); [right; lia | now left].
  - destruct (0 <=? rfind_from c s (i + 1)) eqn:E; [right; lia|].
    apply Z.leb_gt in E. lia.
Qed.

Lemma rfind_from_append (c : ascii) (a b : string) (i : Z) :
  0 <= i ->
  0 <= rfind_from c b (i + Z.of_nat (String.length a)) ->
  rfind_from c (a +:+ b) i = rfind_from c b (i + Z.of_nat (String.length a)).
Proof.
  revert i. induction a as [|x a IH]; intros i Hi Hb.
  - simpl in *. now rewrite Z.add_0_r in Hb |- *.
  - cbn [String.append rfind_from].
    replace (i + Z.of_nat (String.length (String x a)))
      with (i + 1 + Z.of_nat (String.length a)) in Hb |- *
      by (simpl String.length; lia).
    rewrite IH by lia.
    apply Z.leb_le in Hb. now rewrite Hb.
Qed.

Lemma drop_append (a b : string) : Py.drop (String.length a) (a +:+ b) = b.
Proof. induction a as [|c a IH]; simpl; [now destruct b | exact IH]. Qed.

Lemma existsb_eqb_In (x : string) (l : list string) :
  existsb (String.eqb x) l = true <-> In x l.
Proof.
  rewrite existsb_exists. split.
  - intros (y & Hy & He). apply String.eqb_eq in He. now subst.
  - intros H. exists x. split; [exact H | apply String.eqb_refl].
Qed.

(** Every extension of the list is a dot followed by at least two
    characters, none of them a dot. *)
Lemma image_extension_shape (e : string) (j : Z) :
  In e IMAGE_EXTENSIONS ->
  rfind_from "." e j = j /\ (2 <= String.length e)%nat.
Proof.
  intros H. unfold IMAGE_EXTENSIONS in H.
  repeat (destruct H as [<- | H]; [split; [reflexivity | simpl; lia]|]).
  destruct H.
Qed.

(** X10 — Which names are images.  [is_image_file] accepts exactly the
    names made of a stem that is not empty and of one of the fourteen
    extensions, written in any mix of upper and lower case.  A name that
    is only an extension, such as [.jpg], is no image, and neither is a
    name whose image extension is followed by another one. *)
Theorem image_names_are_stem_and_extension (name : string) :
  is_image_file name = true
  <-> exists stem ext,
        name = stem +:+ ext /\ stem <> "" /\ In (lower ext) IMAGE_EXTENSIONS.
Proof.
  unfold is_image_file. rewrite existsb_eqb_In. split.
  - intros H. unfold suffix in H |- *.
    destruct (_ && _) eqn:E;
      [|simpl in H; repeat (destruct H as [H | H]; [discriminate|]); destruct H].
    apply andb_true_iff in E as [E1 E2].
    apply Z.ltb_lt in E1. apply Z.ltb_lt in E2.
    exists (Py.take (Z.to_nat (rfind "." name)) name),
           (Py.drop (Z.to_nat (rfind "." name)) name).
    split; [now rewrite take_drop|]. split; [|exact H].
    destruct name as [|c name]; [simpl in E2; lia|].
    destruct (Z.to_nat (rfind "." (String c name))) eqn:En; [lia | discriminate].
  - intros (stem & ext & -> & Hstem & Hin).
    assert (Hlen : (0 < String.length stem)%nat)
      by (destruct stem; [congruence | simpl; lia]).
    pose proof (image_extension_shape _ (Z.of_nat (String.length stem)) Hin)
      as [Hdot Hext].
    rewrite rfind_from_lower in Hdot. rewrite lower_length in Hext.
    assert (Hr : rfind "." (stem +:+ ext) = Z.of_nat (String.length stem)).
    { unfold rfind. rewrite rfind_from_append; rewrite ?Z.add_0_l, ?Hdot; lia. }
    unfold suffix. rewrite Hr, append_length, Nat2Z.id, drop_append.
    replace (_ && _) with true; [exact Hin|].
    symmetry. apply andb_true_iff. split; apply Z.ltb_lt; lia.
Qed.

(** X11 — Case does not matter.  A name and the same name in lower case
    are both image files or both not: [PHOTO.JPG] is found by the walk
    whenever [photo.jpg] would be. *)
Theorem is_image_file_ignores_case (name : string) :
  is_image_file (lower name) = is_image_file name.
Proof.
  unfold is_image_file. now rewrite suffix_lower, lower_idem.
Qed.

Section WholeRuns.
Context `{RT : Runtime}.
Variable w : world.

(** The preparations only add the destination directory, whether they
    go through or raise. *)
Lemma prepare_grows (announce : pyval -> M unit) (dest_dir : string)
    (s : state) (r : result (pyval * pyval)) (s1 : state) :
  (forall ls, only_prints (announce ls)) ->
  prepare w announce dest_dir s = (r, s1) ->
  st_files s ⊆ st_files s1 /\ st_sidecar s1 = st_sidecar s.
Proof.
  intros Hann H. unfold prepare in H.
  unfold bind at 1 in H.
  destruct (makedirs w dest_dir s) as [[[]|e] s0] eqn:Emk;
    apply makedirs_inv in Emk as (fs0 & -> & Hsub);
    [|injection H as <- <-; auto].
  unfold bind at 1 in H.
  destruct (load_state_loaded dest_dir (with_files s fs0)) as [o Hload].
  rewrite Hload in H. simpl in H.
  unfold bind at 1 in H. unfold lift at 1 in H.
  destruct (py_getitem (loaded (st_sidecar s)) "last_sync") as [ls|e];
    [|injection H as <- <-; auto].
  unfold bind at 1 in H. unfold lift at 1 in H.
  destruct (py_getitem (loaded (st_sidecar s)) "copied_files") as [cf|e];
    [|injection H as <- <-; auto].
  unfold bind at 1 in H. unfold set_copied_files at 1 in H.
  unfold modify at 1 in H. simpl in H.
  unfold bind at 1 in H.
  destruct (announce ls _) as [[[]|e] s2] eqn:Eann;
    apply Hann in Eann as [o' ->]; [|injection H as <- <-; auto].
  unfold_engine. simpl in H. injection H as <- <-. auto.
Qed.


(** X1 — Copy only.  Whatever way a run of either script ends — [True],
    [False] or an exception — every path of the destination tree keeps
    the node it had: a run adds directories and files and neither removes
    nor rewrites any.  A run on a missing source directory changes nothing
    at all but the console: no destination directory is made and no state
    file written. *)
Theorem run_only_adds (source_dir dest_dir : string) (force_all : bool)
    (start_date : option datetime) (s : state) :
  (forall r s',
     Lulofoto.organize_photos w source_dir dest_dir force_all start_date s = (r, s')
     \/ BakFoto.organize_photos w source_dir dest_dir force_all s = (r, s') ->
     st_files s ⊆ st_files s')
  /\ (source_exists w (abspath source_dir) = false ->
      Lulofoto.organize_photos w source_dir dest_dir force_all start_date s
      = (Ok false, with_out s (st_out s ++ [ErrSourceMissing (abspath source_dir)]))
      /\ BakFoto.organize_photos w source_dir dest_dir force_all s
         = (Ok false, with_out s (st_out s ++ [ErrSourceMissing (abspath source_dir)]))).
Proof.
  assert (Hgrow : forall sd r s',
            Lulofoto.organize_photos w source_dir dest_dir force_all sd s = (r, s') ->
            st_files s ⊆ st_files s').
  { intros sd r s'. rewrite lulofoto_organize_eq.
    destruct (negb (source_exists w (abspath source_dir)));
      [now intros [= <- <-]|].
    destruct (prepare w _ _ s) as [[[st ls]|e] s1] eqn:Hprep.
    - pose proof Hprep as Hinv.
      apply prepare_inv in Hinv as (_ & Hls & _);
        [|intros ?; apply lulofoto_announce_prints].
      apply prepare_grows in Hprep as [Hsub _];
        [|intros ?; apply lulofoto_announce_prints].
      destruct st as [| | | | |d|]; try discriminate.
      destruct (finish_inv w (abspath dest_dir) d
                  (lulofoto_walk w (abspath source_dir) (abspath dest_dir)
                     force_all sd ls s1))
        as (s2 & Hfin & _ & _ & Hfs & _).
      rewrite Hfin. intros [= <- <-]. rewrite Hfs.
      etrans; [exact Hsub | apply lulofoto_walk_files_grow].
    - apply prepare_grows in Hprep as [Hsub _];
        [|intros ?; apply lulofoto_announce_prints].
      now intros [= <- <-]. }
  split.
  - intros r s' [H | H]; [eapply Hgrow; exact H|].
    rewrite organize_photos_agree in H. eapply Hgrow; exact H.
  - intros Hex. rewrite organize_photos_agree, lulofoto_organize_eq,
      lulofoto_organize_eq, Hex. now split.
Qed.

(** What a walk ending in [s'] did to the counters and to [copied_files],
    read off a run that returned [True]. *)
Lemma lulofoto_run_walk (source_dir dest_dir : string) (force_all : bool)
    (start_date : option datetime) (s s' : state) :
  Lulofoto.organize_photos w source_dir dest_dir force_all start_date s
    = (Ok true, s') ->
  exists last_sync s1,
    py_getitem (loaded (st_sidecar s)) "last_sync" = Ok last_sync
    /\ py_getitem (loaded (st_sidecar s)) "copied_files" = Ok (st_copied_files s1)
    /\ st_stats s1 = mkstats 0 0 0 0
    /\ st_stats s'
       = st_stats (lulofoto_walk w (abspath source_dir) (abspath dest_dir)
                     force_all start_date last_sync s1)
    /\ st_copied_files s'
       = st_copied_files (lulofoto_walk w (abspath source_dir) (abspath dest_dir)
                            force_all start_date last_sync s1).
Proof.
  intros H.
  destruct (lulofoto_organize_cases w source_dir dest_dir force_all start_date s)
    as [[_ E] | [(_ & e & sE & _ & E) | (Hex & st & ls & s1 & Hprep)]];
    try (rewrite E in H; discriminate).
  destruct (lulofoto_organize_runs w _ _ _ _ _ _ _ _ Hex Hprep)
    as (d & s'' & _ & Hrun & Hst & Hcf & _).
  rewrite Hrun in H. injection H as <-.
  apply prepare_inv in Hprep as (-> & Hls & Hcf0 & Hzero & _);
    [|intros ?; apply lulofoto_announce_prints].
  by exists ls, s1.
Qed.

(** During a walk no key leaves [copied_files]. *)
Lemma lulofoto_walk_keeps_keys (source_dir dest_dir : string) (force_all : bool)
    (start_date : option datetime) (last_sync : pyval) (key : string)
    (s : state) :
  py_contains key (st_copied_files s) = Ok true ->
  py_contains key
    (st_copied_files
       (lulofoto_walk w source_dir dest_dir force_all start_date last_sync s))
  = Ok true.
Proof.
  unfold lulofoto_walk. generalize (walk_files (walk w source_dir)). intros l.
  revert s. induction l as [|[root filename] l IH]; intros s Hin; simpl;
    [exact Hin|].
  apply IH.
  destruct (is_image_file filename) eqn:Himg; [|now rewrite guarded_not_image].
  destruct (guarded_fields filename
              (Lulofoto.file_body w source_dir dest_dir force_all start_date
                 last_sync root filename) s Himg)
    as (r & s1 & Hbody & -> & _ & _).
  apply lulofoto_file_body_inv in Hbody
    as (_ & _ & [-> | (d & p & _ & _ & _ & Hset)]); [exact Hin|].
  simpl in Hset. now apply py_setitem_contains in Hset as [_ Hmono]; apply Hmono.
Qed.

(** X2 — The record of copies only grows.  A key that the state file
    holds under [copied_files] when a run starts is still in [copied_files]
    when the run has returned [True], in either script: a run records
    copies and forgets none, also of files that are gone from the source. *)
Theorem run_keeps_recorded_keys (source_dir dest_dir : string)
    (force_all : bool) (start_date : option datetime) (s s' : state)
    (recorded : pyval) (key : string) :
  Lulofoto.organize_photos w source_dir dest_dir force_all start_date s
    = (Ok true, s')
  \/ BakFoto.organize_photos w source_dir dest_dir force_all s = (Ok true, s') ->
  py_getitem (loaded (st_sidecar s)) "copied_files" = Ok recorded ->
  py_contains key recorded = Ok true ->
  py_contains key (st_copied_files s') = Ok true.
Proof.
  assert (Hl : forall sd,
            Lulofoto.organize_photos w source_dir dest_dir force_all sd s
              = (Ok true, s') ->
            py_getitem (loaded (st_sidecar s)) "copied_files" = Ok recorded ->
            py_contains key recorded = Ok true ->
            py_contains key (st_copied_files s') = Ok true).
  { intros sd H Hrec Hin.
    apply lulofoto_run_walk in H as (ls & s1 & _ & Hcf0 & _ & _ & Hcf).
    rewrite Hcf. apply lulofoto_walk_keeps_keys. congruence. }
  intros [H | H]; [now apply (Hl start_date)|].
  rewrite organize_photos_agree in H. now apply (Hl None).
Qed.

(** X3 — What a copy records.  When the loop body of [lulofoto.py] ends
    with a copy, the date resolved for the file is under its key in
    [copied_files], in ISO form, and the bytes read from the source are at
    the destination path. *)
Theorem copy_records_date_and_bytes (source_dir dest_dir : string)
    (force_all : bool) (start_date : option datetime) (last_sync : pyval)
    (root filename : string) (s s' : state) (p : string) :
  Lulofoto.file_body w source_dir dest_dir force_all start_date last_sync
                     root filename s = (Ok (CopiedTo p), s') ->
  exists d data,
    get_photo_date w (join root filename) = Ok d
    /\ py_getitem (st_copied_files s') (relpath (join root filename) source_dir)
       = Ok (VStr (isoformat d))
    /\ copy2_from w (join root filename) = CopyDone data
    /\ st_files s' !! p = Some (File data)
    /\ st_files s !! p = None.
Proof.
  rewrite lulofoto_file_body_eq.
  destruct (get_photo_date w (join root filename)) as [d|e]; [|discriminate].
  destruct (Lulofoto.before_start start_date d); [discriminate|].
  destruct (file_mtime_of w (join root filename)) as [mt|e]; [|discriminate].
  destruct (synced_check _ _ _ _ _) as [[|]|e]; try discriminate.
  intros H.
  apply copy_photo_inv in H
    as (_ & _ & q & data & fs1 & [= <-] & Hdata & Hsub & [Hfree _] & Hfs & _
          & Hset & _).
  exists d, data. split; [reflexivity|]. repeat split.
  - destruct (st_copied_files s); try discriminate.
    injection Hset as <-. simpl. now rewrite dict_get_set_eq.
  - exact Hdata.
  - rewrite Hfs. apply lookup_insert_eq.
  - destruct (st_files s !! p) as [n|] eqn:E; [|reflexivity].
    eapply lookup_weaken in E; [|exact Hsub]. congruence.
Qed.

(** The skipped counter along a walk: one more for every image file that
    [counts] says is skipped, when the loop body skips exactly those. *)
Lemma fold_guarded_skipped (body : string -> string -> M action)
    (counts : string * string -> bool) (l : list (string * string)) (s : state) :
  (forall root filename s0 r s1,
     is_image_file filename = true ->
     body root filename s0 = (r, s1) ->
     skipped (st_stats s1)
     = (skipped (st_stats s0) + if counts (root, filename) then 1 else 0)%nat) ->
  (forall f, counts f = true -> is_image f = true) ->
  skipped (st_stats
             (fold_left (fun s '(root, filename) =>
                           guarded filename (body root filename) s) l s))
  = (skipped (st_stats s) + length (List.filter counts l))%nat.
Proof.
  intros Hbody Himg. revert s.
  induction l as [|[root filename] l IH]; intros s; simpl; [lia|].
  rewrite IH. unfold guarded.
  destruct (is_image_file filename) eqn:Hi; simpl.
  - destruct (body root filename _) as [r s1] eqn:E.
    apply (Hbody root filename _ r s1 Hi) in E. simpl in E.
    destruct r as [a|e]; simpl; rewrite E;
      destruct (counts (root, filename)); simpl; lia.
  - destruct (counts (root, filename)) eqn:Ec; [|simpl; lia].
    apply Himg in Ec. unfold is_image in Ec. simpl in Ec. congruence.
Qed.

(** X4 — [--force-all] skips nothing.  A run of either script with
    [force_all] set and no start date, once it has returned [True], has
    skipped no file: every image file found was copied or counted as an
    error. *)
Theorem force_all_skips_nothing (source_dir dest_dir : string) (s s' : state) :
  Lulofoto.organize_photos w source_dir dest_dir true None s = (Ok true, s')
  \/ BakFoto.organize_photos w source_dir dest_dir true s = (Ok true, s') ->
  skipped (st_stats s') = 0%nat
  /\ total_found (st_stats s')
     = (copied (st_stats s') + errors (st_stats s'))%nat.
Proof.
  assert (Hl : Lulofoto.organize_photos w source_dir dest_dir true None s
               = (Ok true, s') ->
               skipped (st_stats s') = 0%nat
               /\ total_found (st_stats s')
                  = (copied (st_stats s') + errors (st_stats s'))%nat).
  { intros H.
    apply lulofoto_run_walk in H as (ls & s1 & _ & _ & Hzero & Hst & _).
    pose proof (fold_guarded_skipped
                  (Lulofoto.file_body w (abspath source_dir) (abspath dest_dir)
                     true None ls)
                  (fun _ => false)
                  (walk_files (walk w (abspath source_dir))) s1) as Hskip.
    pose proof (fold_guarded_counts
                  (Lulofoto.file_body w (abspath source_dir) (abspath dest_dir)
                     true None ls)
                  (walk_files (walk w (abspath source_dir))) s1
                  (fun root filename => lulofoto_file_body_counts w _ _ _ _ _ _ _))
      as [_ Hb].
    fold (lulofoto_walk w (abspath source_dir) (abspath dest_dir) true None ls s1)
      in Hskip, Hb.
    rewrite <- Hst in Hskip, Hb. rewrite Hzero in Hskip, Hb.
    assert (Hs : skipped (st_stats s') = 0%nat).
    { rewrite Hskip; [| |discriminate].
      - clear. induction (walk_files (walk w (abspath source_dir))) as [|? ? IH];
          simpl; [reflexivity | exact IH].
      - intros root filename s0 r s2 _. rewrite lulofoto_file_body_eq. simpl.
        destruct (get_photo_date w (join root filename)) as [d|e];
          [|intros [= <- <-]; lia].
        destruct (file_mtime_of w (join root filename)) as [mt|e];
          [|intros [= <- <-]; lia].
        unfold synced_check. simpl. intros H.
        pose proof (copy_photo_counts w _ _ _ _ _ _ _ _ H) as Hc.
        destruct r as [a|e];
          [apply copy_photo_action in H as [p ->]|]; rewrite Hc; simpl; lia. }
    split; [exact Hs|]. specialize (Hb eq_refl). unfold balanced in Hb. lia. }
  intros [H | H]; [now apply Hl|].
  rewrite organize_photos_agree in H. now apply Hl.
Qed.

(** X5 — With a start date, only the date decides.  A run of
    [lulofoto.py] with a start date, once it has returned [True], has
    skipped exactly the image files whose date resolves before the start
    date: a file dated on or after it is never skipped as already synced,
    whatever the state file says. *)
Theorem start_date_run_skips_by_date_only (source_dir dest_dir : string)
    (force_all : bool) (floor : datetime) (s s' : state) :
  Lulofoto.organize_photos w source_dir dest_dir force_all (Some floor) s
    = (Ok true, s') ->
  skipped (st_stats s')
  = length (List.filter (dated_before w floor)
              (walk_files (walk w (abspath source_dir)))).
Proof.
  intros H.
  apply lulofoto_run_walk in H as (ls & s1 & _ & _ & Hzero & Hst & _).
  rewrite Hst. unfold lulofoto_walk.
  rewrite (fold_guarded_skipped _ (dated_before w floor)).
  - now rewrite Hzero.
  - intros root filename s0 r s2 Himg.
    unfold dated_before, is_image. simpl. rewrite Himg. simpl.
    rewrite lulofoto_file_body_eq.
    destruct (get_photo_date w (join root filename)) as [d|e];
      [|intros [= <- <-]; lia].
    simpl. destruct (dt_ltb d floor); [intros [= <- <-]; simpl; lia|].
    destruct (file_mtime_of w (join root filename)) as [mt|e];
      [|intros [= <- <-]; lia].
    unfold synced_check. rewrite andb_false_r. simpl. intros H.
    pose proof (copy_photo_counts w _ _ _ _ _ _ _ _ H) as Hc.
    destruct r as [a|e];
      [apply copy_photo_action in H as [p ->]|]; rewrite Hc; simpl; lia.
  - intros f Hf. unfold dated_before in Hf. now apply andb_true_iff in Hf as [Hf _].
Qed.

Lemma dict_get_set_twice (k key : string) (a b : pyval)
    (d : list (string * pyval)) :
  dict_get key d = Some a ->
  dict_get k (dict_set key a (dict_set key b d)) = dict_get k d.
Proof.
  intros Hd. destruct (String.eqb_spec k key) as [-> | Hne].
  - now rewrite dict_get_set_eq.
  - now rewrite !dict_get_set_ne.
Qed.

(** X6 — The state survives a save and a load.  Let the state be a
    dictionary whose [last_sync] is a datetime that reads back from its
    ISO form, let the document be one [json.dump] accepts, and let the
    write go through.  Then [save_state] followed by [load_state] returns
    a dictionary with the same value under every key, [last_sync]
    included, and prints nothing. *)
Theorem state_survives_save_and_load (dest_dir : string)
    (d : list (string * pyval)) (t : datetime) (s : state) :
  dict_get "last_sync" d = Some (VDatetime t) ->
  fromisoformat (isoformat t) = Ok t ->
  serializable (VDict (dict_set "last_sync" (VStr (isoformat t)) d)) = true ->
  state_write w = WriteOk ->
  exists s1 st,
    save_state w dest_dir (VDict d) s = (Ok tt, s1)
    /\ st_out s1 = st_out s
    /\ load_state dest_dir s1 = (Ok st, s1)
    /\ forall k, py_getitem st k = py_getitem (VDict d) k.
Proof.
  intros Hd Hiso Hser Hw.
  assert (Hsave : exists s1,
            save_state w dest_dir (VDict d) s = (Ok tt, s1)
            /\ st_out s1 = st_out s
            /\ st_sidecar s1
               = SidecarJson
                   (VDict (dict_set "last_sync" (VStr (isoformat t)) d))).
  { unfold save_state. unfold bind at 1. unfold lift at 1. cbn [py_getitem].
    rewrite Hd. unfold bind at 1. cbn [truthy]. unfold lift at 1.
    cbn [py_setitem]. unfold save_state_try. rewrite Hw, Hser.
    unfold_engine. cbn. by eexists. }
  destruct Hsave as (s1 & Hsave & Hout & Hsc).
  exists s1. eexists. split; [exact Hsave|]. split; [exact Hout|].
  rewrite load_state_eq, Hsc. cbn [st_sidecar load_state_try py_contains result_bind].
  rewrite dict_get_set_eq. cbn [py_getitem result_bind].
  rewrite dict_get_set_eq. cbn [result_bind]. rewrite Hiso.
  cbn [result_bind py_setitem]. split; [reflexivity|].
  intros k. cbn [py_getitem]. now rewrite (dict_get_set_twice k _ _ _ d Hd).
Qed.

(** X7 — A state without a sync time does not survive.  [save_state]
    writes a [last_sync] of [None] as [null]; [load_state] then finds the
    key, cannot read [null] as a date, and falls back on the default state
    with a warning: whatever [copied_files] the document holds is not
    loaded. *)
Theorem null_last_sync_loads_as_default (dest_dir : string)
    (d : list (string * pyval)) (s : state) :
  dict_get "last_sync" d = Some VNone ->
  serializable (VDict d) = true ->
  state_write w = WriteOk ->
  exists s1,
    save_state w dest_dir (VDict d) s = (Ok tt, s1)
    /\ st_sidecar s1 = SidecarJson (VDict d)
    /\ load_state dest_dir s1
       = (Ok default_state, with_out s1 (st_out s1 ++ [WarnLoadState TypeError])).
Proof.
  intros Hd Hser Hw.
  assert (Hsave : exists s1,
            save_state w dest_dir (VDict d) s = (Ok tt, s1)
            /\ st_sidecar s1 = SidecarJson (VDict d)).
  { unfold save_state. unfold bind at 1. unfold lift at 1. cbn [py_getitem].
    rewrite Hd. unfold save_state_try. rewrite Hw. unfold_engine.
    cbn [truthy]. rewrite Hser. by eexists. }
  destruct Hsave as (s1 & Hsave & Hsc).
  exists s1. split; [exact Hsave|]. split; [exact Hsc|].
  rewrite load_state_eq, Hsc. cbn [st_sidecar load_state_try py_contains result_bind].
  rewrite Hd. cbn [py_getitem result_bind]. rewrite Hd. reflexivity.
Qed.

(** X8 — A state file of another shape stops the run.  When the state
    file holds a JSON object without the key [last_sync], [load_state]
    returns it as it is, without warning, and [organize_photos] raises
    [KeyError] on it before the walk: only the destination directory may
    have been made, nothing is copied, counted or saved, and [main] of
    [bak-foto.py] exits with status 1.  The same happens when [last_sync]
    is there and reads as a date and [copied_files] is missing. *)
Theorem state_file_without_keys_stops_the_run (source_dir dest_dir : string)
    (force_all : bool) (start_date : option datetime)
    (d : list (string * pyval)) (s s0 : state) :
  source_exists w (abspath source_dir) = true ->
  makedirs w (abspath dest_dir) s = (Ok tt, s0) ->
  st_sidecar s = SidecarJson (VDict d) ->
  dict_get "last_sync" d = None
  \/ (dict_get "copied_files" d = None
      /\ exists text t, dict_get "last_sync" d = Some (VStr text)
                        /\ fromisoformat text = Ok t) ->
  load_state (abspath dest_dir) s0
  = (Ok (loaded (SidecarJson (VDict d))), s0)
  /\ Lulofoto.organize_photos w source_dir dest_dir force_all start_date s
     = (Raise KeyError, s0)
  /\ BakFoto.organize_photos w source_dir dest_dir force_all s
     = (Raise KeyError, s0)
  /\ BakFoto.main w source_dir dest_dir force_all s = (1, s0)
  /\ exists fs, s0 = with_files s fs /\ st_files s ⊆ fs.
Proof.
  intros Hex Hmk Hsc Hshape.
  pose proof (makedirs_inv w _ _ _ _ Hmk) as (fs0 & -> & Hsub).
  assert (Hload : load_state (abspath dest_dir) (with_files s fs0)
                  = (Ok (loaded (SidecarJson (VDict d))), with_files s fs0)
                  /\ (py_getitem (loaded (SidecarJson (VDict d))) "last_sync"
                      = Raise KeyError
                      \/ exists ls,
                           py_getitem (loaded (SidecarJson (VDict d))) "last_sync"
                           = Ok ls
                           /\ py_getitem (loaded (SidecarJson (VDict d)))
                                "copied_files" = Raise KeyError)).
  { rewrite load_state_eq. cbn [st_sidecar with_files]. rewrite Hsc.
    unfold loaded. cbn [load_state_try py_contains result_bind].
    destruct Hshape as [Hls | (Hcf & text & t & Hls & Hiso)]; rewrite Hls.
    - cbn [result_bind py_getitem]. rewrite Hls. auto.
    - cbn [py_getitem result_bind]. rewrite Hls. cbn [result_bind].
      rewrite Hiso. cbn [result_bind py_setitem py_getitem].
      split; [reflexivity|]. right. exists (VDatetime t).
      rewrite dict_get_set_eq. split; [reflexivity|].
      rewrite dict_get_set_ne by discriminate. now rewrite Hcf. }
  destruct Hload as [Hload Hkeys].
  assert (Hrun : forall sd,
            Lulofoto.organize_photos w source_dir dest_dir force_all sd s
            = (Raise KeyError, with_files s fs0)).
  { intros sd. unfold Lulofoto.organize_photos. rewrite Hex. cbn [negb].
    unfold bind at 1. rewrite Hmk.
    unfold bind at 1. rewrite Hload.
    unfold bind at 1. unfold lift at 1.
    destruct Hkeys as [-> | (ls & -> & Hcf)]; [reflexivity|].
    unfold bind at 1. unfold lift at 1. now rewrite Hcf. }
  split; [exact Hload|]. split; [apply Hrun|].
  split; [rewrite organize_photos_agree; apply Hrun|].
  split; [unfold BakFoto.main; now rewrite organize_photos_agree, Hrun|].
  by exists fs0.
Qed.



(** X17 — The state file agrees with the memory.  When a run of either
    script has returned [True] and the state file could be written, the
    file holds the time the walk ended, in ISO form, under [last_sync] and
    the [copied_files] dictionary of the run under [copied_files]; or, if
    [json.dump] refused the document, what is left of the file is no JSON
    document. *)
Theorem saved_state_agrees_with_memory (source_dir dest_dir : string)
    (force_all : bool) (start_date : option datetime) (s s' : state) :
  Lulofoto.organize_photos w source_dir dest_dir force_all start_date s
    = (Ok true, s')
  \/ BakFoto.organize_photos w source_dir dest_dir force_all s = (Ok true, s') ->
  state_write w = WriteOk ->
  (exists doc,
     st_sidecar s' = SidecarJson doc
     /\ py_getitem doc "last_sync" = Ok (VStr (isoformat (now w)))
     /\ py_getitem doc "copied_files" = Ok (st_copied_files s'))
  \/ st_sidecar s' = SidecarMalformed JSONDecodeError.
Proof.
  assert (Hl : forall sd,
            Lulofoto.organize_photos w source_dir dest_dir force_all sd s
              = (Ok true, s') ->
            state_write w = WriteOk ->
            (exists doc,
               st_sidecar s' = SidecarJson doc
               /\ py_getitem doc "last_sync" = Ok (VStr (isoformat (now w)))
               /\ py_getitem doc "copied_files" = Ok (st_copied_files s'))
            \/ st_sidecar s' = SidecarMalformed JSONDecodeError).
  { intros sd H Hw.
    destruct (lulofoto_organize_cases w source_dir dest_dir force_all sd s)
      as [[_ E] | [(_ & e & sE & _ & E) | (Hex & st & ls & s1 & Hprep)]];
      try (rewrite E in H; discriminate).
    destruct (lulofoto_organize_runs w _ _ _ _ _ _ _ _ Hex Hprep)
      as (d & s'' & _ & Hrun & _ & Hcf & _ & _ & Hsc).
    rewrite Hrun in H. injection H as <-.
    rewrite Hsc, Hcf. unfold saved_sidecar. rewrite Hw.
    destruct (serializable _); [left | now right].
    eexists. split; [reflexivity|]. unfold saved_doc. cbn [py_getitem].
    rewrite dict_get_set_eq. split; [reflexivity|].
    rewrite dict_get_set_ne by discriminate. now rewrite dict_get_set_eq. }
  intros [H | H]; [now apply (Hl start_date)|].
  rewrite organize_photos_agree in H. now apply (Hl None).
Qed.











End WholeRuns.

(* ===================================================================== *)
(** * The saved configuration                                              *)
(* ===================================================================== *)

Section SavedSettings.
Import Settings.
Context `{RT : Runtime}.
Variable w : world.
Variable config_write : write_fault.

Lemma pad2_length (n : Z) : (1 <= String.length (pad2 n))%nat.
Proof.
  unfold pad2. destruct (_ <? _)%nat eqn:E; [simpl; lia|].
  apply Nat.ltb_ge in E. lia.
Qed.

Lemma strftime_yymmdd_truthy (d : datetime) :
  truthy (VStr (strftime_yymmdd d)) = true.
Proof.
  unfold strftime_yymmdd. cbn [truthy]. rewrite append_length.
  pose proof (pad2_length (year d mod 100)).
  destruct (_ =? _)%nat eqn:E; [apply Nat.eqb_eq in E; lia | reflexivity].
Qed.

Lemma given_truthy (s : string) : Lulofoto.given (Some s) = truthy (VStr s).
Proof. reflexivity. Qed.

Lemma not_empty_truthy (s : string) : s <> "" -> truthy (VStr s) = true.
Proof. destruct s; [congruence | reflexivity]. Qed.

Lemma or_else_not_given (a : option string) (b : pyval) :
  Lulofoto.given a = false -> or_else a b = b.
Proof.
  destruct a as [s|]; [|reflexivity]. unfold Lulofoto.given, or_else.
  cbn [truthy]. now intros ->.
Qed.

Lemma or_else_given (s : string) (b : pyval) :
  s <> "" -> or_else (Some s) b = VStr s.
Proof. intros H. unfold or_else. now rewrite not_empty_truthy. Qed.

Lemma banner_disk (a : Lulofoto.args) (config : list (string * pyval))
    (source destination : pyval) (p : process) :
  disk (banner a config source destination p) = disk p.
Proof. unfold banner. now destruct (_ && _). Qed.

Lemma banner_config_file (a : Lulofoto.args) (config : list (string * pyval))
    (source destination : pyval) (p : process) :
  config_file (banner a config source destination p) = config_file p.
Proof. unfold banner. now destruct (_ && _). Qed.

(** What [load_config] returns as start date is a date or nothing. *)
Lemma load_config_start_date (p : process) :
  truthy (get (fst (load_config p)) "start_date") = true ->
  exists d, dict_get "start_date" (fst (load_config p)) = Some (VDatetime d).
Proof.
  unfold load_config.
  destruct (config_file p) as [|e|e|[| | | | |config|]]; simpl; try discriminate.
  destruct (truthy (get config "start_date")) eqn:Et; simpl.
  - destruct (dict_get "start_date" config) as [[| | |text| | |]|]; simpl;
      try discriminate.
    destruct (strptime_yymmdd text) as [d|e]; simpl; [|discriminate].
    intros _. exists d. apply dict_get_set_eq.
  - congruence.
Qed.

(** Without [--start-date], lines 283-307 raise nothing. *)
Lemma settle_saved_start_date (p : process) (source destination : pyval) :
  exists start_date,
    saved_start_date source destination (fst (load_config p))
    = Call source destination start_date.
Proof.
  unfold saved_start_date.
  destruct (truthy (get (fst (load_config p)) "start_date")) eqn:Et;
    [|by eexists].
  apply load_config_start_date in Et as [d Hd]. cbn [py_getitem].
  rewrite Hd. by eexists.
Qed.

(** What [load_config] finds after [save_config] has written. *)
Lemma load_config_after_save (source_dir dest_dir : string)
    (start_date : option datetime) (p : process) :
  config_write = WriteOk ->
  (forall d, start_date = Some d -> strptime_yymmdd (strftime_yymmdd d) = Ok d) ->
  load_config (save_config config_write source_dir dest_dir start_date p)
  = ([("source", VStr source_dir);
      ("destination", VStr dest_dir);
      ("start_date", match start_date with
                     | Some d => VDatetime d
                     | None => VNone
                     end)],
     save_config config_write source_dir dest_dir start_date p).
Proof.
  intros Hw Hback. unfold save_config. rewrite Hw.
  unfold load_config. cbn [config_file say with_config_file config_doc].
  cbn [load_config_try].
  destruct start_date as [d|]; [|reflexivity].
  unfold config_doc.
  change (get _ "start_date") with (VStr (strftime_yymmdd d)).
  rewrite strftime_yymmdd_truthy. cbn. now rewrite (Hback d eq_refl).
Qed.

(** X12 — The configuration survives a save and a load.  When the write
    goes through and the start date, if there is one, reads back from its
    six digits, [save_config] prints that the configuration is saved and
    touches nothing else, and [load_config] after it returns the source,
    the destination and the start date that were saved, without a
    warning. *)
Theorem config_survives_save_and_load (source_dir dest_dir : string)
    (start_date : option datetime) (p : process) :
  config_write = WriteOk ->
  (forall d, start_date = Some d -> strptime_yymmdd (strftime_yymmdd d) = Ok d) ->
  exists p1,
    save_config config_write source_dir dest_dir start_date p = p1
    /\ disk p1 = disk p
    /\ notices p1 = notices p ++ [(length (st_out (disk p)), ConfigSaved)]
    /\ load_config p1
       = ([("source", VStr source_dir);
           ("destination", VStr dest_dir);
           ("start_date", match start_date with
                          | Some d => VDatetime d
                          | None => VNone
                          end)], p1).
Proof.
  intros Hw Hback. eexists. split; [reflexivity|].
  split; [|split; [|now apply load_config_after_save]];
    unfold save_config; rewrite Hw; reflexivity.
Qed.

(** X13 — A start date that cannot be read costs the whole configuration.
    When the configuration file holds an object whose [start_date] is set
    and is no string of six digits that [strptime] reads, [load_config]
    warns and returns the empty configuration: the source and the
    destination of the file are lost with it, and [main] without both
    arguments exits with status 1 before it has touched anything. *)
Theorem unreadable_start_date_drops_the_configuration (a : Lulofoto.args)
    (config : list (string * pyval)) (v : pyval) (e : exn) (p : process) :
  config_file p = SidecarJson (VDict config) ->
  dict_get "start_date" config = Some v ->
  truthy v = true ->
  match v with
  | VStr text => strptime_yymmdd text
  | _ => Raise TypeError
  end = Raise e ->
  load_config p = ([], say (WarnLoadConfig e) p)
  /\ (Lulofoto.given (Lulofoto.arg_source a)
      && Lulofoto.given (Lulofoto.arg_destination a) = false ->
      main w config_write a p
      = (1, say ErrArgumentsRequired (say (WarnLoadConfig e) p))).
Proof.
  intros Hcf Hv Ht He.
  assert (Hload : load_config p = ([], say (WarnLoadConfig e) p)).
  { unfold load_config. rewrite Hcf. cbn [load_config_try]. unfold get.
    rewrite Hv, Ht. cbn [py_getitem]. rewrite Hv. cbn [result_bind].
    destruct v; rewrite He; reflexivity. }
  split; [exact Hload|].
  intros Hargs. unfold main. rewrite Hload. unfold settle.
  replace (negb (truthy (or_else (Lulofoto.arg_source a) (get [] "source")))
           || negb (truthy (or_else (Lulofoto.arg_destination a)
                              (get [] "destination"))))
    with true; [reflexivity|].
  symmetry.
  apply andb_false_iff in Hargs as [H | H];
    rewrite (or_else_not_given _ _ H); [reflexivity | apply orb_true_r].
Qed.

(** X14 — A bare run repeats the saved settings.  After [save_config] has
    written a source, a destination and a start date, [lulofoto.py] run
    without arguments calls [organize_photos] on that source and that
    destination, from that start date on, exits with 0 exactly when the
    call returns [True], and leaves the configuration file as it is.
    [--force-all] is not part of the configuration. *)
Theorem bare_run_repeats_the_saved_settings (source_dir dest_dir : string)
    (start_date : option datetime) (force_all : bool) (p : process) :
  config_write = WriteOk ->
  source_dir <> "" ->
  dest_dir <> "" ->
  (forall d, start_date = Some d -> strptime_yymmdd (strftime_yymmdd d) = Ok d) ->
  exists p2,
    main w config_write (bare force_all)
         (save_config config_write source_dir dest_dir start_date p)
    = (match fst (Lulofoto.organize_photos w source_dir dest_dir force_all
                    (option_map start_of_day start_date) (disk p)) with
       | Ok true => 0
       | _ => 1
       end, p2)
    /\ disk p2 = snd (Lulofoto.organize_photos w source_dir dest_dir force_all
                        (option_map start_of_day start_date) (disk p))
    /\ config_file p2 = SidecarJson (config_doc source_dir dest_dir start_date).
Proof.
  intros Hw Hs Hd Hback. unfold main.
  rewrite (load_config_after_save _ _ _ _ Hw Hback).
  unfold settle, bare. cbn [Lulofoto.arg_source Lulofoto.arg_destination
                            Lulofoto.arg_start_date Lulofoto.arg_force_all
                            or_else get dict_get String.eqb Ascii.eqb Bool.eqb].
  rewrite (not_empty_truthy _ Hs), (not_empty_truthy _ Hd). cbn [negb orb].
  unfold saved_start_date.
  cbn [get dict_get String.eqb Ascii.eqb Bool.eqb py_getitem].
  assert (Hdisk : disk (save_config config_write source_dir dest_dir start_date p)
                  = disk p)
    by (unfold save_config; rewrite Hw; reflexivity).
  assert (Hcfg : config_file
                   (save_config config_write source_dir dest_dir start_date p)
                 = SidecarJson (config_doc source_dir dest_dir start_date))
    by (unfold save_config; rewrite Hw; reflexivity).
  destruct start_date as [d|]; cbn [truthy option_map Lulofoto.given orb];
    rewrite banner_disk, Hdisk;
    destruct (Lulofoto.organize_photos w source_dir dest_dir force_all _ (disk p))
      as [[[|]|e] s'];
    (eexists; split; [reflexivity|]; split; [reflexivity|]);
    cbn [config_file with_disk]; now rewrite banner_config_file.
Qed.

Lemma load_config_keeps (p : process) :
  disk (snd (load_config p)) = disk p
  /\ config_file (snd (load_config p)) = config_file p.
Proof.
  unfold load_config.
  destruct (config_file p) as [|e|e|v] eqn:E; simpl; auto;
    match goal with
    | |- context [match ?r with Ok _ => _ | Raise _ => _ end] => destruct r
    end; simpl; auto.
Qed.

Lemma organize_missing_source (source_dir dest_dir : string)
    (force_all : bool) (start_date : option datetime) (s : state) :
  source_exists w (abspath source_dir) = false ->
  Lulofoto.organize_photos w source_dir dest_dir force_all start_date s
  = (Ok false, with_out s (st_out s ++ [ErrSourceMissing (abspath source_dir)])).
Proof. intros H. unfold Lulofoto.organize_photos. now rewrite H. Qed.

Lemma save_config_written (source_dir dest_dir : string)
    (start_date : option datetime) (p : process) :
  config_write = WriteOk ->
  disk (save_config config_write source_dir dest_dir start_date p) = disk p
  /\ config_file (save_config config_write source_dir dest_dir start_date p)
     = SidecarJson (config_doc source_dir dest_dir start_date).
Proof. intros Hw. unfold save_config. rewrite Hw. auto. Qed.

(** X15 — A saved start date cannot be dropped.  When the configuration
    file holds a start date that reads, every command line that reaches
    [organize_photos] reaches it with a start date, the one given or the
    saved one; and whatever the command line, the configuration file
    still holds a start date when [main] is over, the write going
    through. *)
Theorem saved_start_date_cannot_be_dropped (a : Lulofoto.args) (p : process)
    (config : list (string * pyval)) (text : string) (d : datetime) :
  config_file p = SidecarJson (VDict config) ->
  dict_get "start_date" config = Some (VStr text) ->
  text <> "" ->
  strptime_yymmdd text = Ok d ->
  (forall source destination start_date,
     settle a (fst (load_config p)) = Call source destination start_date ->
     exists d', start_date = Some (start_of_day d'))
  /\ (config_write = WriteOk ->
      holds_start_date (config_file (snd (main w config_write a p)))).
Proof.
  intros Hcf Hsd Htext Hparse.
  assert (Hload : load_config p
                  = (dict_set "start_date" (VDatetime d) config, p)).
  { unfold load_config. rewrite Hcf. cbn [load_config_try]. unfold get.
    rewrite Hsd, (not_empty_truthy _ Htext). cbn [py_getitem].
    rewrite Hsd. cbn [result_bind]. now rewrite Hparse. }
  assert (Hcall : forall source destination start_date,
            settle a (dict_set "start_date" (VDatetime d) config)
            = Call source destination start_date ->
            exists d', start_date = Some (start_of_day d')).
  { intros source destination start_date. unfold settle.
    destruct (_ || _); [discriminate|].
    assert (Hsaved : saved_start_date
                       (or_else (Lulofoto.arg_source a)
                          (get (dict_set "start_date" (VDatetime d) config) "source"))
                       (or_else (Lulofoto.arg_destination a)
                          (get (dict_set "start_date" (VDatetime d) config)
                             "destination"))
                       (dict_set "start_date" (VDatetime d) config)
                     = Call source destination start_date ->
                     exists d', start_date = Some (start_of_day d')).
    { unfold saved_start_date, get. cbn [py_getitem].
      rewrite dict_get_set_eq. cbn [truthy]. intros [= _ _ <-]. by eexists. }
    destruct (Lulofoto.arg_start_date a) as [t|]; [|exact Hsaved].
    destruct (truthy (VStr t)); [|exact Hsaved].
    destruct (strptime_yymmdd t) as [d'|e].
    - intros [= _ _ <-]. by eexists.
    - destruct (is_value_error e); discriminate. }
  split; [now rewrite Hload|].
  intros Hw.
  assert (Hold : holds_start_date (config_file p))
    by (exists config, text; auto).
  unfold main. rewrite Hload.
  destruct (settle a _) as [source destination start_date|n|e] eqn:Es;
    [|exact Hold|exact Hold].
  destruct (Hcall _ _ _ eq_refl) as [d' ->].
  destruct source as [| | |src| | |];
    try (cbn [snd]; now rewrite banner_config_file).
  destruct destination as [| | |dst| | |];
    try (cbn [snd]; now rewrite banner_config_file).
  destruct (Lulofoto.organize_photos _ _ _ _ _ _) as [[success|e] s'];
    [|cbn [snd with_disk config_file]; now rewrite banner_config_file].
  destruct (_ || _); cbn [snd].
  - destruct (save_config_written src dst (Some (start_of_day d'))
                (with_disk (banner a (dict_set "start_date" (VDatetime d) config)
                              (VStr src) (VStr dst) p) s') Hw) as [_ ->].
    eexists _, _. split; [reflexivity|]. split; [reflexivity|].
    pose proof (strftime_yymmdd_truthy (start_of_day d')) as Ht.
    intros E. rewrite E in Ht. discriminate.
  - cbn [with_disk config_file]. now rewrite banner_config_file.
Qed.

(** X16 — A run that fails still saves its arguments.  [lulofoto.py] run
    with a source that does not exist and a destination prints the error,
    exits with status 1 and has, the write going through, saved that
    source and that destination as the configuration of the runs to
    come; the destination is not made. *)
Theorem failed_run_saves_its_arguments (a : Lulofoto.args)
    (source destination : string) (p : process) :
  Lulofoto.arg_source a = Some source ->
  Lulofoto.arg_destination a = Some destination ->
  Lulofoto.arg_start_date a = None ->
  source <> "" ->
  destination <> "" ->
  source_exists w (abspath source) = false ->
  config_write = WriteOk ->
  exists p' start_date,
    main w config_write a p = (1, p')
    /\ config_file p' = SidecarJson (config_doc source destination start_date)
    /\ disk p'
       = with_out (disk p)
                  (st_out (disk p) ++ [ErrSourceMissing (abspath source)]).
Proof.
  intros Hsrc Hdst Hstart Hs Hd Hmissing Hw.
  destruct (load_config_keeps p) as [Hdisk _].
  destruct (settle_saved_start_date p (VStr source) (VStr destination))
    as [start_date Hsaved].
  unfold main. destruct (load_config p) as [config p0]. cbn [fst snd] in *.
  unfold settle. rewrite Hsrc, Hdst, Hstart.
  rewrite !or_else_given by assumption.
  rewrite !not_empty_truthy by assumption. cbn [negb orb].
  rewrite Hsaved, banner_disk, Hdisk.
  rewrite (organize_missing_source _ _ _ _ _ Hmissing).
  rewrite given_truthy, not_empty_truthy by assumption. cbn [orb].
  match goal with
  | |- context [save_config _ _ _ _ ?q] =>
      destruct (save_config_written source destination start_date q Hw)
        as [Hd' Hc']
  end.
  eexists _, start_date. split; [reflexivity|]. split; [exact Hc'|].
  rewrite Hd'. reflexivity.
Qed.

(** The exit status and the destination [main] leaves are those of
    [Lulofoto.main] on the configuration read as a record. *)
Lemma settings_main_agrees (a : Lulofoto.args) (c : Lulofoto.config) (p : process) :
  config_record (fst (load_config p)) = Some c ->
  fst (main w config_write a p) = fst (Lulofoto.main w a c (disk p))
  /\ disk (snd (main w config_write a p)) = snd (Lulofoto.main w a c (disk p)).
Proof.
  intros Hrec. destruct (load_config_keeps p) as [Hdisk _].
  unfold main. destruct (load_config p) as [config p0]. cbn [fst snd] in *.
  unfold config_record in Hrec.
  destruct (as_text (get config "source")) as [cs|] eqn:Es; [|discriminate].
  destruct (as_text (get config "destination")) as [cd|] eqn:Ed; [|discriminate].
  destruct (as_date (get config "start_date")) as [csd|] eqn:Esd; [|discriminate].
  injection Hrec as <-.
  unfold settle, Lulofoto.main, saved_start_date, or_else, Lulofoto.str_or,
    Lulofoto.given.
  cbn [Lulofoto.cfg_source Lulofoto.cfg_destination Lulofoto.cfg_start_date
       py_getitem].
  assert (Hget : forall k v, get config k = v -> v <> VNone ->
                             dict_get k config = Some v).
  { intros k v. unfold get. destruct (dict_get k config); congruence. }
  destruct (get config "source") as [| | |s0| | |] eqn:Gs; try discriminate;
    injection Es as <-;
    destruct (get config "destination") as [| | |d0| | |] eqn:Gd;
    try discriminate; injection Ed as <-;
    destruct (get config "start_date") as [| | | | | |t0] eqn:Gsd;
    try discriminate; injection Esd as <-;
    try rewrite (Hget "start_date" _ Gsd) by discriminate;
    destruct (Lulofoto.arg_source a) as [s|];
    destruct (Lulofoto.arg_destination a) as [d|];
    destruct (Lulofoto.arg_start_date a) as [t|];
    cbn [truthy negb orb andb];
    repeat match goal with
           | |- context [(String.length ?x =? 0)%nat] =>
               destruct (String.length x =? 0)%nat; cbn [truthy negb orb andb]
           end;
    try (split; [reflexivity | cbn [snd say disk]; exact Hdisk]);
    try (destruct (strptime_yymmdd t) as [dt|e];
         [|destruct (is_value_error e);
           (split; [reflexivity | cbn [snd say disk]; exact Hdisk])]);
    rewrite banner_disk, Hdisk;
    destruct (Lulofoto.organize_photos _ _ _ _ _ _) as [[[|]|e'] s'];
    cbn [fst snd];
    repeat match goal with
           | |- context [save_config _ _ _ _ ?q] =>
               unfold save_config; destruct config_write
           end;
    split; reflexivity.
Qed.


End SavedSettings.


(* ===================================================================== *)
(** * The properties on the sample trees                                   *)
(* ===================================================================== *)

Section Samples.
#[local] Existing Instance Sample.runtime.
Import Sample.




(** The capture time of [a.jpg] comes second in its metadata, after a
    field that is no date. *)
Lemma date_resolver_first_match_then_mtime_witness :
  get_photo_date photos "/src/a.jpg" = Ok (mkdt 2025 1 18 14 30 0 0).
Proof.
  apply (proj1 (date_resolver_first_match_then_mtime photos "/src/a.jpg")
           [(271, ExifStr "Lulo")] [] 36867 (ExifStr "2025:01:18 14:30:00")).
  - reflexivity.
  - vm_compute. reflexivity.
  - constructor; [|constructor]. intros [H _]. vm_compute in H. discriminate.
  - vm_compute. reflexivity.
  - vm_compute. reflexivity.
Defined.


(** On the second run [a.jpg] is skipped as already synced. *)
Lemma state_based_skip_rule_witness :
  exists s',
    Lulofoto.file_body photos "/src" "/dst" false None (VDatetime noon_jan_20)
                       "/src" "a.jpg" (snd first_run) = (Ok SkippedSynced, s').
Proof.
  apply (proj1 (state_based_skip_rule photos "/src" "/dst" false None
                  (VDatetime noon_jan_20) "/src" "a.jpg" (snd first_run))).
  split; [reflexivity|]. split; [reflexivity|]. split.
  - exists noon_jan_20, (mkdt 2025 1 19 15 20 0 0).
    split; [reflexivity|]. split; vm_compute; reflexivity.
  - vm_compute. reflexivity.
Defined.

(** From 2025-01-19 on, [a.jpg] of the day before is skipped. *)
Lemma date_floor_filter_witness :
  Lulofoto.file_body photos "/src" "/dst" false (Some jan_19) VNone
                     "/src" "a.jpg" fresh
  = (Ok SkippedFloor, with_stats fresh (bump_skipped (st_stats fresh))).
Proof.
  apply (proj1 (date_floor_filter photos "/src" "/dst" false jan_19 VNone fresh)
           "/src" "a.jpg" (mkdt 2025 1 18 14 30 0 0)).
  - vm_compute. reflexivity.
  - vm_compute. reflexivity.
Defined.


(** The second run of the scenario copies nothing and skips both photos. *)
Lemma second_run_copies_nothing_witness :
  exists s2,
    second_run = (Ok true, s2)
    /\ copied (st_stats s2) = 0%nat
    /\ skipped (st_stats s2) = total_found (st_stats s2).
Proof.
  destruct (second_run_copies_nothing photos photos "/src" "/dst" false fresh
              (snd first_run)) as (s2 & Hrun & Hc & Hs & _).
  - vm_compute. reflexivity.
  - vm_compute. reflexivity.
  - reflexivity.
  - eexists. vm_compute. reflexivity.
  - vm_compute. reflexivity.
  - intros root filename [H | [H | [H | []]]] Himg;
      injection H as <- <-; try discriminate.
    + exists (mkdt 2025 1 19 15 20 0 0). split; vm_compute; reflexivity.
    + exists (mkdt 2025 1 19 9 0 0 0). split; vm_compute; reflexivity.
  - reflexivity.
  - reflexivity.
  - reflexivity.
  - exists s2. split; [exact Hrun|]. split; [exact Hc | exact Hs].
Defined.

(** C1, as stated, fails.  The first run over the tree with the late and
    the locked photo completes and saves its state; the second run, over
    the same tree, copies the late photo again, counts the locked one as
    an error again, and skips nothing.  And a first run from 2025-01-19 on
    completes without error, having skipped [a.jpg] for its date; the
    second run, without start date, copies [a.jpg]. *)
Lemma idempotence_counterexample :
  (fst skewed_first_run = Ok true
   /\ st_sidecar (snd skewed_first_run)
      = SidecarJson
          (VDict [("last_sync", VStr "2025-01-20T12:00:00");
                  ("copied_files",
                   VDict [("late.jpg", VStr "2025-01-21T00:00:00")])])
   /\ fst skewed_second_run = Ok true
   /\ st_stats (snd skewed_second_run) = mkstats 2 1 0 1
   /\ ~ (copied (st_stats (snd skewed_second_run)) = 0%nat
         /\ skipped (st_stats (snd skewed_second_run))
            = total_found (st_stats (snd skewed_second_run))))
  /\ (fst from_jan_19_first_run = Ok true
      /\ st_stats (snd from_jan_19_first_run) = mkstats 2 1 1 0
      /\ st_sidecar (snd from_jan_19_first_run)
         = SidecarJson
             (VDict [("last_sync", VStr "2025-01-20T12:00:00");
                     ("copied_files",
                      VDict [("b.jpg", VStr "2025-01-19T09:00:00")])])
      /\ fst from_jan_19_second_run = Ok true
      /\ st_stats (snd from_jan_19_second_run) = mkstats 2 1 1 0
      /\ ~ (copied (st_stats (snd from_jan_19_second_run)) = 0%nat
            /\ skipped (st_stats (snd from_jan_19_second_run))
               = total_found (st_stats (snd from_jan_19_second_run)))).
Proof.
  split; repeat split; try (vm_compute; reflexivity);
    intros [H _]; vm_compute in H; discriminate.
Qed.

(** C3, as stated, fails: [a.jpg] is dated before the start date of the
    second run and is skipped by it, and its key is in [copied_files]
    after that run, in memory and in the state file, from the run before. *)
Lemma date_floor_counterexample :
  get_photo_date photos "/src/a.jpg" = Ok (mkdt 2025 1 18 14 30 0 0)
  /\ dt_ltb (mkdt 2025 1 18 14 30 0 0) jan_19 = true
  /\ fst second_run_from_jan_19 = Ok true
  /\ py_contains "a.jpg" (st_copied_files (snd second_run_from_jan_19)) = Ok true
  /\ st_sidecar (snd second_run_from_jan_19)
     = SidecarJson
         (VDict [("last_sync", VStr "2025-01-20T12:00:00");
                 ("copied_files",
                  VDict [("a.jpg", VStr "2025-01-18T14:30:00");
                         ("b.jpg", VStr "2025-01-19T09:00:00")])]).
Proof. repeat split; vm_compute; reflexivity. Qed.

(** C5, as stated, fails: the link is an image file by its name, and the
    resolver raises on it. *)
Lemma date_resolver_counterexample :
  is_image_file "link.jpg" = true
  /\ get_photo_date dangling (join "/src" "link.jpg") = Raise OSError
  /\ ~ (exists d, get_photo_date dangling (join "/src" "link.jpg") = Ok d).
Proof.
  repeat split; try (vm_compute; reflexivity).
  intros [d H]. vm_compute in H. discriminate.
Qed.

End Samples.

(* ===================================================================== *)
(** * The further properties on the sample trees                           *)
(* ===================================================================== *)

Section MoreSamples.
#[local] Existing Instance Sample.runtime.
Import Sample Scenes Settings.

(** The second run of the scenario keeps every node of the first, and a
    run on a source that is not there only prints. *)
Lemma run_only_adds_witness :
  st_files (snd first_run) ⊆ st_files (snd second_run)
  /\ Lulofoto.organize_photos photos "/nowhere" "/dst" false None fresh
     = (Ok false,
        with_out fresh
                 (st_out fresh ++ [ErrSourceMissing (abspath "/nowhere")])).
Proof.
  split.
  - apply (proj1 (run_only_adds photos "/src" "/dst" false None (snd first_run))
             (fst second_run) (snd second_run)).
    left. vm_compute. reflexivity.
  - destruct (proj2 (run_only_adds photos "/nowhere" "/dst" false None fresh))
      as [H _]; [vm_compute; reflexivity | exact H].
Defined.

(** [a.jpg], recorded by the first run, is still recorded after the
    second. *)
Lemma run_keeps_recorded_keys_witness :
  py_contains "a.jpg" (st_copied_files (snd second_run)) = Ok true.
Proof.
  apply (run_keeps_recorded_keys photos "/src" "/dst" false None
           (snd first_run) (snd second_run)
           (VDict [("a.jpg", VStr "2025-01-18T14:30:00");
                   ("b.jpg", VStr "2025-01-19T09:00:00")])).
  - left. vm_compute. reflexivity.
  - vm_compute. reflexivity.
  - reflexivity.
Defined.

(** The copy of [a.jpg]: its capture time under its key, its byte in the
    folder of that day. *)
Lemma copy_records_date_and_bytes_witness :
  exists d data,
    get_photo_date photos (join "/src" "a.jpg") = Ok d
    /\ py_getitem
         (st_copied_files
            (snd (Lulofoto.file_body photos "/src" "/dst" false None VNone
                    "/src" "a.jpg" ready)))
         (relpath (join "/src" "a.jpg") "/src")
       = Ok (VStr (isoformat d))
    /\ copy2_from photos (join "/src" "a.jpg") = CopyDone data
    /\ st_files (snd (Lulofoto.file_body photos "/src" "/dst" false None VNone
                        "/src" "a.jpg" ready)) !! "/dst/250118/a.jpg"
       = Some (File data)
    /\ st_files ready !! "/dst/250118/a.jpg" = None.
Proof.
  apply (copy_records_date_and_bytes photos "/src" "/dst" false None VNone
           "/src" "a.jpg" ready).
  vm_compute. reflexivity.
Defined.

(** The second run with [--force-all] copies both photos again. *)
Lemma force_all_skips_nothing_witness :
  skipped (st_stats (snd forced_second_run)) = 0%nat
  /\ total_found (st_stats (snd forced_second_run))
     = (copied (st_stats (snd forced_second_run))
        + errors (st_stats (snd forced_second_run)))%nat.
Proof.
  apply (force_all_skips_nothing photos "/src" "/dst" (snd first_run)).
  left. vm_compute. reflexivity.
Defined.

(** From 2025-01-19 on, the second run skips [a.jpg] alone, though both
    photos are recorded. *)
Lemma start_date_run_skips_by_date_only_witness :
  skipped (st_stats (snd second_run_from_jan_19))
  = length (List.filter (dated_before photos jan_19)
              (walk_files (walk photos (abspath "/src"))))
  /\ skipped (st_stats (snd second_run_from_jan_19)) = 1%nat.
Proof.
  split.
  - apply (start_date_run_skips_by_date_only photos "/src" "/dst" false jan_19
             (snd first_run)).
    vm_compute. reflexivity.
  - reflexivity.
Defined.

(** A stamped state, saved and loaded. *)
Lemma state_survives_save_and_load_witness :
  exists s1 st,
    save_state photos "/dst" (VDict stamped) ready = (Ok tt, s1)
    /\ st_out s1 = st_out ready
    /\ load_state "/dst" s1 = (Ok st, s1)
    /\ forall k, py_getitem st k = py_getitem (VDict stamped) k.
Proof.
  apply (state_survives_save_and_load photos "/dst" stamped noon_jan_20 ready).
  - reflexivity.
  - vm_compute. reflexivity.
  - reflexivity.
  - reflexivity.
Defined.

(** A state that was never stamped, saved and loaded: [a.jpg] is
    forgotten. *)
Lemma null_last_sync_loads_as_default_witness :
  exists s1,
    save_state photos "/dst" (VDict unstamped) ready = (Ok tt, s1)
    /\ st_sidecar s1 = SidecarJson (VDict unstamped)
    /\ load_state "/dst" s1
       = (Ok default_state, with_out s1 (st_out s1 ++ [WarnLoadState TypeError])).
Proof.
  apply (null_last_sync_loads_as_default photos "/dst" unstamped ready);
    reflexivity.
Defined.

(** A destination with the state file of another program: the run stops
    with [KeyError] after the destination directory is made. *)
Lemma state_file_without_keys_stops_the_run_witness :
  Lulofoto.organize_photos photos "/src" "/dst" false None foreign
  = (Raise KeyError, with_files foreign {["/dst" := Dir]}).
Proof.
  destruct (state_file_without_keys_stops_the_run photos "/src" "/dst" false
              None [("version", VInt 1)] foreign
              (with_files foreign {["/dst" := Dir]}))
    as (_ & H & _).
  - reflexivity.
  - vm_compute. reflexivity.
  - reflexivity.
  - left. reflexivity.
  - exact H.
Defined.


(** The state file after the first run of the scenario. *)
Lemma saved_state_agrees_with_memory_witness :
  (exists doc,
     st_sidecar (snd first_run) = SidecarJson doc
     /\ py_getitem doc "last_sync" = Ok (VStr (isoformat (now photos)))
     /\ py_getitem doc "copied_files" = Ok (st_copied_files (snd first_run)))
  \/ st_sidecar (snd first_run) = SidecarMalformed JSONDecodeError.
Proof.
  apply (saved_state_agrees_with_memory photos "/src" "/dst" false None fresh).
  - left. vm_compute. reflexivity.
  - reflexivity.
Defined.

(** A photo as a camera names it. *)
Lemma image_names_are_stem_and_extension_witness :
  is_image_file "IMG_0001.JPG" = true.
Proof.
  apply (proj2 (image_names_are_stem_and_extension "IMG_0001.JPG")).
  exists "IMG_0001", ".JPG". split; [reflexivity|]. split; [discriminate|].
  vm_compute. left. reflexivity.
Defined.

(** The configuration of a run from 2025-01-19 on, saved and loaded. *)
Lemma config_survives_save_and_load_witness :
  exists p1,
    save_config WriteOk "/src" "/dst" (Some jan_19) first_process = p1
    /\ disk p1 = disk first_process
    /\ notices p1
       = notices first_process
         ++ [(length (st_out (disk first_process)), ConfigSaved)]
    /\ load_config p1
       = ([("source", VStr "/src");
           ("destination", VStr "/dst");
           ("start_date", VDatetime jan_19)], p1).
Proof.
  apply (config_survives_save_and_load WriteOk "/src" "/dst" (Some jan_19)
           first_process).
  - reflexivity.
  - intros d [= <-]. vm_compute. reflexivity.
Defined.

(** The start date written as a calendar date: the bare run is refused,
    though the file names a source and a destination. *)
Lemma unreadable_start_date_drops_the_configuration_witness :
  main photos WriteOk (bare false) dashed_process
  = (1, say ErrArgumentsRequired (say (WarnLoadConfig ValueError) dashed_process)).
Proof.
  destruct (unreadable_start_date_drops_the_configuration photos WriteOk
              (bare false) dashed (VStr "2025-01-19") ValueError dashed_process)
    as [_ H];
    [reflexivity | reflexivity | reflexivity | vm_compute; reflexivity |].
  apply H. reflexivity.
Defined.

(** After the settings of a run from 2025-01-19 on are saved, the bare
    run is that run. *)
Lemma bare_run_repeats_the_saved_settings_witness :
  exists p2,
    main photos WriteOk (bare false)
         (save_config WriteOk "/src" "/dst" (Some jan_19) first_process)
    = (match fst (Lulofoto.organize_photos photos "/src" "/dst" false
                    (option_map start_of_day (Some jan_19))
                    (disk first_process)) with
       | Ok true => 0
       | _ => 1
       end, p2)
    /\ disk p2 = snd (Lulofoto.organize_photos photos "/src" "/dst" false
                        (option_map start_of_day (Some jan_19))
                        (disk first_process))
    /\ config_file p2 = SidecarJson (config_doc "/src" "/dst" (Some jan_19)).
Proof.
  apply (bare_run_repeats_the_saved_settings photos WriteOk "/src" "/dst"
           (Some jan_19) false first_process).
  - reflexivity.
  - discriminate.
  - discriminate.
  - intros d [= <-]. vm_compute. reflexivity.
Defined.

(** With 2025-01-19 saved, [lulofoto.py /src /dst] leaves a start date in
    the configuration. *)
Lemma saved_start_date_cannot_be_dropped_witness :
  holds_start_date
    (config_file (snd (main photos WriteOk command_line from_jan_19_process))).
Proof.
  destruct (saved_start_date_cannot_be_dropped photos WriteOk command_line
              from_jan_19_process from_jan_19 "250119" jan_19)
    as [_ H];
    [reflexivity | reflexivity | discriminate | vm_compute; reflexivity |].
  apply H. reflexivity.
Defined.

(** [lulofoto.py /nowhere /dst]: status 1, and [/nowhere] is the saved
    source. *)
Lemma failed_run_saves_its_arguments_witness :
  exists p' start_date,
    main photos WriteOk wrong_source first_process = (1, p')
    /\ config_file p' = SidecarJson (config_doc "/nowhere" "/dst" start_date)
    /\ disk p'
       = with_out (disk first_process)
                  (st_out (disk first_process)
                   ++ [ErrSourceMissing (abspath "/nowhere")]).
Proof.
  apply (failed_run_saves_its_arguments photos WriteOk wrong_source
           "/nowhere" "/dst" first_process);
    try reflexivity; discriminate.
Defined.



End MoreSamples.
